(** * The [fine-tune] command of pymagnitude's bundled AllenNLP

    A shallow embedding of
    [pymagnitude/third_party/allennlp/commands/fine_tune.py]: the workflow
    [fine_tune_model] is written as a program in a state-and-exception monad
    over a world made of the file system, the configuration object, the model
    and a trace of the calls the workflow makes.  Everything the workflow only
    calls (dataset construction, the vocabulary, the iterator, the trainer,
    archival, evaluation, Python's [re.search]) is an operation of the class
    [AllenNLP], so that every theorem holds for every behaviour of these
    collaborators. *)

From stdpp Require Import base option list strings gmap.
From Stdlib Require Import ZArith Lia.

Set Warnings "-register-all".

(** ** Python values of a configuration tree and of a metrics document *)

Inductive value :=
  | VNone
  | VBool (b : bool)
  | VInt (z : Z)
  | VFloat (m e : Z)        (* the decimal literal m * 10^e *)
  | VStr (s : string)
  | VList (l : list value)  (* lists and tuples *)
  | VDict (d : gmap string value).

(** Python's truth value of an object, as [if x:] tests it. *)
Definition truthy (v : value) : bool :=
  match v with
  | VNone => false
  | VBool b => b
  | VInt z => negb (z =? 0)%Z
  | VFloat m _ => negb (m =? 0)%Z
  | VStr s => negb (String.eqb s "")
  | VList l => match l with [] => false | _ :: _ => true end
  | VDict d => negb (bool_decide (d = ∅))
  end.

Inductive exn :=
  | ConfigurationError (msg : string)
  | KeyboardInterrupt
  | KeyError (key : string)
  | IndexError
  | TypeError
  | AttributeError
  | ValueError
  | OSError
  | RuntimeError (msg : string).

Inductive result (A : Type) :=
  | Ok (a : A)
  | Raise (e : exn).
Arguments Ok {A} a.
Arguments Raise {A} e.

Definition is_Ok {A} (r : result A) : bool :=
  match r with Ok _ => true | Raise _ => false end.

Definition raised {A} (r : result A) : option exn :=
  match r with Ok _ => None | Raise e => Some e end.

Definition is_KeyboardInterrupt (e : exn) : bool :=
  match e with KeyboardInterrupt => true | _ => false end.

Fixpoint chars (s : string) : list value :=
  match s with
  | EmptyString => []
  | String c rest => VStr (String c EmptyString) :: chars rest
  end.

(** [for x in v]: the elements Python's iteration protocol yields. *)
Definition py_iter (v : value) : result (list value) :=
  match v with
  | VList l => Ok l
  | VStr s => Ok (chars s)
  | VDict d => Ok (VStr <$> (map_to_list d).*1)
  | _ => Raise TypeError
  end.

Definition hashable (v : value) : bool :=
  match v with VList _ | VDict _ => false | _ => true end.

(** [set(v)]: the elements, which must be hashable.  Duplicates are kept: the
    workflow only tests membership in the set and loops over it with a body
    whose effect does not depend on the order or the multiplicity. *)
Definition py_set (v : value) : result (list value) :=
  match py_iter v with
  | Ok l => if forallb hashable l then Ok l else Raise TypeError
  | Raise e => Raise e
  end.

(** [v.get(key, default)] on a popped configuration section. *)
Definition value_get (v : value) (key : string) (default : value) : result value :=
  match v with
  | VDict d => Ok (from_option id default (d !! key))
  | _ => Raise AttributeError
  end.

(** [v.pop(key, default)] on a popped configuration section. *)
Definition value_pop (v : value) (key : string) (default : value)
  : result (value * value) :=
  match v with
  | VDict d => Ok (from_option id default (d !! key), VDict (delete key d))
  | VList _ => Raise TypeError
  | _ => Raise AttributeError
  end.

(** ** Dataset collections: a Python dict, in insertion order *)

Fixpoint dict_get {A} (d : list (string * A)) (key : string) : option A :=
  match d with
  | [] => None
  | (k, a) :: rest => if decide (k = key) then Some a else dict_get rest key
  end.

Definition dict_getitem {A} (d : list (string * A)) (key : string) : result A :=
  match dict_get d key with
  | Some a => Ok a
  | None => Raise (KeyError key)
  end.

(** [x in d] for a configuration value [x]: only strings can be keys. *)
Definition dict_contains {A} (d : list (string * A)) (x : value) : bool :=
  match x with
  | VStr k => bool_decide (k ∈ d.*1)
  | _ => false
  end.

Definition str_of (v : value) : option string :=
  match v with VStr s => Some s | _ => None end.

(** ** The file system *)

Abbreviation path := (list string).

(** What a file holds: [JsonText n v] is the text [json.dumps(v, indent=n)]. *)
Inductive content :=
  | JsonText (indent : nat) (doc : value)
  | Blob (tag : string).

Inductive node :=
  | Dir
  | File (c : content).

Abbreviation filesystem := (gmap path node).

Definition os_path_join (d : path) (name : string) : path := d ++ [name].

Definition os_path_exists (fs : filesystem) (p : path) : bool :=
  bool_decide (is_Some (fs !! p)).

Definition children (fs : filesystem) (d : path) : list string :=
  omap (λ kv : path * node,
          if decide (kv.1 ≠ [] ∧ removelast kv.1 = d) then last kv.1 else None)
       (map_to_list fs).

Definition os_listdir (fs : filesystem) (d : path) : result (list string) :=
  match fs !! d with
  | Some Dir => Ok (children fs d)
  | Some (File _) => Raise OSError
  | None => Raise OSError
  end.

Fixpoint makedirs_from (fs : filesystem) (done : path) (todo : list string)
  : result filesystem :=
  match todo with
  | [] => Ok fs
  | c :: rest =>
      let d := done ++ [c] in
      match fs !! d with
      | None => makedirs_from (<[d := Dir]> fs) d rest
      | Some Dir => makedirs_from fs d rest
      | Some (File _) => Raise OSError
      end
  end.

(** [os.makedirs(p, exist_ok=True)]. *)
Definition os_makedirs (p : path) (fs : filesystem) : result unit * filesystem :=
  match makedirs_from fs [] p with
  | Ok fs' => (Ok (), fs')
  | Raise e => (Raise e, fs)
  end.

(** [with open(p, "w") as f: f.write(c)]. *)
Definition write_file (p : path) (c : content) (fs : filesystem)
  : result unit * filesystem :=
  match fs !! removelast p, fs !! p with
  | Some Dir, Some Dir => (Raise OSError, fs)
  | Some Dir, _ => (Ok (), <[p := File c]> fs)
  | _, _ => (Raise OSError, fs)
  end.

(** ** The configuration object *)

(** Modelled from the spec: [allennlp.common.Params] is not part of the
    sources at hand.  The spec's configuration tree is a nested key-value
    structure that is consumed destructively: sections are popped as they
    are used, a required section that is missing is a configuration error,
    and keys left over at the end of the set-up are a configuration error.
    [files_to_archive] is the attribute the workflow hands to the archiver. *)
Record Params := mkParams {
  params : gmap string value;
  files_to_archive : gmap string string
}.

Definition set_params (d : gmap string value) (p : Params) : Params :=
  mkParams d (files_to_archive p).

(** Modelled from the spec: [params.pop(key, default)], where
    [default = None] stands for no default; a missing key without a default
    is a configuration error. *)
Definition Params_pop (key : string) (default : option value) (p : Params)
  : result value * Params :=
  match params p !! key, default with
  | Some v, _ => (Ok v, set_params (delete key (params p)) p)
  | None, Some v => (Ok v, p)
  | None, None =>
      (Raise (ConfigurationError ("key " +:+ key +:+ " is required")), p)
  end.

(** Modelled from the spec: [params.pop(key, default)] where the default
    is not a configuration value; [None] is returned for the caller to put
    the default in. *)
Definition Params_pop_opt (key : string) (p : Params)
  : result (option value) * Params :=
  match params p !! key with
  | Some v => (Ok (Some v), set_params (delete key (params p)) p)
  | None => (Ok None, p)
  end.

(** Modelled from the spec: [params.pop_bool(key, default)], the pop of a
    boolean flag, which may be written [true] or [false] as text. *)
Definition Params_pop_bool (key : string) (default : bool) (p : Params)
  : result value * Params :=
  match Params_pop key (Some (VBool default)) p with
  | (Ok VNone, p') => (Ok VNone, p')
  | (Ok (VBool b), p') => (Ok (VBool b), p')
  | (Ok (VStr s), p') =>
      if String.eqb s "true" then (Ok (VBool true), p')
      else if String.eqb s "false" then (Ok (VBool false), p')
      else (Raise ValueError, p')
  | (Ok _, p') => (Raise ValueError, p')
  | (Raise e, p') => (Raise e, p')
  end.

(** Modelled from the spec: [params.assert_empty(class_name)], the
    configuration error for keys that nothing has consumed. *)
Definition Params_assert_empty (class_name : string) (p : Params)
  : result unit * Params :=
  if bool_decide (params p = ∅) then (Ok (), p)
  else (Raise (ConfigurationError
                 ("Extra parameters passed to " +:+ class_name)), p).

(** Modelled from the spec: [deepcopy(params).as_dict(quiet=True)], the
    configuration as a plain dictionary. *)
Definition as_dict (p : Params) : value := VDict (params p).

(** ** The model *)

Record NNParameter (T : Type) := mkParameter {
  requires_grad : bool;
  data : T
}.
Arguments mkParameter {T} _ _.
Arguments requires_grad {T} _.
Arguments data {T} _.

(** [parameter.requires_grad_(b)]. *)
Definition requires_grad_ {T} (b : bool) (p : NNParameter T) : NNParameter T :=
  mkParameter b (data p).

Record Model (V T : Type) := mkModel {
  named_parameters : list (string * NNParameter T);
  vocab : V
}.
Arguments mkModel {V T} _ _.
Arguments named_parameters {V T} _.
Arguments vocab {V T} _.

Definition set_named_parameters {V T} (ps : list (string * NNParameter T))
  (m : Model V T) : Model V T := mkModel ps (vocab m).

Definition set_vocab {V T} (v : V) (m : Model V T) : Model V T :=
  mkModel (named_parameters m) v.

(** ** The trace of what the workflow does *)

Inductive log_level := WARNING | INFO.

(** The messages of the workflow.  [MsgExtendingVocabulary] holds the names
    that line 193 joins with [", "], as the set they are: the joined text
    lists them in the order in which Python iterates over that set, which
    depends on how the set was built and on the hashes of the names, and
    which the message leaves out.  Two messages that are equal here are
    equal up to the order of the names in the text. *)
Inductive log_msg :=
  | MsgModelIgnored            (* "You passed parameters for the model ..." *)
  | MsgDirectoryPathIgnored    (* "You passed `directory_path` ..." *)
  | MsgExtendingVocabulary (datasets : gset string)
  | MsgFrozenHeader
  | MsgTunableHeader
  | MsgParameterName (name : string)
  | MsgInterrupted
  | MsgEvaluateHint
  | MsgMetrics (metrics_json : content).

(** The functions of the framework that the workflow calls. *)
Inductive callee :=
  | C_prepare_environment
  | C_prepare_global_logging
  | C_datasets_from_params
  | C_extend_from_instances
  | C_save_to_files
  | C_DataIterator_from_params
  | C_index_with
  | C_get_frozen_and_tunable_parameter_names
  | C_Trainer_from_params
  | C_train
  | C_archive_model
  | C_evaluate.

(** Every event is recorded when the operation is invoked. *)
Inductive event :=
  | Log (lvl : log_level) (msg : log_msg)
  | Pop (key : string)          (* a pop on the top-level configuration *)
  | AssertEmpty
  | Makedirs (p : path)
  | WriteFile (p : path) (c : content)
  | Call (f : callee).

Definition is_call (f : callee) (ev : event) : bool :=
  match ev with
  | Call g =>
      match f, g with
      | C_prepare_environment, C_prepare_environment
      | C_prepare_global_logging, C_prepare_global_logging
      | C_datasets_from_params, C_datasets_from_params
      | C_extend_from_instances, C_extend_from_instances
      | C_save_to_files, C_save_to_files
      | C_DataIterator_from_params, C_DataIterator_from_params
      | C_index_with, C_index_with
      | C_get_frozen_and_tunable_parameter_names,
        C_get_frozen_and_tunable_parameter_names
      | C_Trainer_from_params, C_Trainer_from_params
      | C_train, C_train
      | C_archive_model, C_archive_model
      | C_evaluate, C_evaluate => true
      | _, _ => false
      end
  | _ => false
  end.

Definition is_pop (ev : event) : bool :=
  match ev with Pop _ => true | _ => false end.

Definition is_pop_of (key : string) (ev : event) : bool :=
  match ev with Pop k => bool_decide (k = key) | _ => false end.

Definition is_write (ev : event) : bool :=
  match ev with
  | Makedirs _ | WriteFile _ _ => true
  | Call C_prepare_global_logging | Call C_save_to_files
  | Call C_train | Call C_archive_model => true
  | _ => false
  end.

Definition is_model_warning (ev : event) : bool :=
  match ev with Log WARNING MsgModelIgnored => true | _ => false end.


(** How often the trace holds an event of a kind. *)
Definition count (p : event → bool) (tr : list event) : nat :=
  length (filter (λ ev, p ev = true) tr).

(** Every occurrence of a [late] event in the trace comes after some
    occurrence of an [early] event. *)
Definition precedes (early late : event → Prop) (tr : list event) : Prop :=
  ∀ j ev, tr !! j = Some ev → late ev →
    ∃ i ev', i < j ∧ tr !! i = Some ev' ∧ early ev'.

(** ** The collaborators *)

(** What [fine_tune.py] imports and only calls.  A collaborator that can
    fail returns a [result]; one that changes the configuration, the file
    system or the model returns the changed object, also when it fails.
    [CONFIG_NAME] and [_DEFAULT_WEIGHTS] are the two file-name constants of
    [allennlp.models]; [re_search r s] is the truth value of Python's
    [re.search(r, s)].

    [Trainer_from_params] is taken as the constructor it is called as: it
    gets the model and the serialization directory of line 224 and returns
    the trainer.  What a trainer does with that directory and with the
    model is in [train]; that the constructor itself leaves the file system
    and the model as they are is an assumption of this class, not something
    that [fine_tune.py] shows. *)
Class AllenNLP := {
  Inst : Type;
  Vocabulary : Type;
  Tensor : Type;
  DataIterator : Type;
  Trainer : Type;
  CONFIG_NAME : string;
  _DEFAULT_WEIGHTS : string;
  re_search : string → string → result bool;
  prepare_environment : Params → result unit * Params;
  prepare_global_logging :
    path → bool → filesystem → result unit * filesystem;
  datasets_from_params :
    Params → result (list (string * list Inst)) * Params;
  extend_from_instances :
    Vocabulary → value → list Inst → result unit * Vocabulary;
  save_to_files : Vocabulary → path → filesystem → result unit * filesystem;
  DataIterator_from_params : value → result DataIterator;
  index_with : DataIterator → Vocabulary → DataIterator;
  Trainer_from_params :
    Model Vocabulary Tensor → path → DataIterator → list Inst →
    option (list Inst) → value → result Trainer;
  _cuda_devices : Trainer → list Z;
  train :
    Trainer → Model Vocabulary Tensor → filesystem →
    result (gmap string value) * (Model Vocabulary Tensor * filesystem);
  archive_model :
    path → gmap string string → filesystem → result unit * filesystem;
  evaluate :
    Model Vocabulary Tensor → list Inst → DataIterator → Z →
    result (gmap string value)
}.

Abbreviation model_t := (Model Vocabulary Tensor).
Abbreviation datasets_t := (list (string * list Inst)).

Section fine_tune.
Context `{AllenNLP}.

(** ** The world and the monad *)

Record world := World {
  fs : filesystem;
  config : Params;
  model : model_t;
  trace : list event
}.

Definition set_fs (x : filesystem) (w : world) : world :=
  World x (config w) (model w) (trace w).
Definition set_config (x : Params) (w : world) : world :=
  World (fs w) x (model w) (trace w).
Definition set_model (x : model_t) (w : world) : world :=
  World (fs w) (config w) x (trace w).
Definition set_trace (x : list event) (w : world) : world :=
  World (fs w) (config w) (model w) x.

(** A computation takes a world and ends with a value or a raised
    exception, in the world as it has left it. *)
Definition M (A : Type) : Type := world → result A * world.

#[global] Instance M_ret : MRet M := λ A a w, (Ok a, w).
#[global] Instance M_bind : MBind M := λ A B f m w,
  match m w with
  | (Ok a, w') => f a w'
  | (Raise e, w') => (Raise e, w')
  end.

Definition raise {A} (e : exn) : M A := λ w, (Raise e, w).
Definition gets {A} (f : world → A) : M A := λ w, (Ok (f w), w).
Definition lift_result {A} (r : result A) : M A := λ w, (r, w).
Definition emit (ev : event) : M unit :=
  λ w, (Ok (), set_trace (trace w ++ [ev]) w).
Definition on_fs {A} (f : filesystem → result A * filesystem) : M A :=
  λ w, let '(r, x) := f (fs w) in (r, set_fs x w).
Definition on_config {A} (f : Params → result A * Params) : M A :=
  λ w, let '(r, x) := f (config w) in (r, set_config x w).
Definition on_model {A} (f : model_t → result A * model_t) : M A :=
  λ w, let '(r, x) := f (model w) in (r, set_model x w).

(** [try: body  except <caught>: handler]. *)
Definition try_except {A} (body : M A) (caught : exn → bool)
  (handler : exn → M A) : M A :=
  λ w, match body w with
       | (Raise e, w') => if caught e then handler e w' else (Raise e, w')
       | (Ok a, w') => (Ok a, w')
       end.

Definition logger (lvl : log_level) (msg : log_msg) : M unit :=
  emit (Log lvl msg).

Definition call (f : callee) : M unit := emit (Call f).

Definition params_pop (key : string) (default : option value) : M value :=
  emit (Pop key);; on_config (Params_pop key default).
Definition params_pop_opt (key : string) : M (option value) :=
  emit (Pop key);; on_config (Params_pop_opt key).
Definition params_pop_bool (key : string) (default : bool) : M value :=
  emit (Pop key);; on_config (Params_pop_bool key default).
Definition params_assert_empty (class_name : string) : M unit :=
  emit AssertEmpty;; on_config (Params_assert_empty class_name).

Definition open_write (p : path) (c : content) : M unit :=
  emit (WriteFile p c);; on_fs (write_file p c).

(** ** The freezing step (lines 209 to 212) *)

(** [any(re.search(regex, name) for regex in regexes)]: [any] stops at the
    first match; [re.search] raises on a pattern that is not a string. *)
Fixpoint any_search (regexes : list value) (name : string) : result bool :=
  match regexes with
  | [] => Ok false
  | VStr regex :: rest =>
      match re_search regex name with
      | Ok true => Ok true
      | Ok false => any_search rest name
      | Raise e => Raise e
      end
  | _ :: _ => Raise TypeError
  end.

Definition matches_any (no_grad_regexes : value) (name : string) : result bool :=
  match py_iter no_grad_regexes with
  | Ok regexes => any_search regexes name
  | Raise e => Raise e
  end.

(** The loop over [model.named_parameters()]; parameters visited before an
    exception keep what the loop did to them. *)
Fixpoint freeze_loop (no_grad_regexes : value)
  (ps : list (string * NNParameter Tensor))
  : result unit * list (string * NNParameter Tensor) :=
  match ps with
  | [] => (Ok (), [])
  | (name, parameter) :: rest =>
      match matches_any no_grad_regexes name with
      | Raise e => (Raise e, (name, parameter) :: rest)
      | Ok b =>
          let parameter' :=
            if b then requires_grad_ false parameter else parameter in
          let '(r, rest') := freeze_loop no_grad_regexes rest in
          (r, (name, parameter') :: rest')
      end
  end.

Definition freeze_parameters (no_grad_regexes : value) : M unit :=
  on_model (λ m,
    let '(r, ps) := freeze_loop no_grad_regexes (named_parameters m) in
    (r, set_named_parameters ps m)).

(** Modelled from the spec: [get_frozen_and_tunable_parameter_names] of
    [allennlp.common.util] is not part of the sources at hand.  By the spec
    it is the partition of the model's parameters into frozen (gradient
    disabled) and tunable (gradient enabled) ones, by name, in order. *)
Definition get_frozen_and_tunable_parameter_names (m : model_t)
  : list string * list string :=
  ((filter (λ np, requires_grad np.2 = false) (named_parameters m)).*1,
   (filter (λ np, requires_grad np.2 = true) (named_parameters m)).*1).

Fixpoint log_names (names : list string) : M unit :=
  match names with
  | [] => mret ()
  | name :: rest => logger INFO (MsgParameterName name);; log_names rest
  end.

(** Lines 214 to 221. *)
Definition log_frozen_and_tunable : M unit :=
  call C_get_frozen_and_tunable_parameter_names;;
  names ← gets (λ w, get_frozen_and_tunable_parameter_names (model w));
  logger INFO MsgFrozenHeader;;
  log_names names.1;;
  logger INFO MsgTunableHeader;;
  log_names names.2.

(** ** Vocabulary extension (lines 187 to 197) *)

(** The loop of lines 189 to 191; its message is the literal of the source,
    which no longer interpolates the name. *)
Fixpoint check_datasets (requested : list value) (all_datasets : datasets_t)
  : result unit :=
  match requested with
  | [] => Ok ()
  | dataset :: rest =>
      if dict_contains all_datasets dataset
      then check_datasets rest all_datasets
      else Raise (ConfigurationError
                    "invalid 'dataset_for_vocab_creation' {dataset}")
  end.

(** The generator of lines 195 to 197. *)
Definition instances_of (all_datasets : datasets_t) (requested : list value)
  : list Inst :=
  kv ← all_datasets;
  if bool_decide (kv.1 ∈ omap str_of requested) then kv.2 else [].

Definition extend_vocabulary (vocabulary_params : value)
  (all_datasets : datasets_t) : M unit :=
  popped ← params_pop_opt "datasets_for_vocab_creation";
  datasets_for_vocab_creation ←
    lift_result (match popped with
                 | Some v => py_set v
                 | None => Ok (VStr <$> all_datasets.*1)
                 end);
  lift_result (check_datasets datasets_for_vocab_creation all_datasets);;
  logger INFO (MsgExtendingVocabulary
                 (list_to_set (omap str_of datasets_for_vocab_creation)));;
  call C_extend_from_instances;;
  on_model (λ m,
    let '(r, v) :=
      extend_from_instances (vocab m) vocabulary_params
        (instances_of all_datasets datasets_for_vocab_creation) in
    (r, set_vocab v m)).

(** ** The workflow [fine_tune_model], in three phases *)

(** Lines 162 to 172: the serialization directory and the snapshot of the
    configuration. *)
Definition prepare_serialization_dir (serialization_dir : path)
  (file_friendly_logging : bool) : M unit :=
  call C_prepare_environment;;
  on_config prepare_environment;;
  fs0 ← gets fs;
  listing ← (if os_path_exists fs0 serialization_dir
             then lift_result (os_listdir fs0 serialization_dir)
             else mret []);
  match listing with
  | _ :: _ =>
      raise (ConfigurationError
               ("Serialization directory ({serialization_dir}) " +:+
                "already exists and is not empty."))
  | [] => mret ()
  end;;
  emit (Makedirs serialization_dir);;
  on_fs (os_makedirs serialization_dir);;
  call C_prepare_global_logging;;
  on_fs (prepare_global_logging serialization_dir file_friendly_logging);;
  serialization_params ← gets (λ w, as_dict (config w));
  open_write (os_path_join serialization_dir CONFIG_NAME)
             (JsonText 4 serialization_params).

(** Lines 174 to 181: the two sections of the configuration that are
    ignored; the value is [vocabulary_params]. *)
Definition discard_model_and_directory_path : M value :=
  model_params ← params_pop "model" (Some VNone);
  (if truthy model_params then logger WARNING MsgModelIgnored else mret ());;
  vocabulary_params ← params_pop "vocabulary" (Some (VDict ∅));
  directory_path ←
    lift_result (value_get vocabulary_params "directory_path" VNone);
  (if truthy directory_path
   then logger WARNING MsgDirectoryPathIgnored else mret ());;
  mret vocabulary_params.

(** Lines 162 to 183: up to and including dataset construction. *)
Definition load_datasets (serialization_dir : path)
  (file_friendly_logging : bool) : M (value * datasets_t) :=
  prepare_serialization_dir serialization_dir file_friendly_logging;;
  vocabulary_params ← discard_model_and_directory_path;
  call C_datasets_from_params;;
  all_datasets ← on_config datasets_from_params;
  mret (vocabulary_params, all_datasets).

(** The local variables that the last phase reads. *)
Record setup := Setup {
  iterator : DataIterator;
  test_data : option (list Inst);
  trainer : Trainer;
  evaluate_on_test : value
}.

(** Lines 184 to 230: vocabulary, iterator, freezing, trainer. *)
Definition build_trainer (serialization_dir : path) (extend_vocab : bool)
  (vocabulary_params : value) (all_datasets : datasets_t) : M setup :=
  (if extend_vocab
   then extend_vocabulary vocabulary_params all_datasets else mret ());;
  call C_save_to_files;;
  v ← gets (λ w, vocab (model w));
  on_fs (save_to_files v (os_path_join serialization_dir "vocabulary"));;
  iterator_params ← params_pop "iterator" None;
  call C_DataIterator_from_params;;
  iterator ← lift_result (DataIterator_from_params iterator_params);
  call C_index_with;;
  v ← gets (λ w, vocab (model w));
  let iterator := index_with iterator v in
  train_data ← lift_result (dict_getitem all_datasets "train");
  let validation_data := dict_get all_datasets "validation" in
  let test_data := dict_get all_datasets "test" in
  trainer_params ← params_pop "trainer" None;
  popped ← lift_result (value_pop trainer_params "no_grad" (VList []));
  let no_grad_regexes := popped.1 in
  let trainer_params := popped.2 in
  freeze_parameters no_grad_regexes;;
  log_frozen_and_tunable;;
  call C_Trainer_from_params;;
  m ← gets model;
  trainer ← lift_result
    (Trainer_from_params m serialization_dir iterator train_data
       validation_data trainer_params);
  evaluate_on_test ← params_pop_bool "evaluate_on_test" false;
  mret (Setup iterator test_data trainer evaluate_on_test).

(** [trainer.train()]: it works on the model and on the file system. *)
Definition run_train (t : Trainer) : M (gmap string value) :=
  λ w, let '(r, (m, x)) := train t (model w) (fs w) in
       (r, set_fs x (set_model m w)).

Definition run_archive_model (serialization_dir : path) : M unit :=
  call C_archive_model;;
  files ← gets (λ w, files_to_archive (config w));
  on_fs (archive_model serialization_dir files).

(** Lines 232 to 240. *)
Definition train_or_archive_on_interrupt (serialization_dir : path)
  (t : Trainer) : M (gmap string value) :=
  try_except
    (call C_train;; run_train t)
    is_KeyboardInterrupt
    (λ e,
       fs1 ← gets fs;
       (if os_path_exists fs1 (os_path_join serialization_dir _DEFAULT_WEIGHTS)
        then logger INFO MsgInterrupted;;
             run_archive_model serialization_dir
        else mret ());;
       raise e).

(** The loop of lines 247 and 248. *)
Definition add_test_metrics (metrics : gmap string value)
  (items : list (string * value)) : gmap string value :=
  foldl (λ acc kv, <["test_" +:+ kv.1 := kv.2]> acc) metrics items.

Definition nonempty {A} (data : option (list A)) : bool :=
  match data with Some (_ :: _) => true | _ => false end.

(** Lines 231 to 259: the check for left-over keys, training, archival,
    evaluation and the metrics document. *)
Definition train_and_report (serialization_dir : path) (s : setup)
  : M model_t :=
  params_assert_empty "base train command";;
  metrics ← train_or_archive_on_interrupt serialization_dir (trainer s);
  run_archive_model serialization_dir;;
  metrics ←
    (if nonempty (test_data s) && truthy (evaluate_on_test s)
     then
       cuda_device ← lift_result
         (match _cuda_devices (trainer s) with
          | d :: _ => Ok d
          | [] => Raise IndexError
          end);
       call C_evaluate;;
       m ← gets model;
       test_metrics ← lift_result
         (evaluate m (default [] (test_data s)) (iterator s) cuda_device);
       mret (add_test_metrics metrics (map_to_list test_metrics))
     else
       (if nonempty (test_data s)
        then logger INFO MsgEvaluateHint else mret ());;
       mret metrics);
  let metrics_json := JsonText 2 (VDict metrics) in
  open_write (os_path_join serialization_dir "metrics.json") metrics_json;;
  logger INFO (MsgMetrics metrics_json);;
  gets model.

Definition fine_tune_model (serialization_dir : path)
  (extend_vocab file_friendly_logging : bool) : M model_t :=
  loaded ← load_datasets serialization_dir file_friendly_logging;
  s ← build_trainer serialization_dir extend_vocab loaded.1 loaded.2;
  train_and_report serialization_dir s.

(** The world in which a run starts. *)
Definition initial (x : filesystem) (p : Params) (m : model_t) : world :=
  World x p m [].

End fine_tune.

(** ** The entry points (lines 83 to 129) *)

(** What [load_archive] returns; the entry points read its [model]. *)
Module Archive.
Record t (M : Type) := mk { model : M }.
Arguments mk {M} _.
Arguments model {M} _.
End Archive.

(** The [argparse.Namespace] that the subparser of lines 39 to 78 fills:
    one attribute for each argument it declares, under the argument's long
    name. *)
Module Namespace.
Record t := mk {
  model_archive : path;
  config_file : path;
  serialization_dir : path;
  overrides : string;
  extend_vocab : bool;
  file_friendly_logging : bool
}.
End Namespace.

(** The two loaders that only the entry points call: [load_archive] unpacks
    the archive on the file system, [Params.from_file] reads the
    configuration file and applies the overrides. *)
Class Archival `{AllenNLP} := {
  load_archive : path → filesystem → result (Archive.t model_t) * filesystem;
  Params_from_file :
    path → string → filesystem → result Params * filesystem
}.

(** What an entry point does, in order: the two loads, then the events of
    the workflow. *)
Inductive entry_event :=
  | LoadArchive (model_archive_path : path)
  | ParamsFromFile (config_file : path) (overrides : string)
  | Workflow (ev : event).

Section entry_points.
Context `{Archival}.

(** Lines 95 to 129.  An entry point starts on a file system and ends with
    a value or an exception, the file system as it has left it, and the
    record of what it did. *)
Definition fine_tune_model_from_file_paths
  (model_archive_path config_file serialization_dir : path)
  (overrides : string) (extend_vocab file_friendly_logging : bool)
  (x : filesystem) : result model_t * (filesystem * list entry_event) :=
  match load_archive model_archive_path x with
  | (Raise e, x1) => (Raise e, (x1, [LoadArchive model_archive_path]))
  | (Ok archive, x1) =>
      match Params_from_file config_file overrides x1 with
      | (Raise e, x2) =>
          (Raise e, (x2, [LoadArchive model_archive_path;
                          ParamsFromFile config_file overrides]))
      | (Ok params, x2) =>
          let '(r, w) :=
            fine_tune_model serialization_dir extend_vocab
              file_friendly_logging
              (initial x2 params (Archive.model archive)) in
          (r, (fs w, LoadArchive model_archive_path ::
                     ParamsFromFile config_file overrides ::
                     (Workflow <$> trace w)))
      end
  end.

(** Lines 83 to 92: the value of the call is dropped, the function returns
    [None]. *)
Definition fine_tune_model_from_args (args : Namespace.t) (x : filesystem)
  : result unit * (filesystem * list entry_event) :=
  let '(r, st) :=
    fine_tune_model_from_file_paths
      (Namespace.model_archive args) (Namespace.config_file args)
      (Namespace.serialization_dir args) (Namespace.overrides args)
      (Namespace.extend_vocab args) (Namespace.file_friendly_logging args) x in
  (match r with Ok _ => Ok () | Raise e => Raise e end, st).

End entry_points.

(** ** What the theorems are stated with *)

(** The error of line 164; the message is the literal of the source, which
    no longer interpolates the directory. *)
Definition refusal : exn :=
  ConfigurationError
    "Serialization directory ({serialization_dir}) already exists and is not empty.".

(** The error of line 191. *)
Definition invalid_source : exn :=
  ConfigurationError "invalid 'dataset_for_vocab_creation' {dataset}".

(** The error of [params.assert_empty] at line 231. *)
Definition leftover : exn :=
  ConfigurationError "Extra parameters passed to base train command".

(** What the caller sees of an interrupted training: the interrupt, unless
    the archiver was called and failed. *)
Definition interrupted (checkpoint : bool) (archived : result unit) : exn :=
  if checkpoint
  then match archived with Ok _ => KeyboardInterrupt | Raise e => e end
  else KeyboardInterrupt.

(** The key that line 187 pops. *)
Definition vocab_sources : string := "datasets_for_vocab_creation".

Definition is_warning (ev : event) : bool :=
  match ev with Log WARNING _ => true | _ => false end.

Definition is_write_file (ev : event) : bool :=
  match ev with WriteFile _ _ => true | _ => false end.

(** Kinds of events that only the later lines produce. *)
Definition is_late (ev : event) : bool :=
  is_call C_extend_from_instances ev || is_call C_train ev ||
  is_call C_archive_model ev || is_call C_evaluate ev ||
  is_pop_of "datasets_for_vocab_creation" ev.

(** Calls of lines 233 to 246. *)
Definition is_training (ev : event) : bool :=
  is_call C_train ev || is_call C_archive_model ev || is_call C_evaluate ev.


(** Where line 255 writes the metrics. *)
Definition metrics_path (d : path) : path := os_path_join d "metrics.json".

Section notions.
Context `{AllenNLP}.

(** Every run of the computation takes a world to one related by [R]. *)
Definition steps (R : relation world) {A} (m : M A) : Prop :=
  ∀ w r w', m w = (r, w') → R w w'.

(** The computation only adds events that are not of kind [p]. *)
Definition quiet (p : event → bool) : relation world :=
  λ w w', ∃ evs, trace w' = trace w ++ evs ∧ Forall (λ ev, p ev = false) evs.

(** The computation leaves a component of the world as it is. *)
Definition keeps {X} (f : world → X) : relation world :=
  λ w w', f w' = f w.

(** The events of a run have no kind at all in common with [λ _, false]:
    this relation only says that the trace grows at its end. *)
Definition grows : relation world := quiet (λ _, false).

(** Where line 171 writes the configuration. *)
Definition snapshot_path (d : path) : path := os_path_join d CONFIG_NAME.

(** What the first eleven lines record, in order. *)
Definition prepare_events (d : path) (p : Params) : list event :=
  [Call C_prepare_environment; Makedirs d; Call C_prepare_global_logging;
   WriteFile (snapshot_path d) (JsonText 4 (as_dict p))].

(** The set that line 187 builds from a configuration and the dataset
    collection. *)
Definition requested_datasets (p : Params) (all_datasets : datasets_t)
  : result (list value) :=
  match params p !! "datasets_for_vocab_creation" with
  | Some v => py_set v
  | None => Ok (VStr <$> all_datasets.*1)
  end.

Definition model_vocab (w : world) : Vocabulary := vocab (model w).

(** The name matches at least one of the patterns, under [re.search]. *)
Definition matched (no_grad_regexes : value) (name : string) : Prop :=
  ∃ regexes regex,
    py_iter no_grad_regexes = Ok regexes ∧
    VStr regex ∈ regexes ∧ re_search regex name = Ok true.

End notions.

(** ** What the further theorems are stated with *)

Definition is_assert_empty (ev : event) : bool :=
  match ev with AssertEmpty => true | _ => false end.

Definition is_makedirs (ev : event) : bool :=
  match ev with Makedirs _ => true | _ => false end.

(** The write of line 255: the document of indentation 2 at the metrics
    path. *)
Definition is_metrics_write (d : path) (ev : event) : bool :=
  match ev with
  | WriteFile q (JsonText 2 _) => bool_decide (q = metrics_path d)
  | _ => false
  end.

(** The trace has every [late] event after an [early] one; [seen] says that
    an [early] event came before the trace. *)
Fixpoint ordered (early late : event → bool) (seen : bool) (tr : list event)
  : bool :=
  match tr with
  | [] => true
  | ev :: rest =>
      (seen || negb (late ev)) && ordered early late (seen || early ev) rest
  end.

(** What the set-up may do to a parameter: nothing to its name and to its
    data, and to its gradient only a switch from enabled to disabled. *)
Definition may_freeze {T} (np np' : string * NNParameter T) : Prop :=
  np'.1 = np.1 ∧ data np'.2 = data np.2 ∧
  (requires_grad np'.2 = true → requires_grad np.2 = true).

Section further_notions.
Context `{AllenNLP}.

(** A call of [os.makedirs] on a path that is not the serialization
    directory, or a file opened for writing that is neither the snapshot nor
    the metrics file. *)
Definition writes_elsewhere (d : path) (ev : event) : bool :=
  match ev with
  | WriteFile q _ =>
      negb (bool_decide (q = snapshot_path d ∨ q = metrics_path d))
  | Makedirs q => negb (bool_decide (q = d))
  | _ => false
  end.

(** Lines 184 to 199 on their own: the vocabulary of the model, extended
    first when the caller asks for it, is saved under [vocabulary] in the
    serialization directory. *)
Definition save_vocabulary (serialization_dir : path) (extend_vocab : bool)
  (vocabulary_params : value) (all_datasets : datasets_t) : M unit :=
  (if extend_vocab
   then extend_vocabulary vocabulary_params all_datasets else mret ());;
  call C_save_to_files;;
  v ← gets (λ w, vocab (model w));
  on_fs (save_to_files v (os_path_join serialization_dir "vocabulary")).

(** The parameters of the model are what they were, up to [may_freeze]. *)
Definition frozen_further : relation world :=
  λ w w', Forall2 may_freeze (named_parameters (model w))
                             (named_parameters (model w')).

End further_notions.

(** The keys that the workflow itself pops from the configuration, in the
    order of lines 174 to 230. *)
Definition own_keys (extend_vocab : bool) : list string :=
  ["model"; "vocabulary"] ++
  (if extend_vocab then ["datasets_for_vocab_creation"] else []) ++
  ["iterator"; "trainer"; "evaluate_on_test"].

(** The keys of the pops of a trace, in order. *)
Definition pops (tr : list event) : list string :=
  omap (λ ev, match ev with Pop key => Some key | _ => None end) tr.

(** ** A small framework to run the workflow on

    Instances are tokens, a vocabulary is the list of its tokens, patterns
    are searched as plain substrings (and ["("] is rejected as Python rejects
    an unbalanced pattern), the trainer is interrupted when its section asks
    for it, and the archiver needs every file it is told to include. *)
Module Demo.

Fixpoint contains (needle hay : string) : bool :=
  String.prefix needle hay ||
  match hay with
  | EmptyString => false
  | String _ rest => contains needle rest
  end.

Definition drop_keys (keys : list string) (p : Params) : Params :=
  set_params (foldr delete (params p) keys) p.

Definition datasets (p : Params) : result (list (string * list string)) * Params :=
  match params p !! "train_data_path" with
  | None => (Raise (ConfigurationError "key train_data_path is required"), p)
  | Some _ =>
      (Ok ([("train", ["c"; "a"])] ++
           (if bool_decide (is_Some (params p !! "validation_data_path"))
            then [("validation", ["b"])] else []) ++
           (if bool_decide (is_Some (params p !! "test_data_path"))
            then [("test", ["d"])] else [])),
       drop_keys ["dataset_reader"; "train_data_path";
                  "validation_data_path"; "test_data_path"] p)
  end.

Definition flag (key : string) (v : value) : bool :=
  match v with
  | VDict d => match d !! key with Some (VBool true) => true | _ => false end
  | _ => false
  end.

Definition training (t : path * value) (m : Model (list string) unit)
  (x : filesystem)
  : result (gmap string value) * (Model (list string) unit * filesystem) :=
  let saved := <[t.1 ++ ["best.th"] := File (Blob "weights")]> x in
  if flag "interrupt_before_checkpoint" t.2
  then (Raise KeyboardInterrupt, (m, x))
  else if flag "interrupt" t.2
  then (Raise KeyboardInterrupt, (m, saved))
  else (Ok {["training_loss" := VFloat 5 (-1)]}, (m, saved)).

Definition archiving (d : path) (files : gmap string string) (x : filesystem)
  : result unit * filesystem :=
  if forallb (λ kv : string * string, os_path_exists x [kv.2])
             (map_to_list files)
  then (Ok (), <[d ++ ["model.tar.gz"] := File (Blob "archive")]> x)
  else (Raise OSError, x).

#[export] Instance framework : AllenNLP := {|
  Inst := string;
  Vocabulary := list string;
  Tensor := unit;
  DataIterator := unit;
  Trainer := path * value;
  CONFIG_NAME := "config.json";
  _DEFAULT_WEIGHTS := "best.th";
  re_search := λ regex name,
    if String.eqb regex "(" then Raise (RuntimeError "re.error")
    else Ok (contains regex name);
  prepare_environment := λ p,
    (Ok (), drop_keys ["random_seed"; "numpy_seed"; "pytorch_seed"] p);
  prepare_global_logging := λ d _ x,
    (Ok (), <[d ++ ["stdout.log"] := File (Blob "log")]> x);
  datasets_from_params := datasets;
  extend_from_instances := λ v _ instances, (Ok (), v ++ instances);
  save_to_files := λ v d x,
    (Ok (), <[d ++ ["tokens.txt"] := File (Blob "tokens")]> (<[d := Dir]> x));
  DataIterator_from_params := λ _, Ok ();
  index_with := λ it _, it;
  Trainer_from_params := λ _ d _ _ _ trainer_params, Ok (d, trainer_params);
  _cuda_devices := λ _, [(-1)%Z];
  train := training;
  archive_model := archiving;
  evaluate := λ _ _ _ _, Ok {["accuracy" := VFloat 9 (-1)]}
|}.

(** The settings of a vocabulary that is built from instances. *)
Definition vocabulary_settings : list string :=
  ["min_count"; "max_vocab_size"; "non_padded_namespaces";
   "pretrained_files"; "min_pretrained_embeddings";
   "only_include_pretrained_words"; "tokens_to_add"].

(** The same framework with a vocabulary that, when it is extended, takes
    these settings from the section it is handed and refuses a section that
    holds any other key. *)
Definition strict : AllenNLP := {|
  Inst := string;
  Vocabulary := list string;
  Tensor := unit;
  DataIterator := unit;
  Trainer := path * value;
  CONFIG_NAME := "config.json";
  _DEFAULT_WEIGHTS := "best.th";
  re_search := re_search (AllenNLP := framework);
  prepare_environment := prepare_environment (AllenNLP := framework);
  prepare_global_logging := prepare_global_logging (AllenNLP := framework);
  datasets_from_params := datasets;
  extend_from_instances := λ v section instances,
    match section with
    | VDict settings =>
        if bool_decide (foldr delete settings vocabulary_settings = ∅)
        then (Ok (), v ++ instances)
        else (Raise (ConfigurationError
                       "Extra parameters passed to Vocabulary - from dataset"),
              v)
    | _ => (Raise AttributeError, v)
    end;
  save_to_files := save_to_files (AllenNLP := framework);
  DataIterator_from_params := λ _, Ok ();
  index_with := λ it _, it;
  Trainer_from_params := λ _ d _ _ _ trainer_params, Ok (d, trainer_params);
  _cuda_devices := λ _, [(-1)%Z];
  train := training;
  archive_model := archiving;
  evaluate := λ _ _ _ _, Ok {["accuracy" := VFloat 9 (-1)]}
|}.

Definition weights (frozen : bool) : NNParameter unit :=
  mkParameter (negb frozen) ().

(** A bundle with one embedding that was trained frozen. *)
Definition bundle : Model (list string) unit :=
  mkModel [("embedder.weight", weights true);
           ("encoder.weight", weights false);
           ("encoder.bias", weights false)]
          ["a"; "b"].

Definition base_config : gmap string value :=
  {[ "train_data_path" := VStr "train.txt";
     "iterator" := VDict {[ "type" := VStr "basic" ]};
     "trainer" := VDict {[ "no_grad" := VList [VStr "bias"] ]} ]}.

Definition out : path := ["out"].

(** The value of a computation that has returned. *)
Definition the {A} (dflt : A) (r : result A) : A :=
  match r with Ok a => a | Raise _ => dflt end.

(** A run of the workflow on the bundle, and the states between its phases
    when it starts on an empty file system. *)
Abbreviation start x c files :=
  (initial (H := framework) x (mkParams c files) bundle).

Abbreviation run x c files extend_vocab :=
  (fine_tune_model (H := framework) out extend_vocab false (start x c files)).

Abbreviation loaded c files :=
  (load_datasets (H := framework) out false (start ∅ c files)).

Abbreviation no_data := ((VNone, []) : value * list (string * list string)).

Abbreviation no_setup :=
  (Setup (H := framework) () None (out, VNone) VNone).

Abbreviation datasets_of c files := (the no_data (loaded c files).1).

Abbreviation built c files extend_vocab :=
  (build_trainer (H := framework) out extend_vocab
     (datasets_of c files).1 (datasets_of c files).2 (loaded c files).2).

Abbreviation setup_of c files extend_vocab :=
  (the no_setup (built c files extend_vocab).1).

(** A serialization directory that is in use. *)
Definition used : filesystem :=
  {[ ["out"] := Dir; ["out"; "stdout.log"] := File (Blob "log") ]}.

(** Configurations. *)
Definition with_model (section : value) : gmap string value :=
  <["model" := section]> base_config.



Definition without_data : gmap string value :=
  {[ "iterator" := VDict {[ "type" := VStr "basic" ]} ]}.

Definition with_typo : gmap string value :=
  <["trainers" := VDict ∅]> base_config.

Definition with_sources (names : list string) : gmap string value :=
  <["datasets_for_vocab_creation" := VList (VStr <$> names)]> base_config.

Definition interrupted_config : gmap string value :=
  <["trainer" := VDict {[ "interrupt" := VBool true ]}]> base_config.

Definition with_test : gmap string value :=
  <["test_data_path" := VStr "test.txt"]>
    (<["evaluate_on_test" := VBool true]> base_config).

(** The same framework with a trainer that can run out of memory and that
    has no device when its section says so, and with an evaluation that
    fails. *)
Definition fragile : AllenNLP := {|
  Inst := string;
  Vocabulary := list string;
  Tensor := unit;
  DataIterator := unit;
  Trainer := path * value;
  CONFIG_NAME := "config.json";
  _DEFAULT_WEIGHTS := "best.th";
  re_search := re_search (AllenNLP := framework);
  prepare_environment := prepare_environment (AllenNLP := framework);
  prepare_global_logging := prepare_global_logging (AllenNLP := framework);
  datasets_from_params := datasets;
  extend_from_instances := λ v _ instances, (Ok (), v ++ instances);
  save_to_files := save_to_files (AllenNLP := framework);
  DataIterator_from_params := λ _, Ok ();
  index_with := λ it _, it;
  Trainer_from_params := λ _ d _ _ _ trainer_params, Ok (d, trainer_params);
  _cuda_devices := λ t, if flag "no_device" t.2 then [] else [0%Z];
  train := λ t m x,
    if flag "out_of_memory" t.2
    then (Raise (RuntimeError "CUDA out of memory"), (m, x))
    else training t m x;
  archive_model := archiving;
  evaluate := λ _ _ _ _, Raise (RuntimeError "size mismatch")
|}.

(** An archive is a file that holds the bundle; a configuration file holds
    the configuration as a document. *)
#[export] Instance archives : @Archival framework := {|
  load_archive := λ p x,
    match x !! p with
    | Some (File (Blob "archive")) => (Ok (Archive.mk bundle), x)
    | _ => (Raise OSError, x)
    end;
  Params_from_file := λ p _ x,
    match x !! p with
    | Some (File (JsonText _ (VDict c))) => (Ok (mkParams c ∅), x)
    | _ => (Raise OSError, x)
    end
|}.

(** Runs on the framework [F]. *)
Abbreviation start_on F x c files :=
  (initial (H := F) x (mkParams c files) bundle).

Abbreviation run_on F x c files extend_vocab :=
  (fine_tune_model (H := F) out extend_vocab false (start_on F x c files)).

Abbreviation loaded_on F c files :=
  (load_datasets (H := F) out false (start_on F ∅ c files)).

Abbreviation no_setup_on F := (Setup (H := F) () None (out, VNone) VNone).

Abbreviation datasets_on F c files := (the no_data (loaded_on F c files).1).

Abbreviation built_on F c files extend_vocab :=
  (build_trainer (H := F) out extend_vocab
     (datasets_on F c files).1 (datasets_on F c files).2
     (loaded_on F c files).2).

Abbreviation setup_on F c files extend_vocab :=
  (the (no_setup_on F) (built_on F c files extend_vocab).1).

Abbreviation trained_on F c files extend_vocab :=
  (train (AllenNLP := F) (trainer (setup_on F c files extend_vocab))
     (model (built_on F c files extend_vocab).2)
     (fs (built_on F c files extend_vocab).2)).

Abbreviation archived_on F c files extend_vocab :=
  (archive_model (AllenNLP := F) out
     (files_to_archive (config (built_on F c files extend_vocab).2))
     (trained_on F c files extend_vocab).2.2).

(** File systems. *)
Definition taken : filesystem := {[ ["out"] := File (Blob "notes") ]}.

Definition vacant : filesystem := {[ ["out"] := Dir ]}.

Definition shelf : filesystem :=
  {[ ["model.tar.gz"] := File (Blob "archive");
     ["fine_tune.json"] := File (JsonText 4 (VDict base_config));
     ["out"] := Dir;
     ["out"; "stdout.log"] := File (Blob "log") ]}.

(** A serialization directory two levels down. *)
Definition deep : path := ["a"; "b"; "out"].

Definition command : Namespace.t :=
  Namespace.mk ["model.tar.gz"] ["fine_tune.json"] ["out"] "" false false.

(** Configurations. *)
Definition out_of_memory : gmap string value :=
  <["trainer" := VDict {[ "out_of_memory" := VBool true ]}]> base_config.

Definition with_test_only : gmap string value :=
  <["test_data_path" := VStr "test.txt"]> base_config.

Definition without_no_grad : gmap string value :=
  <["trainer" := VDict {[ "num_epochs" := VInt 2 ]}]> base_config.

Definition with_null_vocabulary : gmap string value :=
  <["vocabulary" := VNone]> base_config.

Definition validation_only : list (string * list string) :=
  [("validation", ["b"])].

Definition train_and_test : list (string * list string) :=
  [("train", ["c"; "a"]); ("test", ["d"])].

End Demo.

(** * Reasoning about runs *)

Section runs.
Context `{AllenNLP}.

Lemma bind_run {A B} (m : M A) (f : A → M B) w :
  (m ≫= f) w =
  match m w with
  | (Ok a, w') => f a w'
  | (Raise e, w') => (Raise e, w')
  end.
Proof. reflexivity. Qed.

Lemma bind_Ok {A B} (m : M A) (f : A → M B) w a w1 :
  m w = (Ok a, w1) → (m ≫= f) w = f a w1.
Proof. intros E. rewrite bind_run, E. reflexivity. Qed.

Lemma bind_Raise {A B} (m : M A) (f : A → M B) w e w1 :
  m w = (Raise e, w1) → (m ≫= f) w = (Raise e, w1).
Proof. intros E. rewrite bind_run, E. reflexivity. Qed.

Lemma bind_inv {A B} (m : M A) (f : A → M B) w r w' :
  (m ≫= f) w = (r, w') →
  (∃ e, m w = (Raise e, w') ∧ r = Raise e) ∨
  (∃ a w1, m w = (Ok a, w1) ∧ f a w1 = (r, w')).
Proof.
  rewrite bind_run. destruct (m w) as [[a|e] w1]; intros E.
  - right. eauto.
  - left. exists e. by inversion E.
Qed.

(** ** Relations that every step of a computation respects *)

#[global] Instance quiet_preorder p : PreOrder (quiet p).
Proof.
  split.
  - intros w. exists []. by rewrite app_nil_r.
  - intros a b c (e1 & E1 & F1) (e2 & E2 & F2). exists (e1 ++ e2).
    split; [by rewrite E2, E1, app_assoc | by apply Forall_app].
Qed.

#[global] Instance keeps_preorder {X} (f : world → X) : PreOrder (keeps f).
Proof. split; unfold keeps; [by intros w | intros a b c ? ?; congruence]. Qed.

Section rules.
Context (R : relation world) `{!PreOrder R}.

Lemma steps_ret {A} (a : A) : steps R (mret a).
Proof. intros w r w' E. inversion E. reflexivity. Qed.

Lemma steps_raise {A} e : steps R (raise (A := A) e).
Proof. intros w r w' E. inversion E. reflexivity. Qed.

Lemma steps_gets {A} (f : world → A) : steps R (gets f).
Proof. intros w r w' E. inversion E. reflexivity. Qed.

Lemma steps_lift_result {A} (x : result A) : steps R (lift_result x).
Proof. intros w r w' E. inversion E. reflexivity. Qed.

Lemma steps_bind {A B} (m : M A) (f : A → M B) :
  steps R m → (∀ a, steps R (f a)) → steps R (m ≫= f).
Proof.
  intros Hm Hf w r w' E. apply bind_inv in E as [(e & E & _)|(a & w1 & E & F)].
  - by eapply Hm.
  - etrans; [by eapply Hm | by eapply Hf].
Qed.

Lemma steps_try_except {A} (body : M A) caught handler :
  steps R body → (∀ e, steps R (handler e)) →
  steps R (try_except body caught handler).
Proof.
  intros Hb Hh w r w'. unfold try_except.
  destruct (body w) as [[a|e] w1] eqn:E.
  - intros F. inversion F; subst. by eapply Hb.
  - destruct (caught e).
    + intros F. etrans; [by eapply Hb | by eapply Hh].
    + intros F. inversion F; subst. by eapply Hb.
Qed.

Lemma steps_emit ev :
  (∀ w, R w (set_trace (trace w ++ [ev]) w)) → steps R (emit ev).
Proof. intros HR w r w' E. inversion E. apply HR. Qed.

Lemma steps_on_fs {A} (f : filesystem → result A * filesystem) :
  (∀ w r x, f (fs w) = (r, x) → R w (set_fs x w)) → steps R (on_fs f).
Proof.
  intros HR w r w'. unfold on_fs. destruct (f (fs w)) as [r1 x] eqn:E.
  intros F. inversion F; subst. by eapply HR.
Qed.

Lemma steps_on_config {A} (f : Params → result A * Params) :
  (∀ w r x, f (config w) = (r, x) → R w (set_config x w)) →
  steps R (on_config f).
Proof.
  intros HR w r w'. unfold on_config. destruct (f (config w)) as [r1 x] eqn:E.
  intros F. inversion F; subst. by eapply HR.
Qed.

Lemma steps_on_model {A} (f : model_t → result A * model_t) :
  (∀ w r x, f (model w) = (r, x) → R w (set_model x w)) →
  steps R (on_model f).
Proof.
  intros HR w r w'. unfold on_model. destruct (f (model w)) as [r1 x] eqn:E.
  intros F. inversion F; subst. by eapply HR.
Qed.

Lemma steps_run_train t :
  (∀ w m x, R w (set_fs x (set_model m w))) → steps R (run_train t).
Proof.
  intros HR w r w'. unfold run_train.
  destruct (train t (model w) (fs w)) as [r1 [m x]].
  intros F. inversion F; subst. apply HR.
Qed.

Lemma steps_log_names names :
  (∀ name w,
     R w (set_trace (trace w ++ [Log INFO (MsgParameterName name)]) w)) →
  steps R (log_names names).
Proof.
  intros HR. induction names as [|name rest IH]; simpl.
  - apply steps_ret.
  - apply steps_bind; [apply steps_emit, HR | intros _; apply IH].
Qed.

End rules.

Lemma quiet_emit p ev w :
  p ev = false → quiet p w (set_trace (trace w ++ [ev]) w).
Proof. intros E. exists [ev]. split; [done | by repeat constructor]. Qed.

Lemma quiet_same p w w' : trace w' = trace w → quiet p w w'.
Proof. intros E. exists []. by rewrite app_nil_r. Qed.

Lemma count_app p tr1 tr2 : count p (tr1 ++ tr2) = count p tr1 + count p tr2.
Proof. unfold count. by rewrite filter_app, length_app. Qed.

Lemma count_one p ev : count p [ev] = if p ev then 1 else 0.
Proof.
  unfold count. rewrite filter_cons, filter_nil.
  destruct (p ev); by case_decide.
Qed.

Lemma count_cons p ev tr :
  count p (ev :: tr) = (if p ev then 1 else 0) + count p tr.
Proof. by rewrite <- count_one, <- count_app. Qed.

Lemma count_none p evs : Forall (λ ev, p ev = false) evs → count p evs = 0.
Proof.
  unfold count. induction 1 as [|ev evs E _ IH]; [done |].
  rewrite filter_cons. destruct (decide (p ev = true)); [congruence | done].
Qed.

Lemma quiet_count p w w' : quiet p w w' → count p (trace w') = count p (trace w).
Proof. intros (evs & -> & F). rewrite count_app, (count_none _ _ F). lia. Qed.

End runs.

(** Walks through a computation along its binds and branches; [prim] settles
    what is left at the primitive operations. *)
Ltac steps_walk prim :=
  unfold fine_tune_model, load_datasets, prepare_serialization_dir,
    discard_model_and_directory_path, build_trainer, train_and_report,
    extend_vocabulary, freeze_parameters, log_frozen_and_tunable,
    train_or_archive_on_interrupt, run_archive_model,
    params_pop, params_pop_opt, params_pop_bool, params_assert_empty,
    open_write, logger, call;
  repeat first
    [ apply steps_ret; apply _
    | apply steps_raise; apply _
    | apply steps_gets; apply _
    | apply steps_lift_result; apply _
    | apply steps_bind; [ apply _ | | intros ? ]
    | apply steps_try_except; [ apply _ | | intros ? ]
    | apply steps_log_names; [ apply _ | intros; prim ]
    | apply steps_emit; intros; prim
    | apply steps_on_fs; intros; prim
    | apply steps_on_config; intros; prim
    | apply steps_on_model; intros; prim
    | apply steps_run_train; intros; prim
    | progress cbv beta iota zeta
    | match goal with
      | |- steps _ (if ?b then _ else _) => destruct b
      | |- steps _ (match ?x with _ => _ end) => destruct x
      end ].

Ltac quiet_prim :=
  first [ apply quiet_emit; reflexivity | apply quiet_same; reflexivity ].

Ltac quiet_walk := steps_walk quiet_prim.

(** The same for a kind of event known only through [Hp], which bounds it by
    a kind that computes. *)
Ltac quiet_prim_by Hp :=
  first
    [ apply quiet_same; reflexivity
    | apply quiet_emit;
      match goal with
      | |- ?p ?ev = false =>
          let E := fresh in
          destruct (p ev) eqn:E;
          [apply Hp in E; vm_compute in E; discriminate E | reflexivity]
      end ].

Ltac keeps_prim :=
  unfold keeps; simpl;
  first
    [ reflexivity
    | match goal with
      | E : (let '(_, _) := ?t in _) = _ |- _ =>
          destruct t; inversion E; subst; reflexivity
      end ].

Ltac keeps_walk := steps_walk keeps_prim.

(** Uses, on a run in a hypothesis, that every step of it respects [R]. *)
Ltac steps_in H R prim :=
  match type of H with
  | ?m ?w = (_, _) =>
      let S := fresh "S" in
      assert (S : steps R m) by (steps_walk prim);
      apply S in H
  end.

Section inversion.
Context `{AllenNLP}.

Lemma emit_inv ev w r w' :
  emit ev w = (r, w') → r = Ok () ∧ w' = set_trace (trace w ++ [ev]) w.
Proof. intros E. by inversion E. Qed.

Lemma mret_inv {A} (a : A) w r w' :
  mret (M := M) a w = (r, w') → r = Ok a ∧ w' = w.
Proof. intros E. by inversion E. Qed.

Lemma raise_inv {A} e w (r : result A) w' :
  raise e w = (r, w') → r = Raise e ∧ w' = w.
Proof. intros E. by inversion E. Qed.

Lemma gets_inv {A} (f : world → A) w r w' :
  gets f w = (r, w') → r = Ok (f w) ∧ w' = w.
Proof. intros E. by inversion E. Qed.

Lemma lift_result_inv {A} (x : result A) w r w' :
  lift_result x w = (r, w') → x = r ∧ w' = w.
Proof. intros E. by inversion E. Qed.

Lemma on_fs_inv {A} (f : filesystem → result A * filesystem) w r w' :
  on_fs f w = (r, w') → ∃ x, f (fs w) = (r, x) ∧ w' = set_fs x w.
Proof.
  unfold on_fs. destruct (f (fs w)) as [r1 x]. intros E. exists x.
  by inversion E.
Qed.

Lemma on_config_inv {A} (f : Params → result A * Params) w r w' :
  on_config f w = (r, w') → ∃ x, f (config w) = (r, x) ∧ w' = set_config x w.
Proof.
  unfold on_config. destruct (f (config w)) as [r1 x]. intros E. exists x.
  by inversion E.
Qed.

Lemma on_model_inv {A} (f : model_t → result A * model_t) w r w' :
  on_model f w = (r, w') → ∃ x, f (model w) = (r, x) ∧ w' = set_model x w.
Proof.
  unfold on_model. destruct (f (model w)) as [r1 x]. intros E. exists x.
  by inversion E.
Qed.

Lemma log_names_inv names w r w' :
  log_names names w = (r, w') →
  r = Ok () ∧
  w' = set_trace (trace w ++ (Log INFO ∘ MsgParameterName <$> names)) w.
Proof.
  revert w. induction names as [|name rest IH]; intros w; simpl.
  - intros E. apply mret_inv in E as [-> ->]. split; [done |].
    destruct w. simpl. by rewrite app_nil_r.
  - unfold logger. rewrite bind_run. simpl. intros E.
    apply IH in E as [-> ->]. split; [done |].
    destruct w. simpl. by rewrite <- app_assoc.
Qed.

End inversion.

(** Runs a computation forwards inside a hypothesis, one goal for each place
    where it can stop. *)
Ltac run_step :=
  match goal with
  | H : (_ ≫= _) _ = _ |- _ =>
      let e := fresh "e" in let Hr := fresh "Hr" in
      apply bind_inv in H as [(e & H & Hr)|(? & ? & ? & H)];
      [ try discriminate Hr | ]
  | H : emit _ _ = _ |- _ => apply emit_inv in H as [? ?]; subst
  | H : mret _ _ = _ |- _ => apply mret_inv in H as [? ?]; subst
  | H : raise _ _ = _ |- _ => apply raise_inv in H as [? ?]; subst
  | H : gets _ _ = _ |- _ => apply gets_inv in H as [? ?]; subst
  | H : lift_result _ _ = _ |- _ => apply lift_result_inv in H as [? ?]; subst
  | H : on_fs _ _ = _ |- _ => apply on_fs_inv in H as (? & H & ?); subst
  | H : on_config _ _ = _ |- _ => apply on_config_inv in H as (? & H & ?); subst
  | H : on_model _ _ = _ |- _ => apply on_model_inv in H as (? & H & ?); subst
  | H : log_names _ _ = _ |- _ => apply log_names_inv in H as [? ?]; subst
  | H : (if false then _ else _) _ = _ |- _ => progress cbv iota in H
  | H : (if true then _ else _) _ = _ |- _ => progress cbv iota in H
  | H : (if ?b then _ else _) _ = _ |- _ => destruct b eqn:?
  | H : (match ?x with _ => _ end) _ = _ |- _ => destruct x eqn:?
  | H : Ok _ = Ok _ |- _ => inversion H; subst; clear H
  | H : Ok _ = Raise _ |- _ => discriminate H
  | H : Raise _ = Ok _ |- _ => discriminate H
  | H : Raise _ = Raise _ |- _ => inversion H; subst; clear H
  end.

Ltac run_inv :=
  unfold freeze_parameters, log_frozen_and_tunable, run_archive_model,
    params_pop, params_pop_opt, params_pop_bool, params_assert_empty,
    open_write, logger, call in *;
  repeat (run_step;
          cbn [fs config model trace
               set_fs set_config set_model set_trace] in *).

Section prepare.
Context `{AllenNLP}.

Lemma write_file_Ok (p : path) (c : content) (x x' : filesystem) :
  write_file p c x = (Ok (), x') →
  x' = <[p := File c]> x ∧ x !! removelast p = Some Dir.
Proof.
  unfold write_file. intros E.
  destruct (x !! removelast p) as [[|?]|]; [|by inversion E..].
  by destruct (x !! p) as [[|?]|]; inversion E.
Qed.

Lemma snapshot_path_ne d : snapshot_path d ≠ d.
Proof.
  unfold snapshot_path, os_path_join. intros E.
  apply (f_equal length) in E. rewrite length_app in E. simpl in E. lia.
Qed.

Lemma prepare_serialization_dir_Ok d ffl w w1 :
  prepare_serialization_dir d ffl w = (Ok (), w1) →
  model w1 = model w ∧
  config w1 = (prepare_environment (config w)).2 ∧
  trace w1 = trace w ++ prepare_events d (config w1) ∧
  fs w1 !! snapshot_path d = Some (File (JsonText 4 (as_dict (config w1)))) ∧
  fs w1 !! d = Some Dir.
Proof.
  unfold prepare_serialization_dir. intros E. destruct w as [x p m tr].
  run_inv.
  all: apply write_file_Ok in E as [-> Hd];
    unfold prepare_events, snapshot_path, os_path_join in *;
    rewrite removelast_last in Hd;
    repeat split;
    [ by rewrite H1
    | by rewrite <- !app_assoc
    | by rewrite lookup_insert_eq
    | by rewrite lookup_insert_ne; [| apply snapshot_path_ne ] ].
Qed.

(** However the first eleven lines end, they have recorded an initial
    segment of [prepare_events]. *)
Lemma prepare_serialization_dir_trace d ffl w r w1 :
  prepare_serialization_dir d ffl w = (r, w1) →
  ∃ n, trace w1 =
       trace w ++ take n (prepare_events d (prepare_environment (config w)).2) ∧
       (r = Ok () → 4 ≤ n).
Proof.
  unfold prepare_serialization_dir. intros E. destruct w as [x p m tr].
  run_inv; rewrite <- ?app_assoc; simpl;
    repeat match goal with
      | E : prepare_environment _ = _ |- _ => rewrite E; clear E
      end; simpl.
  all: first
    [ by exists 4; split; [| lia]
    | by exists 1 | by exists 2 | by exists 3 ].
Qed.

End prepare.

Section claims.
Context `{AllenNLP}.

Lemma listdir_exists (x : filesystem) (d : path) l :
  os_listdir x d = Ok l → os_path_exists x d = true.
Proof.
  unfold os_listdir, os_path_exists. intros E.
  destruct (x !! d) as [n|] eqn:L; [| by destruct (x !! d)].
  apply bool_decide_eq_true. by exists n.
Qed.

Lemma prepare_serialization_dir_nonempty d ffl x p m tr name names :
  os_listdir x d = Ok (name :: names) →
  prepare_serialization_dir d ffl (World x p m tr) =
  (match (prepare_environment p).1 with
   | Ok _ => Raise refusal
   | Raise e => Raise e
   end,
   World x (prepare_environment p).2 m (tr ++ [Call C_prepare_environment])).
Proof.
  intros L. unfold prepare_serialization_dir.
  rewrite bind_run. simpl. rewrite bind_run. unfold on_config. simpl.
  destruct (prepare_environment p) as [[u|e] p']; simpl; [| done].
  rewrite bind_run. simpl. rewrite bind_run.
  rewrite (listdir_exists _ _ _ L). unfold lift_result. rewrite L.
  by rewrite bind_run.
Qed.

(** C2. When the serialization directory exists and is not empty, the run
    fails, with the configuration error of line 164 as soon as environment
    preparation returns; nothing is written (the file system is the one the
    run started in), the model is the one it was given, and the only thing
    the workflow has called is environment preparation: no training. *)
Theorem nonempty_directory_is_refused
  (x : filesystem) (p : Params) (m : model_t) (d : path)
  (extend_vocab ffl : bool) (name : string) (names : list string) :
  os_listdir x d = Ok (name :: names) →
  ∃ r w',
    fine_tune_model d extend_vocab ffl (initial x p m) = (r, w') ∧
    is_Ok r = false ∧
    (is_Ok (prepare_environment p).1 = true → r = Raise refusal) ∧
    fs w' = x ∧
    model w' = m ∧
    trace w' = [Call C_prepare_environment] ∧
    count is_write (trace w') = 0 ∧
    count (is_call C_train) (trace w') = 0.
Proof.
  intros L. unfold fine_tune_model, load_datasets, initial.
  pose proof (prepare_serialization_dir_nonempty d ffl x p m [] name names L)
    as E.
  destruct (prepare_environment p).1 as [u|e] eqn:R.
  all: eexists _, _; split;
    [ erewrite bind_Raise; [reflexivity |];
      erewrite bind_Raise; [reflexivity | apply E] |].
  all: by repeat split.
Qed.

Lemma bind_assoc_run {A B C} (m : M A) (f : A → M B) (g : B → M C) w :
  ((m ≫= f) ≫= g) w = (m ≫= λ a, f a ≫= g) w.
Proof. rewrite !bind_run. by destruct (m w) as [[a|e] w1]. Qed.

Lemma fine_tune_model_after_prepare d ev ffl w r w' :
  fine_tune_model d ev ffl w = (r, w') →
  (∃ e, prepare_serialization_dir d ffl w = (Raise e, w') ∧ r = Raise e) ∨
  (∃ w1, prepare_serialization_dir d ffl w = (Ok (), w1) ∧ grows w1 w').
Proof.
  unfold fine_tune_model, load_datasets. rewrite bind_assoc_run. intros E.
  apply bind_inv in E as [(e & E & ->)|([] & w1 & E & F)]; [left; eauto |].
  right. exists w1. split; [done |]. steps_in F grows quiet_prim. done.
Qed.

Ltac no_late :=
  repeat first
    [ apply Forall_nil_2
    | apply Forall_cons; split;
      [ let E := fresh in simpl; intros E; discriminate E | ] ].

Lemma precedes_none (early late : event → Prop) tr :
  Forall (λ ev, ¬ late ev) tr → precedes early late tr.
Proof.
  intros F j ev L Hl. exfalso.
  eapply Forall_lookup_1 in F; [| done]. by apply F.
Qed.

Lemma precedes_prefix (early late : event → Prop) pre rest i ev' :
  Forall (λ ev, ¬ late ev) pre → pre !! i = Some ev' → early ev' →
  precedes early late (pre ++ rest).
Proof.
  intros F Li He j ev L Hl.
  destruct (decide (j < length pre)) as [Hj|Hj].
  - rewrite lookup_app_l in L by done.
    eapply Forall_lookup_1 in F; [| done]. by destruct F.
  - exists i, ev'. pose proof (lookup_lt_Some _ _ _ Li).
    split; [lia |]. by rewrite lookup_app_l.
Qed.

(** Without the directory there is nothing to refuse: once environment
    preparation has returned, the next thing the run does is make it. *)
Lemma prepare_serialization_dir_absent d ffl x p m tr r w1 :
  x !! d = None →
  is_Ok (prepare_environment p).1 = true →
  prepare_serialization_dir d ffl (World x p m tr) = (r, w1) →
  ∃ rest, trace w1 = tr ++ Call C_prepare_environment :: Makedirs d :: rest.
Proof.
  intros Hd Hp E. unfold prepare_serialization_dir in E. run_inv.
  all: try match goal with
         | E1 : prepare_environment _ = (Raise _, _) |- _ =>
             rewrite E1 in Hp; discriminate Hp
         end.
  all: try match goal with
         | E2 : os_path_exists _ _ = true |- _ =>
             unfold os_path_exists in E2; rewrite Hd in E2;
             apply bool_decide_eq_true in E2 as [? E2]; discriminate E2
         end.
  all: rewrite <- ?app_assoc; simpl; eauto.
Qed.

(** C3. In every run that starts without the serialization directory, the
    directory is made as soon as environment preparation has returned; the
    snapshot of the configuration (as environment preparation has left it)
    is written after the directory is made and before the workflow pops
    any key and before dataset construction is called; and when dataset
    construction fails, the run ends with that failure, with the directory
    and the snapshot file on disk. *)
Theorem snapshot_precedes_datasets
  (x : filesystem) (p : Params) (m : model_t) (d : path)
  (extend_vocab ffl : bool) :
  x !! d = None →
  let written :=
    WriteFile (snapshot_path d)
              (JsonText 4 (as_dict (prepare_environment p).2)) in
  (∀ r w',
     fine_tune_model d extend_vocab ffl (initial x p m) = (r, w') →
     precedes (eq (Makedirs d)) (eq written) (trace w') ∧
     precedes (eq written) (λ ev, is_pop ev = true) (trace w') ∧
     precedes (eq written)
       (λ ev, is_call C_datasets_from_params ev = true) (trace w') ∧
     (is_Ok (prepare_environment p).1 = true →
      ∃ rest, trace w' = Call C_prepare_environment :: Makedirs d :: rest)) ∧
  (∀ w1 vocabulary_params w2 e,
     prepare_serialization_dir d ffl (initial x p m) = (Ok (), w1) →
     discard_model_and_directory_path w1 = (Ok vocabulary_params, w2) →
     (datasets_from_params (config w2)).1 = Raise e →
     ∃ w',
       fine_tune_model d extend_vocab ffl (initial x p m) = (Raise e, w') ∧
       fs w' !! d = Some Dir ∧
       fs w' !! snapshot_path d =
         Some (File (JsonText 4 (as_dict (prepare_environment p).2)))).
Proof.
  intros Hd written. split.
  - intros r w' E. apply fine_tune_model_after_prepare in E.
    assert (is_Ok (prepare_environment p).1 = true →
            ∃ rest, trace w' = Call C_prepare_environment :: Makedirs d :: rest)
      as Hmade.
    { intros Hp. destruct E as [(e & E & _)|(w1 & E & (evs & G & _))].
      - by apply (prepare_serialization_dir_absent _ _ _ _ _ _ _ _ Hd Hp) in E.
      - apply (prepare_serialization_dir_absent _ _ _ _ _ _ _ _ Hd Hp) in E
          as [rest E].
        exists (rest ++ evs). rewrite G, E. simpl. done. }
    refine (let H3 := _ in
            conj (proj1 H3)
              (conj (proj1 (proj2 H3)) (conj (proj2 (proj2 H3)) Hmade))).
    clear Hmade.
    assert (∃ n rest,
      trace w' = take n (prepare_events d (prepare_environment p).2) ++ rest ∧
      (rest ≠ [] → 4 ≤ n)) as (n & rest & -> & Hn).
    { destruct E as [(e & E & _)|(w1 & E & (evs & G & _))].
      - apply prepare_serialization_dir_trace in E as (n & E & _).
        exists n, []. by rewrite app_nil_r.
      - apply prepare_serialization_dir_trace in E as (n & E & Hn).
        exists n, evs. rewrite G, E. split; [done | auto]. }
    destruct n as [|[|[|[|n]]]].
    1-4: assert (rest = []) as ->
      by (destruct rest; [done | exfalso; by pose proof (Hn ltac:(done)); lia]).
    all: subst written; simpl; split; [| split].
    all: first
      [ by apply precedes_none; no_late
      | match goal with
        | |- precedes (eq (Makedirs _)) _ (?a :: ?b :: ?c :: ?rest) =>
            apply (precedes_prefix _ _ [a; b; c] rest 1 b);
            [ no_late | done | done ]
        | |- precedes (eq (WriteFile _ _)) _ (?a :: ?b :: ?c :: ?e :: ?rest) =>
            apply (precedes_prefix _ _ [a; b; c; e] rest 3 e);
            [ no_late | done | done ]
        end ].
  - intros w1 vp w2 e E1 E2 E3.
    pose proof (prepare_serialization_dir_Ok _ _ _ _ E1)
      as (_ & Hc & _ & Hs & Hdir).
    assert (fs w2 = fs w1) as Hfs.
    { steps_in E2 (keeps fs) ltac:(reflexivity). done. }
    unfold fine_tune_model, load_datasets.
    destruct (datasets_from_params (config w2)) as [r' p'] eqn:E4.
    simpl in E3. subst r'.
    eexists. split.
    + erewrite bind_Raise; [reflexivity |].
      erewrite bind_Ok by apply E1. erewrite bind_Ok by apply E2.
      rewrite bind_run. simpl. rewrite bind_run. unfold on_config. simpl.
      rewrite E4. reflexivity.
    + simpl. rewrite Hfs. simpl in Hc. rewrite <- Hc. done.
Qed.

Lemma Params_pop_present key dflt p v :
  params p !! key = Some v →
  Params_pop key dflt p = (Ok v, set_params (delete key (params p)) p).
Proof. unfold Params_pop. by intros ->. Qed.

Lemma Params_pop_default key v p e p' :
  Params_pop key (Some v) p = (Raise e, p') → False.
Proof. unfold Params_pop. by destruct (params p !! key). Qed.

Lemma Params_pop_params key dflt p r p' :
  Params_pop key dflt p = (r, p') →
  params p' = params p ∨ params p' = delete key (params p).
Proof.
  unfold Params_pop. destruct (params p !! key), dflt; intros E;
    inversion E; subst; auto.
Qed.

Lemma Params_pop_opt_params key p r p' :
  Params_pop_opt key p = (r, p') →
  params p' = params p ∨ params p' = delete key (params p).
Proof.
  unfold Params_pop_opt. destruct (params p !! key); intros E;
    inversion E; subst; auto.
Qed.

Lemma Params_pop_bool_params key dflt p r p' :
  Params_pop_bool key dflt p = (r, p') →
  params p' = params p ∨ params p' = delete key (params p).
Proof.
  unfold Params_pop_bool.
  destruct (Params_pop key (Some (VBool dflt)) p) as [r1 p1] eqn:E1.
  apply Params_pop_params in E1. intros E.
  assert (p' = p1) as ->; [| done].
  destruct r1 as [[]|]; try (by inversion E).
  by repeat case_match; inversion E.
Qed.

Lemma Params_pop_required key p v p' :
  Params_pop key None p = (Ok v, p') →
  params p !! key = Some v ∧ params p' = delete key (params p).
Proof.
  unfold Params_pop. destruct (params p !! key); intros E; by inversion E.
Qed.

(** After a pop, the key is not there, whether it was or not. *)
Lemma Params_pop_delete key dflt p r p' :
  Params_pop key dflt p = (r, p') →
  is_Ok r = true → params p' = delete key (params p).
Proof.
  unfold Params_pop. destruct (params p !! key) eqn:L, dflt; intros E;
    inversion E; subst; try done; intros _; by rewrite delete_id.
Qed.

Lemma Params_pop_opt_delete key p r p' :
  Params_pop_opt key p = (r, p') → params p' = delete key (params p).
Proof.
  unfold Params_pop_opt. destruct (params p !! key) eqn:L; intros E;
    inversion E; subst; try done; by rewrite delete_id.
Qed.

Lemma Params_pop_bool_delete key dflt p r p' :
  Params_pop_bool key dflt p = (r, p') → params p' = delete key (params p).
Proof.
  unfold Params_pop_bool.
  destruct (Params_pop key (Some (VBool dflt)) p) as [r1 p1] eqn:E1.
  assert (is_Ok r1 = true) as Hr.
  { destruct r1; [done |]. by apply Params_pop_default in E1. }
  apply Params_pop_delete in E1; [| done]. intros E.
  assert (p' = p1) as ->; [| done].
  destruct r1 as [[]|]; try (by inversion E).
  by repeat case_match; inversion E.
Qed.

(** A pop takes no key away but its own, and adds none. *)
Lemma popped_lookup key (d d' : gmap string value) k :
  d' = d ∨ d' = delete key d →
  (d !! k = None → d' !! k = None) ∧ (k ≠ key → d' !! k = d !! k).
Proof.
  intros [->| ->]; [done |]. split.
  - intros E. rewrite lookup_delete_None. auto.
  - intros E. by rewrite lookup_delete_ne.
Qed.

(** What lines 174 to 176 do with a [model] section. *)
Lemma discard_model_section w r2 w2 v :
  params (config w) !! "model" = Some v →
  discard_model_and_directory_path w = (r2, w2) →
  count is_model_warning (trace w2) =
    count is_model_warning (trace w) + (if truthy v then 1 else 0) ∧
  model w2 = model w ∧ fs w2 = fs w ∧
  params (config w2) !! "model" = None.
Proof.
  intros L E. destruct w as [x p m tr].
  unfold discard_model_and_directory_path in E. simpl in L.
  run_inv.
  all: match goal with
       | E1 : Params_pop "model" _ _ = _ |- _ =>
           rewrite (Params_pop_present _ _ _ _ L) in E1; simplify_eq
       end.
  all: match goal with
       | E2 : Params_pop "vocabulary" _ _ = _ |- _ =>
           apply Params_pop_params, (popped_lookup _ _ _ "model") in E2
             as [E2 _]; simpl in E2;
           specialize (E2 (lookup_delete_eq _ _))
       end.
  all: rewrite !count_app, !count_one; simpl;
    match goal with E3 : truthy _ = _ |- _ => rewrite E3 end;
    repeat split; try done; lia.
Qed.

(** After line 181 the workflow emits no warning. *)
Lemma fine_tune_model_after_discard (p : event → bool) d ev ffl w r w' w1 :
  (∀ e, p e = true → is_warning e = true) →
  prepare_serialization_dir d ffl w = (Ok (), w1) →
  fine_tune_model d ev ffl w = (r, w') →
  ∃ r2 w2, discard_model_and_directory_path w1 = (r2, w2) ∧ quiet p w2 w'.
Proof.
  intros Hp E1. unfold fine_tune_model, load_datasets.
  rewrite bind_assoc_run. erewrite bind_Ok by apply E1.
  rewrite bind_assoc_run. intros E.
  apply bind_inv in E as [(e & E & ->)|(vp & w2 & E & F)].
  - exists (Raise e), w'. split; [done | reflexivity].
  - exists (Ok vp), w2. split; [done |].
    steps_in F (quiet p) ltac:(quiet_prim_by Hp). done.
Qed.

(** The state after line 181 is made of the configuration without its
    [model] and [vocabulary] sections, of the model and of the file system
    as they were. *)
Lemma discard_Ok w vp w2 :
  discard_model_and_directory_path w = (Ok vp, w2) →
  vp = default (VDict ∅) (params (config w) !! "vocabulary") ∧
  params (config w2) = delete "vocabulary" (delete "model" (params (config w))) ∧
  files_to_archive (config w2) = files_to_archive (config w) ∧
  model w2 = model w ∧ fs w2 = fs w.
Proof.
  intros E. destruct w as [x p m tr].
  unfold discard_model_and_directory_path in E. run_inv.
  all: unfold Params_pop in *; simpl in *.
  all: repeat match goal with
         | E : match ?o with Some _ => _ | None => _ end = _ |- _ =>
             destruct o eqn:?; simplify_eq; simpl in *
         end.
  all: rewrite ?lookup_delete_ne in * by done.
  all: repeat match goal with
         | E : _ !! _ = None |- _ => rewrite (delete_id _ _ E)
         | E : _ !! _ = _ |- _ => rewrite E
         end.
  all: try done.
  all: repeat split; try done; symmetry; apply delete_id;
    by rewrite lookup_delete_ne.
Qed.

(** C8, as the code has it.  In every run that gets past the snapshot, a
    [model] section of the configuration is warned about once when its value
    is true in Python's sense (a non-empty section) and not at all when it
    is not (an empty section, [null]); and in both cases what the workflow
    goes on with after line 181 is the model of the bundle and a
    configuration without the section. *)
Theorem model_section_is_ignored
  (x : filesystem) (p : Params) (m : model_t) (d : path)
  (extend_vocab ffl : bool) (w1 : world) (v : value)
  (r : result model_t) (w' : world) :
  prepare_serialization_dir d ffl (initial x p m) = (Ok (), w1) →
  params (prepare_environment p).2 !! "model" = Some v →
  fine_tune_model d extend_vocab ffl (initial x p m) = (r, w') →
  count is_model_warning (trace w') = (if truthy v then 1 else 0) ∧
  ∃ r2 w2,
    discard_model_and_directory_path w1 = (r2, w2) ∧
    model w2 = m ∧
    params (config w2) !! "model" = None ∧
    (is_Ok r2 = true →
     params (config w2) =
       delete "vocabulary" (delete "model" (params (prepare_environment p).2))).
Proof.
  intros E1 L E.
  pose proof (prepare_serialization_dir_Ok _ _ _ _ E1) as (Hm & Hc & Ht & _).
  simpl in Hm, Hc, Ht.
  destruct (fine_tune_model_after_discard is_model_warning _ _ _ _ _ _ _
              ltac:(by intros [[] []| | | | |]) E1 E) as (r2 & w2 & E2 & Q).
  rewrite <- Hc in L.
  pose proof (discard_model_section _ _ _ _ L E2) as (Hn & Hm2 & _ & Hl).
  split.
  - rewrite (quiet_count _ _ _ Q), Hn, Ht. unfold prepare_events.
    rewrite !count_cons. simpl. destruct (truthy v); reflexivity.
  - exists r2, w2. repeat split; [done | congruence | done |].
    destruct r2 as [vp|e]; [| done]. intros _.
    apply discard_Ok in E2 as (_ & E2 & _). by rewrite E2, Hc.
Qed.


Lemma load_datasets_keeps_model d ffl : steps (keeps model) (load_datasets d ffl).
Proof. keeps_walk. Qed.

Lemma load_datasets_Ok d ffl w vp ds w2 :
  load_datasets d ffl w = (Ok (vp, ds), w2) →
  ∃ w0 w1,
    prepare_serialization_dir d ffl w = (Ok (), w0) ∧
    discard_model_and_directory_path w0 = (Ok vp, w1) ∧
    datasets_from_params (config w1) = (Ok ds, config w2) ∧
    model w2 = model w1 ∧ fs w2 = fs w1 ∧
    trace w2 = trace w1 ++ [Call C_datasets_from_params].
Proof.
  unfold load_datasets. intros E.
  apply bind_inv in E as [(e & _ & ?)|([] & w0 & E0 & E)]; [done |].
  apply bind_inv in E as [(e & _ & ?)|(vp' & w1 & E1 & E)]; [done |].
  exists w0, w1. destruct w1 as [x p m tr]. run_inv.
  by repeat split.
Qed.

Lemma build_trainer_extend d vp ds w :
  build_trainer d true vp ds w =
  match extend_vocabulary vp ds w with
  | (Ok _, w1) => build_trainer d false vp ds w1
  | (Raise e, w1) => (Raise e, w1)
  end.
Proof.
  unfold build_trainer. rewrite bind_run.
  destruct (extend_vocabulary vp ds w) as [[[]|e] w1]; [| done].
  by rewrite (bind_run (mret ())).
Qed.

Lemma build_trainer_keeps_vocab d vp ds :
  steps (keeps model_vocab) (build_trainer d false vp ds).
Proof. unfold model_vocab. keeps_walk. Qed.

Lemma check_datasets_Ok requested (ds : datasets_t) :
  (∀ v, v ∈ requested → dict_contains ds v = true) →
  check_datasets requested ds = Ok ().
Proof.
  induction requested as [|v rest IH]; intros Hv; simpl; [done |].
  rewrite Hv by left. apply IH. intros v' ?. apply Hv. by right.
Qed.



Lemma extend_vocabulary_pop w :
  ∃ p',
    params_pop_opt "datasets_for_vocab_creation" w =
      (Ok (params (config w) !! "datasets_for_vocab_creation"),
       set_config p'
         (set_trace (trace w ++ [Pop "datasets_for_vocab_creation"]) w)) ∧
    (params p' = params (config w) ∨
     params p' = delete "datasets_for_vocab_creation" (params (config w))).
Proof.
  unfold params_pop_opt, emit, on_config. rewrite bind_run. simpl.
  unfold Params_pop_opt.
  destruct (params (config w) !! "datasets_for_vocab_creation");
    eexists; split; try reflexivity; simpl; auto.
Qed.


(** Lines 187 to 197 when every requested split is there. *)
Lemma extend_vocabulary_valid vp ds w l :
  requested_datasets (config w) ds = Ok l →
  (∀ v, v ∈ l → dict_contains ds v = true) →
  ∃ r w1, extend_vocabulary vp ds w = (r, w1) ∧
    (r, vocab (model w1)) =
      extend_from_instances (vocab (model w)) vp (instances_of ds l) ∧
    named_parameters (model w1) = named_parameters (model w) ∧
    fs w1 = fs w ∧
    trace w1 = trace w ++
      [Pop "datasets_for_vocab_creation";
       Log INFO (MsgExtendingVocabulary (list_to_set (omap str_of l)));
       Call C_extend_from_instances].
Proof.
  intros Hl Hv. unfold extend_vocabulary.
  destruct (extend_vocabulary_pop w) as (p' & E & _).
  erewrite bind_Ok by apply E. unfold requested_datasets in Hl.
  rewrite bind_run. unfold lift_result at 1. rewrite Hl.
  rewrite bind_run. unfold lift_result at 1.
  rewrite (check_datasets_Ok _ _ Hv).
  rewrite bind_run. simpl. rewrite bind_run. simpl.
  unfold on_model. simpl.
  destruct (extend_from_instances _ _ _) as [r v1] eqn:Ex.
  eexists _, _. split; [reflexivity |]. simpl.
  repeat split. by rewrite <- !app_assoc.
Qed.

Lemma extend_vocabulary_vocab vp ds w r w1 :
  extend_vocabulary vp ds w = (r, w1) →
  model_vocab w1 = model_vocab w ∨
  ∃ instances,
    model_vocab w1 = (extend_from_instances (model_vocab w) vp instances).2.
Proof.
  intros E. destruct w as [x p m tr]. unfold extend_vocabulary in E.
  unfold model_vocab. run_inv; simpl; auto.
  all: match goal with
       | E1 : (let '(_, _) := ?t in _) = _ |- _ =>
           destruct t eqn:Ex; inversion E1; subst; simpl
       end.
  all: right; eexists; by rewrite Ex.
Qed.

Lemma build_trainer_vocab d ev vp ds w r w2 :
  build_trainer d ev vp ds w = (r, w2) →
  model_vocab w2 = model_vocab w ∨
  (ev = true ∧ ∃ instances,
     model_vocab w2 = (extend_from_instances (model_vocab w) vp instances).2).
Proof.
  destruct ev.
  - rewrite build_trainer_extend.
    destruct (extend_vocabulary vp ds w) as [[[]|e] w1] eqn:E1; intros E.
    + apply build_trainer_keeps_vocab in E. unfold keeps in E. rewrite E.
      apply extend_vocabulary_vocab in E1 as [E1|E1]; [by left | right; eauto].
    + inversion E; subst.
      apply extend_vocabulary_vocab in E1 as [E1|E1]; [by left | right; eauto].
  - intros E. left. by apply build_trainer_keeps_vocab in E.
Qed.

Lemma load_datasets_quiet (p : event → bool) d ffl :
  (∀ e, p e = true → is_late e = true) →
  steps (quiet p) (load_datasets d ffl).
Proof. intros Hp. steps_walk ltac:(quiet_prim_by Hp). Qed.



(** Lines 187 to 197 call [extend_from_instances] at most once, and the
    vocabulary of the model changes in that call only. *)
Lemma extend_vocabulary_called vp ds w r w1 :
  extend_vocabulary vp ds w = (r, w1) →
  (count (is_call C_extend_from_instances) (trace w1) =
     count (is_call C_extend_from_instances) (trace w) ∧
   is_Ok r = false ∧ model w1 = model w) ∨
  (count (is_call C_extend_from_instances) (trace w1) =
     S (count (is_call C_extend_from_instances) (trace w)) ∧
   ∃ requested,
     extend_from_instances (vocab (model w)) vp (instances_of ds requested) =
       (r, vocab (model w1))).
Proof.
  intros E. destruct w as [x p m tr]. unfold extend_vocabulary in E.
  run_inv; simpl; rewrite ?count_app, ?count_one; simpl.
  all: try (left; repeat split; try done; lia).
  all: match goal with
       | E1 : (let '(_, _) := ?t in _) = _ |- _ =>
           destruct t eqn:Ex; inversion E1; subst; simpl
       end.
  all: right; split; [lia |]; eexists; by rewrite Ex.
Qed.





Lemma build_trainer_config d vp ds w s w2 :
  build_trainer d false vp ds w = (Ok s, w2) →
  params (config w2) =
    delete "evaluate_on_test"
      (delete "trainer" (delete "iterator" (params (config w)))).
Proof.
  intros E. destruct w as [x p m tr]. unfold build_trainer in E. run_inv.
  repeat match goal with
    | E1 : Params_pop _ None _ = _ |- _ =>
        apply Params_pop_required in E1 as [_ E1]
    | E1 : Params_pop_bool _ _ _ = _ |- _ => apply Params_pop_bool_delete in E1
    end.
  simpl. congruence.
Qed.

(** With [extend_vocab], line 187 has taken the key away as well. *)
Lemma extend_vocabulary_config vp ds w r w1 :
  extend_vocabulary vp ds w = (r, w1) →
  params (config w1) = delete vocab_sources (params (config w)) ∧
  ∃ evs, trace w1 = trace w ++ Pop vocab_sources :: evs ∧
         count (is_pop_of vocab_sources) evs = 0.
Proof.
  intros E. destruct w as [x p m tr]. unfold extend_vocabulary in E.
  run_inv; simpl.
  all: match goal with
       | E1 : Params_pop_opt _ _ = _ |- _ => apply Params_pop_opt_delete in E1
       end.
  all: split; [done |]; rewrite <- ?app_assoc; simpl; eexists; split;
    [reflexivity | by rewrite ?count_cons].
Qed.

Lemma build_trainer_quiet_training (p : event → bool) d ev vp ds :
  (∀ e, p e = true → is_training e = true) →
  steps (quiet p) (build_trainer d ev vp ds).
Proof. intros Hp. steps_walk ltac:(quiet_prim_by Hp). Qed.

Lemma build_trainer_quiet_late (p : event → bool) d vp ds :
  (∀ e, p e = true → is_late e = true) →
  steps (quiet p) (build_trainer d false vp ds).
Proof. intros Hp. steps_walk ltac:(quiet_prim_by Hp). Qed.

Lemma is_training_late e : is_training e = true → is_late e = true.
Proof. by destruct e as [| | | | |[]]. Qed.

(** Up to line 230 the trainer has not been asked to do anything. *)
Lemma setup_quiet_training (p : event → bool) d ev ffl x c m loaded w1 s w2 :
  (∀ e, p e = true → is_training e = true) →
  load_datasets d ffl (initial x c m) = (Ok loaded, w1) →
  build_trainer d ev loaded.1 loaded.2 w1 = (Ok s, w2) →
  count p (trace w2) = 0.
Proof.
  intros Hp E1 E2.
  apply (build_trainer_quiet_training p _ _ _ _ Hp), quiet_count in E2.
  apply (load_datasets_quiet p), quiet_count in E1;
    [| by intros e He; apply is_training_late, Hp].
  rewrite E2, E1. reflexivity.
Qed.

Lemma train_and_report_leftover d s w :
  params (config w) ≠ ∅ →
  train_and_report d s w = (Raise leftover, set_trace (trace w ++ [AssertEmpty]) w).
Proof.
  intros Hne. unfold train_and_report, params_assert_empty.
  erewrite bind_Raise; [reflexivity |].
  rewrite bind_run. simpl. unfold on_config, Params_assert_empty. simpl.
  rewrite bool_decide_eq_false_2 by done. by destruct w.
Qed.

(** C5. When keys are left in the configuration after the set-up of lines
    162 to 230 has taken what it uses, the run fails at line 231 with the
    error for extra parameters; it ends in the state the set-up left, and
    the trainer has not been called. *)
Theorem leftover_keys_are_refused
  (x : filesystem) (p : Params) (m : model_t) (d : path)
  (extend_vocab ffl : bool) (loaded : value * datasets_t) (w1 : world)
  (s : setup) (w2 : world) :
  load_datasets d ffl (initial x p m) = (Ok loaded, w1) →
  build_trainer d extend_vocab loaded.1 loaded.2 w1 = (Ok s, w2) →
  params (config w2) ≠ ∅ →
  ∃ w',
    fine_tune_model d extend_vocab ffl (initial x p m) = (Raise leftover, w') ∧
    count (is_call C_train) (trace w') = 0 ∧
    trace w' = trace w2 ++ [AssertEmpty] ∧
    model w' = model w2 ∧ fs w' = fs w2.
Proof.
  intros E1 E2 Hne. eexists. split.
  - unfold fine_tune_model. erewrite bind_Ok by apply E1.
    erewrite bind_Ok by apply E2. by apply train_and_report_leftover.
  - simpl. rewrite count_app, count_one. simpl.
    rewrite (setup_quiet_training (is_call C_train) _ _ _ _ _ _ _ _ _ _
               ltac:(intros e He; unfold is_training; by rewrite He) E1 E2).
    done.
Qed.

Lemma is_pop_of_late e :
  is_pop_of vocab_sources e = true → is_late e = true.
Proof. by destruct e. Qed.

(** C10. Without [extend_vocab] nothing pops [datasets_for_vocab_creation]:
    when the configuration has the key and the two collaborators that see
    the configuration before line 186 leave it there, a run whose set-up
    succeeds fails at line 231 with the error for extra parameters, the
    trainer not called.  With [extend_vocab], the same set-up pops the key
    once, and the configuration that reaches line 231 is the one of the run
    without [extend_vocab] less this key. *)
Theorem vocab_sources_key_needs_extend_vocab
  (x : filesystem) (p : Params) (m : model_t) (d : path) (ffl : bool)
  (loaded : value * datasets_t) (w1 : world) (s : setup) (w2 : world) :
  is_Some (params p !! vocab_sources) →
  (∀ q, is_Some (params q !! vocab_sources) →
        is_Some (params (prepare_environment q).2 !! vocab_sources)) →
  (∀ q, is_Some (params q !! vocab_sources) →
        is_Some (params (datasets_from_params q).2 !! vocab_sources)) →
  load_datasets d ffl (initial x p m) = (Ok loaded, w1) →
  build_trainer d false loaded.1 loaded.2 w1 = (Ok s, w2) →
  (∃ w',
     fine_tune_model d false ffl (initial x p m) = (Raise leftover, w') ∧
     count (is_pop_of vocab_sources) (trace w') = 0 ∧
     count (is_call C_train) (trace w') = 0) ∧
  (∀ s' w2',
     build_trainer d true loaded.1 loaded.2 w1 = (Ok s', w2') →
     params (config w2') = delete vocab_sources (params (config w2)) ∧
     count (is_pop_of vocab_sources) (trace w2') = 1).
Proof.
  intros Hk Henv Hds E1 E2. destruct loaded as [vp ds]. simpl in *.
  pose proof (build_trainer_config _ _ _ _ _ _ E2) as Hc2.
  assert (count (is_pop_of vocab_sources) (trace w1) = 0) as Hp1.
  { pose proof E1 as Q.
    apply (load_datasets_quiet (is_pop_of vocab_sources)), quiet_count in Q;
      [done | apply is_pop_of_late]. }
  assert (is_Some (params (config w1) !! vocab_sources)) as Hk1.
  { pose proof E1 as F. apply load_datasets_Ok in F
      as (w0 & w1' & F0 & F1 & F2 & _).
    apply prepare_serialization_dir_Ok in F0 as (_ & Hc0 & _). simpl in Hc0.
    apply discard_Ok in F1 as (_ & Hc1 & _).
    specialize (Hds (config w1')). rewrite F2 in Hds. apply Hds.
    rewrite Hc1, !lookup_delete_ne, Hc0 by done. by apply Henv. }
  split.
  - assert (params (config w2) ≠ ∅) as Hne.
    { intros He. rewrite He in Hc2.
      assert (is_Some ((∅ : gmap string value) !! vocab_sources)) as [? Hx];
        [| by rewrite lookup_empty in Hx].
      by rewrite Hc2, !lookup_delete_ne. }
    eexists. split; [| split].
    + unfold fine_tune_model. erewrite bind_Ok by apply E1.
      erewrite bind_Ok by apply E2. by apply train_and_report_leftover.
    + simpl. rewrite count_app, count_one. simpl.
      apply (build_trainer_quiet_late (is_pop_of vocab_sources)),
        quiet_count in E2; [| apply is_pop_of_late].
      rewrite E2, Hp1. done.
    + simpl. rewrite count_app, count_one. simpl.
      rewrite (setup_quiet_training (is_call C_train) _ _ _ _ _ _ (vp, ds)
                 _ _ _
                 ltac:(intros e He; unfold is_training; by rewrite He) E1 E2).
      done.
  - intros s' w2' E3. rewrite build_trainer_extend in E3.
    destruct (extend_vocabulary vp ds w1) as [[[]|e] w1'] eqn:E4; [| done].
    apply extend_vocabulary_config in E4 as (Hc4 & evs & Ht4 & Hn4).
    pose proof (build_trainer_config _ _ _ _ _ _ E3) as Hc3. split.
    + rewrite Hc3, Hc4, Hc2.
      by rewrite (delete_delete _ "iterator"), (delete_delete _ "trainer"),
        (delete_delete _ "evaluate_on_test").
    + apply (build_trainer_quiet_late (is_pop_of vocab_sources)),
        quiet_count in E3; [| apply is_pop_of_late].
      rewrite E3, Ht4, count_app, count_cons, Hp1, Hn4. done.
Qed.

Lemma params_assert_empty_Ok class_name w :
  params (config w) = ∅ →
  params_assert_empty class_name w =
    (Ok (), set_trace (trace w ++ [AssertEmpty]) w).
Proof.
  intros He. unfold params_assert_empty. rewrite bind_run. simpl.
  unfold on_config, Params_assert_empty. simpl.
  rewrite bool_decide_eq_true_2 by done. by destruct w.
Qed.

(** Lines 232 to 240 when [trainer.train()] is interrupted. *)
Lemma train_interrupted d t x c m tr m2 x2 :
  train t m x = (Raise KeyboardInterrupt, (m2, x2)) →
  let checkpoint := os_path_exists x2 (os_path_join d _DEFAULT_WEIGHTS) in
  let archived := archive_model d (files_to_archive c) x2 in
  train_or_archive_on_interrupt d t (World x c m tr) =
    (Raise (interrupted checkpoint archived.1),
     World (if checkpoint then archived.2 else x2) c m2
           ((tr ++ [Call C_train]) ++
            (if checkpoint
             then [Log INFO MsgInterrupted; Call C_archive_model] else []))).
Proof.
  intros E. simpl. unfold train_or_archive_on_interrupt, try_except.
  rewrite bind_run. simpl. unfold run_train. simpl. rewrite E. simpl.
  rewrite bind_run. simpl. rewrite bind_run. unfold interrupted.
  destruct (os_path_exists x2 (os_path_join d _DEFAULT_WEIGHTS)).
  - rewrite bind_run. simpl. unfold run_archive_model.
    rewrite bind_run. simpl. rewrite bind_run. simpl.
    unfold on_fs. simpl.
    destruct (archive_model d (files_to_archive c) x2) as [[[]|e] x3]; simpl.
    + by rewrite <- !app_assoc.
    + by rewrite <- !app_assoc.
  - simpl. by rewrite app_nil_r.
Qed.

(** C4, as the code has it.  When [trainer.train()] is interrupted by the
    user, the archiver is called, once and before the run ends, exactly when
    the weights file exists in the serialization directory after the
    interrupted training; the run never returns normally and the workflow
    writes no file, so no metrics file.  The caller gets the interrupt
    itself when the archiver was not called or has succeeded; when the
    archiver fails, the caller gets the archiver's exception instead. *)
Theorem interrupt_is_archived_and_propagated
  (x : filesystem) (p : Params) (m : model_t) (d : path)
  (extend_vocab ffl : bool) (loaded : value * datasets_t) (w1 : world)
  (s : setup) (w2 : world) (m2 : model_t) (x2 : filesystem) :
  load_datasets d ffl (initial x p m) = (Ok loaded, w1) →
  build_trainer d extend_vocab loaded.1 loaded.2 w1 = (Ok s, w2) →
  params (config w2) = ∅ →
  train (trainer s) (model w2) (fs w2) = (Raise KeyboardInterrupt, (m2, x2)) →
  let checkpoint := os_path_exists x2 (os_path_join d _DEFAULT_WEIGHTS) in
  let archived := archive_model d (files_to_archive (config w2)) x2 in
  ∃ w',
    fine_tune_model d extend_vocab ffl (initial x p m) =
      (Raise (interrupted checkpoint archived.1), w') ∧
    trace w' =
      trace w2 ++ [AssertEmpty; Call C_train] ++
      (if checkpoint
       then [Log INFO MsgInterrupted; Call C_archive_model] else []) ∧
    count (is_call C_archive_model) (trace w') = (if checkpoint then 1 else 0) ∧
    count is_write_file (trace w') = count is_write_file (trace w2) ∧
    fs w' = (if checkpoint then archived.2 else x2) ∧
    model w' = m2.
Proof.
  intros E1 E2 He E3 checkpoint archived.
  pose proof (setup_quiet_training (is_call C_archive_model) _ _ _ _ _ _ _ _
                _ _ ltac:(intros e He'; unfold is_training; rewrite He';
                          by rewrite orb_true_r) E1 E2) as Hq.
  destruct w2 as [xa c ma tr]. simpl in *.
  pose proof (train_interrupted d _ _ c _ (tr ++ [AssertEmpty]) _ _ E3) as E4.
  simpl in E4. fold checkpoint archived in E4.
  eexists. split.
  - unfold fine_tune_model. erewrite bind_Ok by apply E1.
    erewrite bind_Ok by apply E2. unfold train_and_report.
    erewrite bind_Ok by (by apply params_assert_empty_Ok).
    erewrite bind_Raise; [reflexivity |]. apply E4.
  - simpl. rewrite <- !app_assoc. simpl. split; [done |].
    rewrite !count_app, !count_cons, Hq.
    by destruct checkpoint.
Qed.

Lemma test_prefix_inj k k' : "test_" +:+ k = "test_" +:+ k' → k = k'.
Proof. intros E. simpl in E. by simplify_eq. Qed.

Lemma add_test_metrics_other metrics items key :
  (∀ k, k ∈ items.*1 → key ≠ "test_" +:+ k) →
  add_test_metrics metrics items !! key = metrics !! key.
Proof.
  revert metrics. induction items as [|[k v] rest IH]; intros metrics Hk;
    [done |].
  unfold add_test_metrics in *. simpl. rewrite IH.
  - rewrite lookup_insert_ne; [done |]. intros E. eapply Hk; [| done].
    by left.
  - intros k' Hk'. apply Hk. by right.
Qed.

Lemma add_test_metrics_test metrics items k v :
  NoDup items.*1 → (k, v) ∈ items →
  add_test_metrics metrics items !! ("test_" +:+ k) = Some v.
Proof.
  revert metrics. induction items as [|[k0 v0] rest IH]; intros metrics Hn Hi.
  - by apply elem_of_nil in Hi.
  - apply NoDup_cons in Hn as [Hk0 Hn].
    apply elem_of_cons in Hi as [Hi|Hi].
    + simplify_eq. change (add_test_metrics ?m ((?a, ?b) :: ?l))
        with (add_test_metrics (<["test_" +:+ a := b]> m) l).
      rewrite add_test_metrics_other; [by rewrite lookup_insert_eq |].
      intros k' Hk' E. apply test_prefix_inj in E. by subst.
    + by apply IH.
Qed.

Lemma add_test_metrics_keys metrics items key :
  is_Some (add_test_metrics metrics items !! key) ↔
  is_Some (metrics !! key) ∨ ∃ k, k ∈ items.*1 ∧ key = "test_" +:+ k.
Proof.
  revert metrics. induction items as [|[k v] rest IH]; intros metrics.
  - split; [by left | intros [?|(k & Hk & _)]; [done |]].
    by apply elem_of_nil in Hk.
  - change (add_test_metrics metrics ((k, v) :: rest))
      with (add_test_metrics (<["test_" +:+ k := v]> metrics) rest).
    rewrite IH, lookup_insert_is_Some. split.
    + intros [[<-|[_ ?]]|(k' & Hk' & ->)]; [right | by left | right].
      * exists k. split; [by left | done].
      * exists k'. split; [by right | done].
    + intros [?|(k' & Hk' & ->)].
      * destruct (decide ("test_" +:+ k = key)); [by left; left |].
        left. by right.
      * apply elem_of_cons in Hk' as [->|Hk']; [by left; left |].
        right. by exists k'.
Qed.

(** Lines 232 to 240 when [trainer.train()] returns. *)
Lemma train_returned d t w metrics w3 :
  train_or_archive_on_interrupt d t w = (Ok metrics, w3) →
  train t (model w) (fs w) = (Ok metrics, (model w3, fs w3)) ∧
  config w3 = config w ∧ trace w3 = trace w ++ [Call C_train].
Proof.
  unfold train_or_archive_on_interrupt, try_except.
  rewrite bind_run. simpl. unfold run_train. simpl.
  destruct (train t (model w) (fs w)) as [[mt|e] [m3 x3]]; simpl.
  - intros E. by inversion E.
  - destruct (is_KeyboardInterrupt e); [| done]. intros E.
    apply bind_inv in E as [(? & _ & ?)|(? & ? & _ & E)]; [done |].
    apply bind_inv in E as [(? & _ & ?)|(? & ? & _ & E)]; [done |].
    by apply raise_inv in E as [? _].
Qed.

(** C9. In a run that completes with test data and [evaluate_on_test]: the
    trainer has returned its metrics, the evaluation has returned the test
    metrics for the trained model and the first device of the trainer, and
    the document in [metrics.json] holds every test metric under its key
    prefixed with [test_], with its value; every key of the trainer is a
    key of the document, with the trainer's value unless a prefixed test
    key is the same key; and the document has no other key. *)
Theorem test_metrics_are_prefixed
  (x : filesystem) (p : Params) (m : model_t) (d : path)
  (extend_vocab ffl : bool) (loaded : value * datasets_t) (w1 : world)
  (s : setup) (w2 : world) (trained : model_t) (w' : world)
  (first_instance : Inst) (more : list Inst) :
  load_datasets d ffl (initial x p m) = (Ok loaded, w1) →
  build_trainer d extend_vocab loaded.1 loaded.2 w1 = (Ok s, w2) →
  fine_tune_model d extend_vocab ffl (initial x p m) = (Ok trained, w') →
  test_data s = Some (first_instance :: more) →
  truthy (evaluate_on_test s) = true →
  ∃ metrics test_metrics final device,
    (train (trainer s) (model w2) (fs w2)).1 = Ok metrics ∧
    head (_cuda_devices (trainer s)) = Some device ∧
    evaluate trained (first_instance :: more) (iterator s) device =
      Ok test_metrics ∧
    fs w' !! metrics_path d = Some (File (JsonText 2 (VDict final))) ∧
    (∀ k v, test_metrics !! k = Some v → final !! ("test_" +:+ k) = Some v) ∧
    (∀ k, is_Some (metrics !! k) → is_Some (final !! k)) ∧
    (∀ k v, metrics !! k = Some v →
       (∀ k', is_Some (test_metrics !! k') → k ≠ "test_" +:+ k') →
       final !! k = Some v) ∧
    (∀ k, is_Some (final !! k) →
       is_Some (metrics !! k) ∨
       ∃ k', is_Some (test_metrics !! k') ∧ k = "test_" +:+ k').
Proof.
  intros E1 E2 E Hd Ht. unfold fine_tune_model in E.
  erewrite bind_Ok in E by apply E1. erewrite bind_Ok in E by apply E2.
  unfold train_and_report in E. rewrite Hd, Ht in E. simpl in E.
  apply bind_inv in E as [(? & _ & ?)|([] & w3 & Ea & E)]; [done |].
  apply bind_inv in E as [(? & _ & ?)|(metrics & w4 & Et & E)]; [done |].
  apply train_returned in Et as (Et & Hc4 & Htr4).
  assert (model w3 = model w2 ∧ fs w3 = fs w2) as [Hm3 Hx3].
  { destruct w2. clear E. run_inv. done. }
  rewrite Hm3, Hx3 in Et. clear Ea.
  destruct w4 as [x4 c4 m4 tr4]. simpl in *. run_inv.
  repeat match goal with u : () |- _ => destruct u end.
  destruct (_cuda_devices (trainer s)) as [|device devices] eqn:Hdev;
    [done |].
  match goal with Ed : Ok _ = Ok _ |- _ => injection Ed as <- end.
  match goal with
  | Ew : write_file _ _ _ = _ |- _ => apply write_file_Ok in Ew as [-> _]
  end.
  exists metrics. eexists _, _, device. split; [by rewrite Et |].
  split; [done |]. split; [eassumption |].
  split; [unfold metrics_path; by rewrite lookup_insert_eq |].
  repeat split.
  - intros k v Hk. apply add_test_metrics_test.
    + apply NoDup_fst_map_to_list.
    + by apply elem_of_map_to_list.
  - intros k Hk. apply add_test_metrics_keys. by left.
  - intros k v Hk Hne. rewrite add_test_metrics_other; [done |].
    intros k' Hk'. apply Hne.
    apply list_elem_of_fmap in Hk' as ([k'' v'] & -> & Hk').
    apply elem_of_map_to_list in Hk'. by exists v'.
  - intros k Hk. apply add_test_metrics_keys in Hk as [?|(k' & Hk' & ->)];
      [by left | right].
    exists k'. split; [| done].
    apply list_elem_of_fmap in Hk' as ([k'' v'] & -> & Hk').
    apply elem_of_map_to_list in Hk'. by exists v'.
Qed.

Lemma any_search_spec regexes name b :
  any_search regexes name = Ok b →
  if b then ∃ regex, VStr regex ∈ regexes ∧ re_search regex name = Ok true
  else ∀ regex, VStr regex ∈ regexes → re_search regex name = Ok false.
Proof.
  induction regexes as [|v rest IH]; simpl.
  - intros E. injection E as <-. intros regex Hr. by apply elem_of_nil in Hr.
  - destruct v as [| | | |regex| |]; try done.
    destruct (re_search regex name) as [[]|e] eqn:Es; [| | done].
    + intros E. injection E as <-. exists regex. split; [by left | done].
    + intros E. specialize (IH E). destruct b.
      * destruct IH as (regex' & Hr & Hs). exists regex'. split; [by right | done].
      * intros regex' Hr. apply elem_of_cons in Hr as [Hr|Hr]; [| by apply IH].
        by simplify_eq.
Qed.

Lemma matches_any_spec no_grad name b :
  matches_any no_grad name = Ok b → (b = true ↔ matched no_grad name).
Proof.
  unfold matches_any, matched.
  destruct (py_iter no_grad) as [regexes|e] eqn:Ei; [| done]. intros E.
  apply any_search_spec in E. destruct b.
  - split; [| done]. intros _. destruct E as (regex & Hr & Hs). eauto.
  - split; [done |]. intros (regexes' & regex & Hi & Hr & Hs).
    simplify_eq. specialize (E _ Hr). congruence.
Qed.

(** What the loop of lines 210 to 212 has done when it completes. *)
Lemma freeze_loop_Ok no_grad ps ps' :
  freeze_loop no_grad ps = (Ok (), ps') →
  Forall2 (λ np np' : string * NNParameter Tensor,
             np'.1 = np.1 ∧ data np'.2 = data np.2 ∧
             (matched no_grad np.1 → requires_grad np'.2 = false) ∧
             (¬ matched no_grad np.1 →
              requires_grad np'.2 = requires_grad np.2) ∧
             (requires_grad np'.2 = false ↔
              requires_grad np.2 = false ∨ matched no_grad np.1)) ps ps'.
Proof.
  revert ps'. induction ps as [|[name q] rest IH]; intros ps'; simpl.
  - intros E. inversion E. constructor.
  - destruct (matches_any no_grad name) as [b|e] eqn:Em; [| done].
    destruct (freeze_loop no_grad rest) as [r rest'] eqn:Er.
    intros E. inversion E; subst. constructor; [| by apply IH].
    apply matches_any_spec in Em. simpl.
    split; [done |]. split; [by destruct b |]. split; [| split].
    + intros Hm. apply Em in Hm. by subst.
    + intros Hm. destruct b; [| done]. destruct Hm. by apply Em.
    + destruct b; simpl.
      * split; [| done]. intros _. right. by apply Em.
      * split; [by left |]. intros [?|Hm]; [done |]. by apply Em in Hm.
Qed.






End claims.

(** * Further properties of the workflow *)

Section directory.
Context `{AllenNLP}.

Lemma prepare_serialization_dir_file d ffl x p m tr c :
  x !! d = Some (File c) →
  prepare_serialization_dir d ffl (World x p m tr) =
  (match (prepare_environment p).1 with
   | Ok _ => Raise OSError
   | Raise e => Raise e
   end,
   World x (prepare_environment p).2 m (tr ++ [Call C_prepare_environment])).
Proof.
  intros L. unfold prepare_serialization_dir.
  rewrite bind_run. simpl. rewrite bind_run. unfold on_config. simpl.
  destruct (prepare_environment p) as [[u|e] p']; simpl; [| done].
  rewrite bind_run. simpl. rewrite bind_run.
  unfold os_path_exists. rewrite L, bool_decide_eq_true_2 by done.
  unfold lift_result, os_listdir. by rewrite L.
Qed.

(** X1. When the serialization directory is the path of a file, the run
    fails before it has written anything: with the error of [os.listdir]
    (not the configuration error of line 164) as soon as environment
    preparation returns; the file system and the model are as they were. *)
Theorem serialization_dir_must_not_be_a_file
  (x : filesystem) (p : Params) (m : model_t) (d : path)
  (extend_vocab ffl : bool) (c : content) :
  x !! d = Some (File c) →
  ∃ r w',
    fine_tune_model d extend_vocab ffl (initial x p m) = (r, w') ∧
    is_Ok r = false ∧
    (is_Ok (prepare_environment p).1 = true → r = Raise OSError) ∧
    fs w' = x ∧
    model w' = m ∧
    trace w' = [Call C_prepare_environment].
Proof.
  intros L. unfold fine_tune_model, load_datasets, initial.
  pose proof (prepare_serialization_dir_file d ffl x p m [] c L) as E.
  destruct (prepare_environment p).1 as [u|e] eqn:R.
  all: eexists _, _; split;
    [ erewrite bind_Raise; [reflexivity |];
      erewrite bind_Raise; [reflexivity | apply E] |].
  all: by repeat split.
Qed.

Lemma makedirs_from_present (x : filesystem) made todo :
  (∀ k, 0 < k ≤ length todo → x !! (made ++ take k todo) = Some Dir) →
  makedirs_from x made todo = Ok x.
Proof.
  revert made. induction todo as [|c rest IH]; intros made Hk; [done |].
  simpl. pose proof (Hk 1 ltac:(simpl; lia)) as H1. simpl in H1.
  rewrite take_0 in H1. rewrite H1. apply IH. intros k Hle.
  specialize (Hk (S k) ltac:(simpl; lia)). simpl in Hk.
  by rewrite <- app_assoc.
Qed.

Lemma prepare_serialization_dir_present d ffl x p m tr r w1 :
  os_listdir x d = Ok [] →
  os_makedirs d x = (Ok (), x) →
  is_Ok (prepare_environment p).1 = true →
  prepare_serialization_dir d ffl (World x p m tr) = (r, w1) →
  ∃ rest,
    trace w1 = tr ++ Call C_prepare_environment :: Makedirs d ::
                     Call C_prepare_global_logging :: rest.
Proof.
  intros Hl Hm Hp E. unfold prepare_serialization_dir in E. run_inv.
  all: try match goal with
         | E1 : prepare_environment _ = (Raise _, _) |- _ =>
             rewrite E1 in Hp; discriminate Hp
         end.
  all: try match goal with
         | E2 : os_listdir _ _ = _ |- _ =>
             rewrite Hl in E2; discriminate E2
         end.
  all: try match goal with
         | E3 : os_makedirs _ _ = _ |- _ =>
             rewrite Hm in E3; discriminate E3
         end.
  all: rewrite <- ?app_assoc; simpl; eauto.
Qed.

(** X2. An existing, empty serialization directory is accepted.  When the
    directory and the directories above it are there and it has no entry,
    [os.makedirs] leaves the file system as it is, and every run in which
    environment preparation returns goes on to make the directory and to
    set up logging in it: it is not refused at line 164. *)
Theorem empty_directory_is_accepted
  (x : filesystem) (p : Params) (m : model_t) (d : path)
  (extend_vocab ffl : bool) (r : result model_t) (w' : world) :
  os_listdir x d = Ok [] →
  (∀ k, 0 < k ≤ length d → x !! take k d = Some Dir) →
  is_Ok (prepare_environment p).1 = true →
  fine_tune_model d extend_vocab ffl (initial x p m) = (r, w') →
  os_makedirs d x = (Ok (), x) ∧
  ∃ rest,
    trace w' = Call C_prepare_environment :: Makedirs d ::
               Call C_prepare_global_logging :: rest.
Proof.
  intros Hl Hk Hp E.
  assert (os_makedirs d x = (Ok (), x)) as Hm.
  { unfold os_makedirs. by rewrite makedirs_from_present. }
  split; [done |].
  apply fine_tune_model_after_prepare in E
    as [(e & E & _)|(w1 & E & (evs & G & _))].
  - by apply (prepare_serialization_dir_present _ _ _ _ _ _ _ _ Hl Hm Hp) in E.
  - apply (prepare_serialization_dir_present _ _ _ _ _ _ _ _ Hl Hm Hp) in E
      as [rest E].
    exists (rest ++ evs). rewrite G, E. simpl. done.
Qed.

End directory.

Section report.
Context `{AllenNLP}.

Lemma count_nil p : count p [] = 0.
Proof. reflexivity. Qed.

Lemma train_failed d t x c m tr e m2 x2 :
  train t m x = (Raise e, (m2, x2)) →
  is_KeyboardInterrupt e = false →
  train_or_archive_on_interrupt d t (World x c m tr) =
    (Raise e, World x2 c m2 (tr ++ [Call C_train])).
Proof.
  intros E Hk. unfold train_or_archive_on_interrupt, try_except.
  rewrite bind_run. simpl. unfold run_train. simpl. rewrite E. simpl.
  by rewrite Hk.
Qed.

Lemma train_completed d t x c m tr metrics m2 x2 :
  train t m x = (Ok metrics, (m2, x2)) →
  train_or_archive_on_interrupt d t (World x c m tr) =
    (Ok metrics, World x2 c m2 (tr ++ [Call C_train])).
Proof.
  intros E. unfold train_or_archive_on_interrupt, try_except.
  rewrite bind_run. simpl. unfold run_train. simpl. by rewrite E.
Qed.

Lemma run_archive_model_run d x c m tr :
  run_archive_model d (World x c m tr) =
    ((archive_model d (files_to_archive c) x).1,
     World (archive_model d (files_to_archive c) x).2 c m
           (tr ++ [Call C_archive_model])).
Proof.
  unfold run_archive_model. rewrite bind_run. simpl. rewrite bind_run. simpl.
  unfold on_fs. simpl. by destruct (archive_model d (files_to_archive c) x).
Qed.

Lemma write_file_new (q : path) (c : content) (x : filesystem) :
  x !! removelast q = Some Dir → x !! q ≠ Some Dir →
  write_file q c x = (Ok (), <[q := File c]> x).
Proof.
  intros Hd Hq. unfold write_file. rewrite Hd.
  by destruct (x !! q) as [[|?]|].
Qed.

Lemma open_write_new q c x cf m tr :
  x !! removelast q = Some Dir → x !! q ≠ Some Dir →
  open_write q c (World x cf m tr) =
    (Ok (), World (<[q := File c]> x) cf m (tr ++ [WriteFile q c])).
Proof.
  intros Hd Hq. unfold open_write. rewrite bind_run. simpl.
  unfold on_fs. simpl. by rewrite write_file_new.
Qed.

Lemma metrics_path_parent d : removelast (metrics_path d) = d.
Proof. unfold metrics_path, os_path_join. apply removelast_last. Qed.

(** X3. An exception of [trainer.train()] that is not the user's interrupt
    is not caught: the run ends with it, in the state training has left,
    the archiver has not been called and the workflow has written no
    metrics. *)
Theorem other_training_errors_are_not_archived
  (x : filesystem) (p : Params) (m : model_t) (d : path)
  (extend_vocab ffl : bool) (loaded : value * datasets_t) (w1 : world)
  (s : setup) (w2 : world) (e : exn) (m2 : model_t) (x2 : filesystem) :
  load_datasets d ffl (initial x p m) = (Ok loaded, w1) →
  build_trainer d extend_vocab loaded.1 loaded.2 w1 = (Ok s, w2) →
  params (config w2) = ∅ →
  train (trainer s) (model w2) (fs w2) = (Raise e, (m2, x2)) →
  is_KeyboardInterrupt e = false →
  ∃ w',
    fine_tune_model d extend_vocab ffl (initial x p m) = (Raise e, w') ∧
    trace w' = trace w2 ++ [AssertEmpty; Call C_train] ∧
    count (is_call C_archive_model) (trace w') = 0 ∧
    count is_write_file (trace w') = count is_write_file (trace w2) ∧
    fs w' = x2 ∧
    model w' = m2.
Proof.
  intros E1 E2 He E3 Hk.
  pose proof (setup_quiet_training (is_call C_archive_model) _ _ _ _ _ _ _ _
                _ _ ltac:(intros e' He'; unfold is_training; rewrite He';
                          by rewrite orb_true_r) E1 E2) as Hq.
  destruct w2 as [xa c ma tr]. simpl in *.
  eexists. split.
  - unfold fine_tune_model. erewrite bind_Ok by apply E1.
    erewrite bind_Ok by apply E2. unfold train_and_report.
    erewrite bind_Ok by (by apply params_assert_empty_Ok).
    erewrite bind_Raise; [reflexivity |]. by apply train_failed.
  - simpl. rewrite <- !app_assoc. simpl. split; [done |].
    rewrite !count_app, !count_cons, !count_nil, Hq. simpl.
    repeat split; lia.
Qed.

(** The run up to the point where the archiver has been called after a
    training that returned. *)
Lemma report_archived d s x c m tr metrics m2 x2
  (k : gmap string value → M model_t) :
  params c = ∅ →
  train (trainer s) m x = (Ok metrics, (m2, x2)) →
  (params_assert_empty "base train command" ≫= λ _,
   train_or_archive_on_interrupt d (trainer s) ≫= λ metrics,
   run_archive_model d ≫= λ _, k metrics) (World x c m tr) =
  match (archive_model d (files_to_archive c) x2).1 with
  | Ok _ =>
      k metrics (World (archive_model d (files_to_archive c) x2).2 c m2
           (tr ++ [AssertEmpty; Call C_train; Call C_archive_model]))
  | Raise e =>
      (Raise e,
       World (archive_model d (files_to_archive c) x2).2 c m2
         (tr ++ [AssertEmpty; Call C_train; Call C_archive_model]))
  end.
Proof.
  intros He E.
  erewrite bind_Ok by (by apply params_assert_empty_Ok). simpl.
  erewrite bind_Ok by (by apply train_completed).
  rewrite bind_run, run_archive_model_run, <- !app_assoc. simpl.
  by destruct (archive_model d (files_to_archive c) x2).1.
Qed.

(** X4. A run whose training and archival return and that does not
    evaluate on test data returns the model as training has left it; it
    has called the trainer and then the archiver, once each, has not called
    the evaluation, and has written the trainer's metrics, as they are, to
    [metrics.json] and to the log; with test data it has logged the hint at
    the [evaluate_on_test] flag before that. *)
Theorem completed_run_returns_the_trained_model
  (x : filesystem) (p : Params) (m : model_t) (d : path)
  (extend_vocab ffl : bool) (loaded : value * datasets_t) (w1 : world)
  (s : setup) (w2 : world) (metrics : gmap string value)
  (m2 : model_t) (x2 x3 : filesystem) :
  load_datasets d ffl (initial x p m) = (Ok loaded, w1) →
  build_trainer d extend_vocab loaded.1 loaded.2 w1 = (Ok s, w2) →
  params (config w2) = ∅ →
  train (trainer s) (model w2) (fs w2) = (Ok metrics, (m2, x2)) →
  archive_model d (files_to_archive (config w2)) x2 = (Ok (), x3) →
  nonempty (test_data s) && truthy (evaluate_on_test s) = false →
  x3 !! d = Some Dir →
  x3 !! metrics_path d ≠ Some Dir →
  let document := JsonText 2 (VDict metrics) in
  ∃ w',
    fine_tune_model d extend_vocab ffl (initial x p m) = (Ok m2, w') ∧
    model w' = m2 ∧
    fs w' = <[metrics_path d := File document]> x3 ∧
    trace w' =
      trace w2 ++ [AssertEmpty; Call C_train; Call C_archive_model] ++
      (if nonempty (test_data s) then [Log INFO MsgEvaluateHint] else []) ++
      [WriteFile (metrics_path d) document; Log INFO (MsgMetrics document)] ∧
    count (is_call C_evaluate) (trace w') = 0.
Proof.
  intros E1 E2 He E3 E4 Hn Hd Hq document.
  pose proof (setup_quiet_training (is_call C_evaluate) _ _ _ _ _ _ _ _
                _ _ ltac:(intros e' He'; unfold is_training; rewrite He';
                          by rewrite !orb_true_r) E1 E2) as Hc.
  destruct w2 as [xa c ma tr]. simpl in *.
  eexists. split.
  - unfold fine_tune_model. erewrite bind_Ok by apply E1.
    erewrite bind_Ok by apply E2. unfold train_and_report.
    rewrite (report_archived _ _ _ _ _ _ _ _ _ _ He E3), E4. simpl.
    rewrite Hn. rewrite bind_run.
    rewrite (bind_run (if nonempty (test_data s) then _ else _)).
    assert (∀ tr0,
      (if nonempty (test_data s)
       then logger INFO MsgEvaluateHint else mret ()) (World x3 c m2 tr0) =
      (Ok (), World x3 c m2
                (tr0 ++ if nonempty (test_data s)
                        then [Log INFO MsgEvaluateHint] else []))) as ->.
    { intros tr0. destruct (nonempty (test_data s)); [done |].
      by rewrite app_nil_r. }
    simpl. rewrite bind_run.
    fold (metrics_path d). fold document.
    rewrite open_write_new; [| by rewrite metrics_path_parent | done].
    rewrite bind_run. reflexivity.
  - simpl. repeat split.
    + by rewrite <- !app_assoc.
    + rewrite !count_app, !count_cons, Hc.
      by destruct (nonempty (test_data s)).
Qed.

(** X5. When the archiver fails after a training that returned, the run
    ends with the archiver's exception: the trained model is not returned,
    the evaluation is not called and no metrics are written. *)
Theorem failed_archive_stops_the_report
  (x : filesystem) (p : Params) (m : model_t) (d : path)
  (extend_vocab ffl : bool) (loaded : value * datasets_t) (w1 : world)
  (s : setup) (w2 : world) (metrics : gmap string value)
  (m2 : model_t) (x2 x3 : filesystem) (e : exn) :
  load_datasets d ffl (initial x p m) = (Ok loaded, w1) →
  build_trainer d extend_vocab loaded.1 loaded.2 w1 = (Ok s, w2) →
  params (config w2) = ∅ →
  train (trainer s) (model w2) (fs w2) = (Ok metrics, (m2, x2)) →
  archive_model d (files_to_archive (config w2)) x2 = (Raise e, x3) →
  ∃ w',
    fine_tune_model d extend_vocab ffl (initial x p m) = (Raise e, w') ∧
    trace w' = trace w2 ++ [AssertEmpty; Call C_train; Call C_archive_model] ∧
    count (is_call C_evaluate) (trace w') = 0 ∧
    count is_write_file (trace w') = count is_write_file (trace w2) ∧
    fs w' = x3 ∧
    model w' = m2.
Proof.
  intros E1 E2 He E3 E4.
  pose proof (setup_quiet_training (is_call C_evaluate) _ _ _ _ _ _ _ _
                _ _ ltac:(intros e' He'; unfold is_training; rewrite He';
                          by rewrite !orb_true_r) E1 E2) as Hc.
  destruct w2 as [xa c ma tr]. simpl in *.
  eexists. split.
  - unfold fine_tune_model. erewrite bind_Ok by apply E1.
    erewrite bind_Ok by apply E2. unfold train_and_report.
    rewrite (report_archived _ _ _ _ _ _ _ _ _ _ He E3), E4. reflexivity.
  - simpl. split; [done |].
    rewrite !count_app, !count_cons, !count_nil, Hc. simpl.
    repeat split; lia.
Qed.

(** X6. When the evaluation on test data fails, or the trainer has no
    device to give it, the run ends with that exception after the archive
    has been made: the archiver has been called once, and no metrics are
    written, the trainer's metrics included. *)
Theorem failed_evaluation_leaves_no_metrics
  (x : filesystem) (p : Params) (m : model_t) (d : path)
  (extend_vocab ffl : bool) (loaded : value * datasets_t) (w1 : world)
  (s : setup) (w2 : world) (metrics : gmap string value)
  (m2 : model_t) (x2 x3 : filesystem)
  (first_instance : Inst) (more : list Inst) (e : exn) :
  load_datasets d ffl (initial x p m) = (Ok loaded, w1) →
  build_trainer d extend_vocab loaded.1 loaded.2 w1 = (Ok s, w2) →
  params (config w2) = ∅ →
  train (trainer s) (model w2) (fs w2) = (Ok metrics, (m2, x2)) →
  archive_model d (files_to_archive (config w2)) x2 = (Ok (), x3) →
  test_data s = Some (first_instance :: more) →
  truthy (evaluate_on_test s) = true →
  match _cuda_devices (trainer s) with
  | [] => Raise IndexError
  | device :: _ => evaluate m2 (first_instance :: more) (iterator s) device
  end = Raise e →
  ∃ w',
    fine_tune_model d extend_vocab ffl (initial x p m) = (Raise e, w') ∧
    count (is_call C_archive_model) (trace w') = 1 ∧
    count (is_call C_evaluate) (trace w') =
      (match _cuda_devices (trainer s) with [] => 0 | _ :: _ => 1 end) ∧
    count is_write_file (trace w') = count is_write_file (trace w2) ∧
    fs w' = x3 ∧
    model w' = m2.
Proof.
  intros E1 E2 He E3 E4 Hd Ht Hx.
  pose proof (setup_quiet_training (is_call C_evaluate) _ _ _ _ _ _ _ _
                _ _ ltac:(intros e' He'; unfold is_training; rewrite He';
                          by rewrite !orb_true_r) E1 E2) as Hc.
  pose proof (setup_quiet_training (is_call C_archive_model) _ _ _ _ _ _ _ _
                _ _ ltac:(intros e' He'; unfold is_training; rewrite He';
                          by rewrite orb_true_r) E1 E2) as Ha.
  destruct w2 as [xa c ma tr]. simpl in *.
  destruct (_cuda_devices (trainer s)) as [|device devices] eqn:Hdev.
  - injection Hx as <-. eexists. split.
    + unfold fine_tune_model. erewrite bind_Ok by apply E1.
      erewrite bind_Ok by apply E2. unfold train_and_report.
      rewrite (report_archived _ _ _ _ _ _ _ _ _ _ He E3), E4. simpl.
      rewrite Hd, Ht, Hdev. simpl. reflexivity.
    + simpl. rewrite !count_app, !count_cons, !count_nil, Hc, Ha. simpl.
      repeat split; lia.
  - eexists. split.
    + unfold fine_tune_model. erewrite bind_Ok by apply E1.
      erewrite bind_Ok by apply E2. unfold train_and_report.
      rewrite (report_archived _ _ _ _ _ _ _ _ _ _ He E3), E4. simpl.
      rewrite Hd, Ht, Hdev. simpl.
      rewrite bind_run. rewrite (bind_run (lift_result _)).
      unfold lift_result at 1. rewrite (bind_run (call _)). simpl.
      rewrite (bind_run (gets _)). simpl. rewrite (bind_run (lift_result _)).
      unfold lift_result. rewrite Hx. reflexivity.
    + simpl. rewrite !count_app, !count_cons, !count_nil, Hc, Ha. simpl.
      repeat split; lia.
Qed.

End report.

Section setup.
Context `{AllenNLP}.

Lemma extend_vocabulary_keeps_parameters vp ds :
  steps (keeps (λ w, named_parameters (model w))) (extend_vocabulary vp ds).
Proof. keeps_walk. Qed.

Lemma extend_vocabulary_keeps_fs vp ds :
  steps (keeps fs) (extend_vocabulary vp ds).
Proof. keeps_walk. Qed.

Lemma extend_vocabulary_lookup vp ds w r w1 key :
  extend_vocabulary vp ds w = (r, w1) →
  key ≠ vocab_sources →
  params (config w1) !! key = params (config w) !! key.
Proof.
  intros E Hk. apply extend_vocabulary_config in E as [-> _].
  by rewrite lookup_delete_ne.
Qed.

Lemma value_pop_Ok v key dflt popped :
  value_pop v key dflt = Ok popped →
  ∃ section,
    v = VDict section ∧
    popped = (default dflt (section !! key), VDict (delete key section)).
Proof.
  destruct v; simpl; try done. intros E. injection E as <-.
  eexists. split; [done |]. by destruct (_ !! _).
Qed.

Lemma build_trainer_built d vp ds w s w2 :
  build_trainer d false vp ds w = (Ok s, w2) →
  ∃ iterator_params plain section train_data,
    params (config w) !! "iterator" = Some iterator_params ∧
    DataIterator_from_params iterator_params = Ok plain ∧
    iterator s = index_with plain (vocab (model w2)) ∧
    params (config w) !! "trainer" = Some (VDict section) ∧
    freeze_loop (default (VList []) (section !! "no_grad"))
      (named_parameters (model w)) = (Ok (), named_parameters (model w2)) ∧
    dict_get ds "train" = Some train_data ∧
    test_data s = dict_get ds "test" ∧
    Trainer_from_params (model w2) d (iterator s) train_data
      (dict_get ds "validation") (VDict (delete "no_grad" section)) =
      Ok (trainer s).
Proof.
  intros E. destruct w as [x p m tr]. unfold build_trainer in E. run_inv.
  repeat match goal with u : () |- _ => destruct u end.
  match goal with
  | E1 : Params_pop "iterator" None _ = _,
    E2 : Params_pop "trainer" None _ = _ |- _ =>
      apply Params_pop_required in E1 as [L1 P1];
      apply Params_pop_required in E2 as [L2 _];
      rewrite P1, lookup_delete_ne in L2 by done
  end.
  match goal with
  | E3 : value_pop _ _ _ = Ok _ |- _ =>
      apply value_pop_Ok in E3 as (section & -> & ->)
  end.
  match goal with
  | E4 : dict_getitem _ _ = Ok _ |- _ =>
      unfold dict_getitem in E4;
      destruct (dict_get ds "train") as [train_data|] eqn:Ht; [| done];
      injection E4 as <-
  end.
  match goal with
  | E5 : (let '(_, _) := freeze_loop ?ng ?ps in _) = _ |- _ =>
      destruct (freeze_loop ng ps) as [r ps'] eqn:Ef;
      injection E5 as -> <-
  end.
  simpl in *. eexists _, _, section, train_data.
  repeat split; try eassumption; done.
Qed.

(** X7. When the set-up of lines 184 to 230 completes, the trainer has been
    built from the model as the freezing loop has left it, from the
    iterator made of the [iterator] section and indexed with the vocabulary
    the model has then, from the [train] split, from the [validation]
    split if there is one, and from the [trainer] section without its
    [no_grad] entry; the test data kept for the evaluation is the [test]
    split if there is one. *)
Theorem trainer_is_built_from_the_frozen_model
  (d : path) (extend_vocab : bool) (vocabulary_params : value)
  (all_datasets : datasets_t) (w : world) (s : setup) (w2 : world) :
  build_trainer d extend_vocab vocabulary_params all_datasets w = (Ok s, w2) →
  ∃ iterator_params plain section train_data,
    params (config w) !! "iterator" = Some iterator_params ∧
    DataIterator_from_params iterator_params = Ok plain ∧
    iterator s = index_with plain (vocab (model w2)) ∧
    params (config w) !! "trainer" = Some (VDict section) ∧
    freeze_loop (default (VList []) (section !! "no_grad"))
      (named_parameters (model w)) = (Ok (), named_parameters (model w2)) ∧
    dict_get all_datasets "train" = Some train_data ∧
    test_data s = dict_get all_datasets "test" ∧
    Trainer_from_params (model w2) d (iterator s) train_data
      (dict_get all_datasets "validation")
      (VDict (delete "no_grad" section)) = Ok (trainer s).
Proof.
  destruct extend_vocab; [| apply build_trainer_built].
  rewrite build_trainer_extend.
  destruct (extend_vocabulary vocabulary_params all_datasets w)
    as [[[]|e] w1] eqn:E1; [| done].
  intros E. apply build_trainer_built in E
    as (ip & plain & section & train_data & Hi & Hrest).
  rewrite (extend_vocabulary_lookup _ _ _ _ _ "iterator" E1) in Hi by done.
  destruct Hrest as (Hp & Hs & Ht & Hrest).
  rewrite (extend_vocabulary_lookup _ _ _ _ _ "trainer" E1) in Ht by done.
  destruct Hrest as (Hf & Hrest).
  rewrite (extend_vocabulary_keeps_parameters _ _ _ _ _ E1) in Hf.
  by exists ip, plain, section, train_data.
Qed.

Lemma build_trainer_without_train d vp ds w r w2 :
  dict_get ds "train" = None →
  build_trainer d false vp ds w = (r, w2) →
  is_Ok r = false ∧
  model w2 = model w ∧
  count (is_pop_of "trainer") (trace w2) =
    count (is_pop_of "trainer") (trace w) ∧
  count (is_call C_Trainer_from_params) (trace w2) =
    count (is_call C_Trainer_from_params) (trace w) ∧
  (count (is_call C_index_with) (trace w2) =
     S (count (is_call C_index_with) (trace w)) →
   r = Raise (KeyError "train")).
Proof.
  intros Hn E. destruct w as [x p m tr]. unfold build_trainer in E.
  unfold dict_getitem in E. rewrite Hn in E. run_inv.
  all: simpl; rewrite ?count_app, ?count_cons, ?count_nil; simpl.
  all: repeat split; try done; try lia.
Qed.

(** X8. The [train] split is required: when the dataset collection has
    none, the set-up fails, with [KeyError] for [train] once the iterator
    has been made and indexed; the [trainer] section has not been popped,
    the trainer has not been built and no parameter has been touched. *)
Theorem missing_train_split_is_a_key_error
  (d : path) (extend_vocab : bool) (vocabulary_params : value)
  (all_datasets : datasets_t) (w : world) (r : result setup) (w2 : world) :
  dict_get all_datasets "train" = None →
  build_trainer d extend_vocab vocabulary_params all_datasets w = (r, w2) →
  is_Ok r = false ∧
  named_parameters (model w2) = named_parameters (model w) ∧
  count (is_pop_of "trainer") (trace w2) =
    count (is_pop_of "trainer") (trace w) ∧
  count (is_call C_Trainer_from_params) (trace w2) =
    count (is_call C_Trainer_from_params) (trace w) ∧
  (count (is_call C_index_with) (trace w2) =
     S (count (is_call C_index_with) (trace w)) →
   r = Raise (KeyError "train")).
Proof.
  intros Hn. destruct extend_vocab.
  - rewrite build_trainer_extend.
    destruct (extend_vocabulary vocabulary_params all_datasets w)
      as [r1 w1] eqn:E1.
    assert (steps (quiet (is_pop_of "trainer"))
              (extend_vocabulary vocabulary_params all_datasets)) as Q1
      by quiet_walk.
    assert (steps (quiet (is_call C_Trainer_from_params))
              (extend_vocabulary vocabulary_params all_datasets)) as Q2
      by quiet_walk.
    assert (steps (quiet (is_call C_index_with))
              (extend_vocabulary vocabulary_params all_datasets)) as Q3
      by quiet_walk.
    pose proof (quiet_count _ _ _ (Q1 _ _ _ E1)) as C1.
    pose proof (quiet_count _ _ _ (Q2 _ _ _ E1)) as C2.
    pose proof (quiet_count _ _ _ (Q3 _ _ _ E1)) as C3.
    pose proof (extend_vocabulary_keeps_parameters _ _ _ _ _ E1) as K.
    unfold keeps in K.
    destruct r1 as [[]|e].
    + intros E.
      apply (build_trainer_without_train _ _ _ _ _ _ Hn) in E
        as (Hr & Hm & H1 & H2 & H3).
      rewrite Hm, H1, H2. repeat split; try done.
      rewrite <- C3. exact H3.
    + intros E. injection E as <- <-. repeat split; try done.
      rewrite C3. lia.
  - intros E.
    apply (build_trainer_without_train _ _ _ _ _ _ Hn) in E
      as (Hr & Hm & H1 & H2 & H3).
    by rewrite Hm.
Qed.

Lemma list_bind_same {A B} (f g : A → list B) (l : list A) :
  (∀ a, a ∈ l → f a = g a) → l ≫= f = l ≫= g.
Proof.
  induction l as [|a l IH]; intros Hfg; [done |].
  rewrite !bind_cons, Hfg by left. f_equal. apply IH.
  intros a' Ha'. apply Hfg. by right.
Qed.

Lemma omap_str_of_keys (keys : list string) : omap str_of (VStr <$> keys) = keys.
Proof. induction keys as [|k keys IH]; [done |]. simpl. f_equal. exact IH. Qed.

Lemma instances_of_all (ds : datasets_t) :
  instances_of ds (VStr <$> ds.*1) = concat ds.*2.
Proof.
  unfold instances_of. rewrite omap_str_of_keys.
  rewrite (list_bind_same _ snd).
  - induction ds as [|[k v] ds IH]; [done |].
    rewrite bind_cons. simpl. by rewrite IH.
  - intros [k v] Hk. simpl. rewrite bool_decide_eq_true_2; [done |].
    apply list_elem_of_fmap. by exists (k, v).
Qed.

(** X9. Without a [datasets_for_vocab_creation] key, the vocabulary is
    extended from every dataset: the extension is called with the
    vocabulary section and with the instances of all the splits, the test
    split with them, in the order of the collection; the check of line 190
    cannot fail, and the configuration is as it was. *)
Theorem default_vocabulary_sources_are_all_datasets
  (vocabulary_params : value) (all_datasets : datasets_t) (w : world) :
  params (config w) !! vocab_sources = None →
  ∃ r w1,
    extend_vocabulary vocabulary_params all_datasets w = (r, w1) ∧
    (r, vocab (model w1)) =
      extend_from_instances (vocab (model w)) vocabulary_params
        (concat all_datasets.*2) ∧
    params (config w1) = params (config w) ∧
    trace w1 = trace w ++
      [Pop vocab_sources;
       Log INFO (MsgExtendingVocabulary (list_to_set all_datasets.*1));
       Call C_extend_from_instances].
Proof.
  intros Hk.
  destruct (extend_vocabulary_valid vocabulary_params all_datasets w
              (VStr <$> all_datasets.*1))
    as (r & w1 & E & Hx & _ & _ & Ht).
  - unfold requested_datasets. unfold vocab_sources in Hk. by rewrite Hk.
  - intros v Hv. apply list_elem_of_fmap in Hv as (k & -> & Hk').
    simpl. by apply bool_decide_eq_true_2.
  - exists r, w1. rewrite instances_of_all in Hx.
    rewrite omap_str_of_keys in Ht. repeat split; try done.
    apply extend_vocabulary_config in E as [-> _].
    by apply delete_id.
Qed.

Lemma count_names (p : event → bool) names :
  (∀ name, p (Log INFO (MsgParameterName name)) = false) →
  count p (Log INFO ∘ MsgParameterName <$> names) = 0.
Proof.
  intros Hp. apply count_none, Forall_fmap, Forall_forall.
  intros name _. apply Hp.
Qed.

Lemma build_trainer_saved d vp ds w r w2 :
  build_trainer d false vp ds w = (r, w2) →
  let saved :=
    save_to_files (vocab (model w2)) (os_path_join d "vocabulary") (fs w) in
  fs w2 = saved.2 ∧
  vocab (model w2) = vocab (model w) ∧
  count (is_call C_save_to_files) (trace w2) =
    S (count (is_call C_save_to_files) (trace w)) ∧
  (is_Ok r = true → saved.1 = Ok ()).
Proof.
  intros E. destruct w as [x p m tr]. unfold build_trainer in E. run_inv.
  all: repeat match goal with u : () |- _ => destruct u end.
  all: repeat match goal with
         | E5 : (let '(_, _) := freeze_loop ?ng ?ps in _) = _ |- _ =>
             destruct (freeze_loop ng ps) as [? ?]; inversion E5; subst;
             clear E5
         end.
  all: simpl; rewrite ?count_app, ?count_cons, ?count_nil; simpl.
  all: rewrite ?count_names by done.
  all: match goal with
       | E3 : save_to_files _ _ _ = _ |- _ => rewrite E3
       end.
  all: simpl; repeat split; try done; lia.
Qed.

(** The set-up of lines 184 to 230 starts with lines 184 to 199. *)
Lemma build_trainer_saves_first d ds :
  ∃ rest : M setup, ∀ ev vp w,
    build_trainer d ev vp ds w = (save_vocabulary d ev vp ds ≫= λ _, rest) w.
Proof.
  eexists. intros ev vp w. unfold build_trainer, save_vocabulary.
  rewrite !bind_assoc_run. reflexivity.
Qed.

Lemma save_vocabulary_plain d vp ds w r w1 :
  save_vocabulary d false vp ds w = (r, w1) →
  (r, fs w1) =
    save_to_files (vocab (model w)) (os_path_join d "vocabulary") (fs w) ∧
  model w1 = model w ∧
  trace w1 = trace w ++ [Call C_save_to_files].
Proof.
  intros E. destruct w as [x p m tr]. unfold save_vocabulary in E. run_inv.
  all: repeat match goal with u : () |- _ => destruct u end.
  all: simpl; by match goal with
       | E3 : save_to_files _ _ _ = _ |- _ => rewrite E3
       end.
Qed.

Lemma save_vocabulary_extend d vp ds w :
  save_vocabulary d true vp ds w =
  match extend_vocabulary vp ds w with
  | (Ok _, w1) => save_vocabulary d false vp ds w1
  | (Raise e, w1) => (Raise e, w1)
  end.
Proof.
  unfold save_vocabulary. rewrite bind_run.
  destruct (extend_vocabulary vp ds w) as [[[]|e] w1]; [| done].
  by rewrite (bind_run (mret ())).
Qed.

(** X10. The set-up starts with lines 184 to 199, and ends as they end when
    they fail.  The vocabulary that line 199 saves under [vocabulary] in
    the serialization directory is the one the model has at that line: the
    one it had at line 184 without [extend_vocab], and with it what
    [extend_from_instances] has made of that one.  [save_to_files] is
    called once, as the last step, on the file system as line 184 found
    it; when the extension fails it is not called and the file system is
    as it was. *)
Theorem saved_vocabulary_is_the_models
  (d : path) (extend_vocab : bool) (vocabulary_params : value)
  (all_datasets : datasets_t) (w : world) (r : result setup) (w2 : world) :
  build_trainer d extend_vocab vocabulary_params all_datasets w = (r, w2) →
  ∃ r1 w1,
    save_vocabulary d extend_vocab vocabulary_params all_datasets w =
      (r1, w1) ∧
    (∀ e, r1 = Raise e → r = Raise e ∧ w2 = w1) ∧
    let saved :=
      save_to_files (vocab (model w1)) (os_path_join d "vocabulary") (fs w) in
    (extend_vocab = true ∧ is_Ok r1 = false ∧ fs w1 = fs w ∧
     count (is_call C_save_to_files) (trace w1) =
       count (is_call C_save_to_files) (trace w)) ∨
    ((r1, fs w1) = saved ∧
     count (is_call C_save_to_files) (trace w1) =
       S (count (is_call C_save_to_files) (trace w)) ∧
     last (trace w1) = Some (Call C_save_to_files) ∧
     (extend_vocab = false → model w1 = model w) ∧
     (extend_vocab = true →
      ∃ requested,
        extend_from_instances (vocab (model w)) vocabulary_params
          (instances_of all_datasets requested) =
          (Ok (), vocab (model w1)))).
Proof.
  intros E.
  destruct (save_vocabulary d extend_vocab vocabulary_params all_datasets w)
    as [r1 w1] eqn:E1.
  exists r1, w1. split; [done |]. split.
  { intros e ->. destruct (build_trainer_saves_first d all_datasets)
      as (rest & Hrest).
    rewrite Hrest in E. erewrite bind_Raise in E by apply E1.
    by injection E as <- <-. }
  destruct extend_vocab.
  - rewrite save_vocabulary_extend in E1.
    destruct (extend_vocabulary vocabulary_params all_datasets w)
      as [r0 w0] eqn:E0.
    assert (steps (quiet (is_call C_save_to_files))
              (extend_vocabulary vocabulary_params all_datasets)) as Q0
      by quiet_walk.
    pose proof (quiet_count _ _ _ (Q0 _ _ _ E0)) as C0.
    pose proof (extend_vocabulary_keeps_fs _ _ _ _ _ E0) as K.
    unfold keeps in K.
    destruct r0 as [[]|e].
    + right. apply save_vocabulary_plain in E1 as (Hs & Hm & Ht).
      rewrite Hm, <- K. split; [done |].
      split; [by rewrite Ht, count_app, count_one, C0; simpl; lia |].
      split; [by rewrite Ht, last_snoc |]. split; [done |]. intros _.
      apply extend_vocabulary_called in E0
        as [(_ & ? & _)|(_ & requested & Hx)]; [done |].
      exists requested. by rewrite Hx.
    + injection E1 as <- <-. by left.
  - right. apply save_vocabulary_plain in E1 as (Hs & Hm & Ht).
    rewrite Hm. split; [done |].
    split; [by rewrite Ht, count_app, count_one; simpl; lia |].
    split; [by rewrite Ht, last_snoc |]. done.
Qed.

Lemma freeze_loop_nothing (ps : list (string * NNParameter Tensor)) :
  freeze_loop (VList []) ps = (Ok (), ps).
Proof.
  induction ps as [|[name q] rest IH]; [done |]. simpl. by rewrite IH.
Qed.

Lemma build_trainer_no_grad_absent d vp ds w r w2 :
  (∀ section,
     params (config w) !! "trainer" = Some (VDict section) →
     section !! "no_grad" = None) →
  build_trainer d false vp ds w = (r, w2) →
  model w2 = model w.
Proof.
  intros Hs E. destruct w as [x p m tr]. unfold build_trainer in E.
  simpl in Hs. run_inv.
  all: try reflexivity.
  all: match goal with
       | E1 : Params_pop "iterator" None _ = _,
         E2 : Params_pop "trainer" None _ = _ |- _ =>
           apply Params_pop_required in E1 as [_ P1];
           apply Params_pop_required in E2 as [L2 _];
           rewrite P1, lookup_delete_ne in L2 by done
       end.
  all: match goal with
       | E3 : value_pop _ _ _ = Ok _ |- _ =>
           apply value_pop_Ok in E3 as (section & -> & ->)
       end.
  all: rewrite (Hs _ L2) in *; simpl in *.
  all: match goal with
       | E5 : (let '(_, _) := freeze_loop ?ng ?ps in _) = _ |- _ =>
           rewrite freeze_loop_nothing in E5; inversion E5; subst
       end.
  all: by destruct m.
Qed.

(** X11. Without a [no_grad] entry in the [trainer] section, the set-up
    freezes nothing: however it ends, the parameters of the model are the
    ones it started with, frozen or not as they were; without
    [extend_vocab] the whole model is. *)
Theorem absent_no_grad_freezes_nothing
  (d : path) (extend_vocab : bool) (vocabulary_params : value)
  (all_datasets : datasets_t) (w : world) (r : result setup) (w2 : world) :
  (∀ section,
     params (config w) !! "trainer" = Some (VDict section) →
     section !! "no_grad" = None) →
  build_trainer d extend_vocab vocabulary_params all_datasets w = (r, w2) →
  named_parameters (model w2) = named_parameters (model w) ∧
  (extend_vocab = false → model w2 = model w).
Proof.
  intros Hs. destruct extend_vocab.
  - rewrite build_trainer_extend.
    destruct (extend_vocabulary vocabulary_params all_datasets w)
      as [r1 w1] eqn:E1.
    pose proof (extend_vocabulary_keeps_parameters _ _ _ _ _ E1) as K.
    unfold keeps in K.
    destruct r1 as [[]|e].
    + intros E. split; [| done].
      apply build_trainer_no_grad_absent in E; [by rewrite E |].
      intros section.
      rewrite (extend_vocabulary_lookup _ _ _ _ _ "trainer" E1) by done.
      apply Hs.
    + intros E. by injection E as <- <-.
  - intros E. apply (build_trainer_no_grad_absent _ _ _ _ _ _ Hs) in E.
    by rewrite E.
Qed.

#[global] Instance may_freeze_preorder {T} : PreOrder (@may_freeze T).
Proof.
  split.
  - by intros np.
  - intros a b c (N1 & D1 & G1) (N2 & D2 & G2). unfold may_freeze.
    split; [congruence |]. split; [congruence | auto].
Qed.

#[global] Instance frozen_further_preorder : PreOrder frozen_further.
Proof.
  split.
  - intros w. unfold frozen_further. reflexivity.
  - intros a b c. unfold frozen_further. intros ? ?. by etrans.
Qed.

Lemma freeze_loop_may_freeze no_grad ps r ps' :
  freeze_loop no_grad ps = (r, ps') → Forall2 may_freeze ps ps'.
Proof.
  revert r ps'. induction ps as [|[name q] rest IH]; intros r ps'; simpl.
  - intros E. inversion E. constructor.
  - destruct (matches_any no_grad name) as [b|e].
    + destruct (freeze_loop no_grad rest) as [r1 rest'] eqn:Er.
      intros E. inversion E; subst. constructor; [| by eapply IH].
      destruct b; [| reflexivity]. by repeat split.
    + intros E. inversion E; subst. reflexivity.
Qed.

End setup.

Ltac frozen_prim :=
  unfold frozen_further; simpl;
  first
    [ reflexivity
    | match goal with
      | E : (let '(_, _) := freeze_loop ?ng ?ps in _) = _ |- _ =>
          let F := fresh in
          destruct (freeze_loop ng ps) eqn:F; inversion E; subst; simpl;
          by eapply freeze_loop_may_freeze
      | E : (let '(_, _) := ?t in _) = _ |- _ =>
          destruct t; inversion E; subst; reflexivity
      end ].

Section freezing.
Context `{AllenNLP}.

Lemma build_trainer_frozen_further d ev vp ds :
  steps frozen_further (build_trainer d ev vp ds).
Proof. steps_walk frozen_prim. Qed.

(** X12. However the set-up ends, also when the freezing loop raises on a
    pattern half-way through the parameters, the model has the parameters
    it had, under their names, in their order and with their data, and no
    gradient that was disabled has been enabled; before the set-up, up to
    dataset construction, the model is not touched at all. *)
Theorem set_up_never_enables_a_gradient
  (x : filesystem) (p : Params) (m : model_t) (d : path)
  (extend_vocab ffl : bool) :
  let loaded := load_datasets d ffl (initial x p m) in
  model loaded.2 = m ∧
  ∀ vocabulary_params all_datasets,
    Forall2 may_freeze (named_parameters m)
      (named_parameters
         (model (build_trainer d extend_vocab vocabulary_params
                   all_datasets loaded.2).2)).
Proof.
  intros loaded. assert (model loaded.2 = m) as Hm.
  { subst loaded.
    destruct (load_datasets d ffl (initial x p m)) as [r w1] eqn:E.
    by apply load_datasets_keeps_model in E. }
  split; [done |]. intros vp ds.
  destruct (build_trainer d extend_vocab vp ds loaded.2) as [r w2] eqn:E.
  apply build_trainer_frozen_further in E. unfold frozen_further in E.
  by rewrite Hm in E.
Qed.

Lemma chars_matched s c name :
  VStr c ∈ chars s → re_search c name = Ok true → matched (VStr s) name.
Proof. intros Hc Hs. by exists (chars s), c. Qed.

(** X13. A [no_grad] that is one string is not one pattern: the loop reads
    it character by character.  When the freezing step completes, a
    parameter is disabled as soon as one character of the string, searched
    as a pattern of its own, is found in its name. *)
Theorem string_no_grad_is_read_per_character
  (w : world) (s : string) (w1 : world)
  (i : nat) (name : string) (q : NNParameter Tensor) (c : string) :
  freeze_parameters (VStr s) w = (Ok (), w1) →
  named_parameters (model w) !! i = Some (name, q) →
  VStr c ∈ chars s →
  re_search c name = Ok true →
  ∃ q',
    named_parameters (model w1) !! i = Some (name, q') ∧
    data q' = data q ∧
    requires_grad q' = false.
Proof.
  intros E Hi Hc Hs. unfold freeze_parameters in E.
  apply on_model_inv in E as (m1 & E & ->). simpl.
  destruct (freeze_loop (VStr s) (named_parameters (model w)))
    as [r ps'] eqn:Ef.
  injection E as -> <-. simpl.
  pose proof (freeze_loop_Ok _ _ _ Ef) as F.
  destruct (Forall2_lookup_l _ _ _ _ _ F Hi)
    as ([name' q'] & Hi' & Hname & Hd & Hm & _).
  simpl in *. subst name'. exists q'. repeat split; [done | done |].
  apply Hm. by eapply chars_matched.
Qed.

End freezing.

(** Events of the set-up and of the report that are a write of the
    workflow's own to its directory. *)
Ltac own_prim :=
  first
    [ apply quiet_same; reflexivity
    | apply quiet_emit;
      first
        [ reflexivity
        | unfold writes_elsewhere, snapshot_path, metrics_path; simpl;
          rewrite bool_decide_eq_true_2; [reflexivity | auto] ] ].

(** The same as [quiet_prim_by] for a kind of event bounded by two kinds. *)
Ltac quiet_prim_by2 Hp :=
  first
    [ apply quiet_same; reflexivity
    | apply quiet_emit;
      match goal with
      | |- ?p ?ev = false =>
          let E := fresh in
          destruct (p ev) eqn:E;
          [ apply Hp in E; destruct E as [E|E]; vm_compute in E;
            discriminate E
          | reflexivity ]
      end ].

Section made.

(** [os.makedirs] keeps what is there. *)
Lemma makedirs_from_keeps (x : filesystem) made todo x1 q n :
  makedirs_from x made todo = Ok x1 → x !! q = Some n → x1 !! q = Some n.
Proof.
  revert x made. induction todo as [|c rest IH]; intros x made; simpl.
  - by intros [= <-].
  - destruct (x !! (made ++ [c])) as [[|f]|] eqn:L; [by apply IH | done |].
    intros E Hq. apply (IH _ _ E). rewrite lookup_insert_ne; [done |].
    intros <-. congruence.
Qed.

(** When it returns, every component of the path is a directory. *)
Lemma makedirs_from_made (x : filesystem) made todo x1 k :
  makedirs_from x made todo = Ok x1 → 0 < k ≤ length todo →
  x1 !! (made ++ take k todo) = Some Dir.
Proof.
  revert x made k. induction todo as [|c rest IH]; intros x made k; simpl.
  - lia.
  - intros E Hk. destruct k as [|k]; [lia |]. simpl.
    assert (∃ x', makedirs_from x' (made ++ [c]) rest = Ok x1 ∧
                  x' !! (made ++ [c]) = Some Dir) as (x' & E' & L').
    { destruct (x !! (made ++ [c])) as [[|f]|] eqn:L; [eauto | done |].
      eexists. split; [exact E |]. by rewrite lookup_insert_eq. }
    destruct k as [|k].
    + rewrite take_0. by apply (makedirs_from_keeps _ _ _ _ _ _ E').
    + rewrite (cons_middle c), app_assoc. apply (IH _ _ _ E'). simpl in *. lia.
Qed.

(** What it changes was missing, is a directory afterwards, and is a
    component of the path. *)
Lemma makedirs_from_new (x : filesystem) made todo x1 q :
  makedirs_from x made todo = Ok x1 → x1 !! q ≠ x !! q →
  x !! q = None ∧ x1 !! q = Some Dir ∧
  ∃ k, 0 < k ≤ length todo ∧ q = made ++ take k todo.
Proof.
  revert x made. induction todo as [|c rest IH]; intros x made; simpl.
  - intros [= <-] Hq. by destruct Hq.
  - destruct (x !! (made ++ [c])) as [[|f]|] eqn:L; [| done |].
    + intros E Hq. destruct (IH _ _ E Hq) as (H1 & H2 & k & Hk & ->).
      split; [done |]. split; [done |]. exists (S k). split; [lia |].
      simpl. by rewrite <- app_assoc.
    + intros E Hq. destruct (decide (q = made ++ [c])) as [->|Hne].
      * split; [done |]. split.
        { apply (makedirs_from_keeps _ _ _ _ _ _ E).
          by rewrite lookup_insert_eq. }
        exists 1. split; [lia | reflexivity].
      * rewrite <- (lookup_insert_ne x (made ++ [c]) q Dir) in Hq by done.
        destruct (IH _ _ E Hq) as (H1 & H2 & k & Hk & ->).
        rewrite lookup_insert_ne in H1 by done.
        split; [done |]. split; [done |]. exists (S k). split; [lia |].
        simpl. by rewrite <- app_assoc.
Qed.

(** [os.makedirs(d, exist_ok=True)] makes [d] and the ancestors of [d] that
    are missing, and nothing else. *)
Lemma os_makedirs_makes (d : path) (x : filesystem) r x1 :
  os_makedirs d x = (r, x1) →
  (∀ q, x1 !! q ≠ x !! q →
     x !! q = None ∧ x1 !! q = Some Dir ∧ q ≠ [] ∧ q `prefix_of` d) ∧
  (r = Ok () → ∀ q, q ≠ [] → q `prefix_of` d → x1 !! q = Some Dir).
Proof.
  unfold os_makedirs.
  destruct (makedirs_from x [] d) as [x'|e] eqn:E; intros [= <- <-];
    [| by split].
  split.
  - intros q Hq. destruct (makedirs_from_new _ _ _ _ _ E Hq)
      as (H1 & H2 & k & Hk & ->). simpl.
    split; [done |]. split; [done |]. split.
    + destruct d, k; simpl in *; try done; lia.
    + exists (drop k d). by rewrite take_drop.
  - intros _ q Hq [rest ->].
    pose proof (makedirs_from_made _ [] _ _ (length q) E) as G. simpl in G.
    rewrite take_app_length in G. apply G. rewrite length_app.
    destruct q; [done |]. simpl. lia.
Qed.

End made.

Section traces.
Context `{AllenNLP}.

Lemma fine_tune_model_writes_nowhere_else d ev ffl :
  steps (quiet (writes_elsewhere d)) (fine_tune_model d ev ffl).
Proof. steps_walk own_prim. Qed.

Lemma take_prepare_events_writes n d p :
  count is_write_file (take n (prepare_events d p)) ≤ 1 ∧
  count is_makedirs (take n (prepare_events d p)) ≤ 1.
Proof.
  unfold prepare_events.
  destruct n as [|[|[|[|n]]]]; simpl;
    rewrite ?take_nil, ?count_cons, ?count_nil; simpl; lia.
Qed.

Lemma load_datasets_writes d ffl w r w1 :
  load_datasets d ffl w = (r, w1) →
  count is_write_file (trace w1) ≤ count is_write_file (trace w) + 1 ∧
  count is_makedirs (trace w1) ≤ count is_makedirs (trace w) + 1.
Proof.
  unfold load_datasets. intros E.
  apply bind_inv in E as [(e & E & _)|([] & w0 & E & F)].
  - apply prepare_serialization_dir_trace in E as (n & -> & _).
    rewrite !count_app.
    pose proof (take_prepare_events_writes n d
                  (prepare_environment (config w)).2). lia.
  - apply prepare_serialization_dir_trace in E as (n & E & _).
    pose proof F as F'.
    steps_in F (quiet is_write_file) quiet_prim.
    steps_in F' (quiet is_makedirs) quiet_prim.
    apply quiet_count in F, F'. rewrite F, F', E, !count_app.
    pose proof (take_prepare_events_writes n d
                  (prepare_environment (config w)).2). lia.
Qed.

Lemma build_trainer_writes d ev vp ds w r w2 :
  build_trainer d ev vp ds w = (r, w2) →
  count is_write_file (trace w2) = count is_write_file (trace w) ∧
  count is_makedirs (trace w2) = count is_makedirs (trace w).
Proof.
  intros E. pose proof E as E'.
  steps_in E (quiet is_write_file) quiet_prim.
  steps_in E' (quiet is_makedirs) quiet_prim.
  by apply quiet_count in E, E'.
Qed.

(** Lines 232 to 240 when they end with an exception. *)
Lemma train_raised d t w e w3 :
  train_or_archive_on_interrupt d t w = (Raise e, w3) →
  ∃ evs,
    trace w3 = trace w ++ Call C_train :: evs ∧
    (evs = [] ∨ evs = [Log INFO MsgInterrupted; Call C_archive_model]).
Proof.
  unfold train_or_archive_on_interrupt, try_except.
  rewrite bind_run. simpl. unfold run_train. simpl.
  destruct (train t (model w) (fs w)) as [[mt|e'] [m3 x3]]; simpl; [done |].
  destruct (is_KeyboardInterrupt e').
  - intros E. destruct w as [x c m tr]. simpl in E. run_inv.
    all: simpl; rewrite <- ?app_assoc; simpl; eauto.
  - intros E. inversion E; subst. simpl. eauto.
Qed.

(** What lines 231 to 259 add to the trace: one of nine sequences. *)
Lemma train_and_report_events d s w r w' :
  train_and_report d s w = (r, w') →
  ∃ evs,
    trace w' = trace w ++ evs ∧
    count is_write_file evs ≤ 1 ∧
    count is_makedirs evs = 0 ∧
    ordered is_assert_empty (is_call C_train) false evs = true ∧
    ordered (is_call C_train) (is_call C_archive_model) false evs = true ∧
    ordered (is_call C_archive_model) (is_call C_evaluate) false evs = true ∧
    ordered (is_call C_archive_model) (is_metrics_write d) false evs = true.
Proof.
  unfold train_and_report. intros E.
  apply bind_inv in E as [(e & E & _)|([] & w3 & Ea & E)].
  { destruct w as [x c m tr]. run_inv. eexists. split; [reflexivity |].
    rewrite ?count_cons, ?count_nil. simpl. repeat split; lia. }
  assert (trace w3 = trace w ++ [AssertEmpty]) as Ha.
  { destruct w as [x c m tr]. clear E. run_inv. done. }
  clear Ea.
  apply bind_inv in E as [(e & E & _)|(metrics & w4 & Et & E)].
  { apply train_raised in E as (evs & -> & [-> | ->]); rewrite Ha;
      rewrite <- app_assoc; simpl; eexists; (split; [reflexivity |]);
      rewrite ?count_cons, ?count_nil; simpl; repeat split; lia. }
  apply train_returned in Et as (_ & _ & Ht). rewrite Ha in Ht. clear Ha.
  destruct w4 as [x4 c4 m4 tr4]. simpl in Ht. subst tr4. run_inv.
  all: rewrite <- ?app_assoc; simpl.
  all: eexists; (split; [reflexivity |]).
  all: rewrite ?count_cons, ?count_nil; simpl.
  all: repeat split; try lia.
Qed.

Lemma ordered_lookup early late seen tr j ev :
  ordered early late seen tr = true →
  tr !! j = Some ev → late ev = true →
  seen = true ∨ ∃ i ev', i < j ∧ tr !! i = Some ev' ∧ early ev' = true.
Proof.
  revert seen j. induction tr as [|ev0 tr IH]; intros seen j; [done |].
  simpl. intros Ho. apply andb_true_iff in Ho as [Hs Ho].
  destruct j as [|j]; simpl.
  - intros [= ->] Hl. rewrite Hl in Hs. left. by destruct seen.
  - intros Hj Hl. destruct (IH _ _ Ho Hj Hl) as [Hs'|(i & ev' & Hi & Hi' & He)].
    + destruct seen; [by left |]. right. exists 0, ev0.
      split; [lia |]. by split.
    + right. exists (S i), ev'. split; [lia |]. by split.
Qed.

Lemma ordered_precedes early late pre tr :
  Forall (λ ev, late ev = false) pre →
  ordered early late false tr = true →
  precedes (λ ev, early ev = true) (λ ev, late ev = true) (pre ++ tr).
Proof.
  intros Hp Ho j ev Hj Hl.
  destruct (decide (j < length pre)) as [Hlt|Hge].
  - rewrite lookup_app_l in Hj by done.
    eapply Forall_lookup_1 in Hp; [| done]. simpl in Hp. congruence.
  - rewrite lookup_app_r in Hj by lia.
    destruct (ordered_lookup _ _ _ _ _ _ Ho Hj Hl)
      as [?|(i & ev' & Hi & Hi' & He)]; [done |].
    exists (length pre + i), ev'. split; [lia |]. split; [| done].
    rewrite lookup_app_r by lia. by replace (length pre + i - length pre) with i by lia.
Qed.

Lemma setup_quiet_report (p : event → bool) d ev ffl :
  (∀ e, p e = true → is_training e = true ∨ is_metrics_write d e = true) →
  steps (quiet p) (load_datasets d ffl) ∧
  ∀ vp ds, steps (quiet p) (build_trainer d ev vp ds).
Proof.
  intros Hp. split; [| intros vp ds]; steps_walk ltac:(quiet_prim_by2 Hp).
Qed.

(** A run is a set-up, in which nothing of kind [p] happens, and then what
    lines 231 to 259 add. *)
Lemma fine_tune_model_events (p : event → bool) x c m d ev ffl :
  (∀ e, p e = true → is_training e = true ∨ is_metrics_write d e = true) →
  ∃ pre evs,
    trace (fine_tune_model d ev ffl (initial x c m)).2 = pre ++ evs ∧
    Forall (λ e, p e = false) pre ∧
    count is_write_file pre ≤ 1 ∧
    count is_makedirs pre ≤ 1 ∧
    count is_write_file evs ≤ 1 ∧
    count is_makedirs evs = 0 ∧
    ordered is_assert_empty (is_call C_train) false evs = true ∧
    ordered (is_call C_train) (is_call C_archive_model) false evs = true ∧
    ordered (is_call C_archive_model) (is_call C_evaluate) false evs = true ∧
    ordered (is_call C_archive_model) (is_metrics_write d) false evs = true.
Proof.
  intros Hp. destruct (setup_quiet_report p d ev ffl Hp) as [Q1 Q2].
  destruct (fine_tune_model d ev ffl (initial x c m)) as [r w'] eqn:E.
  unfold fine_tune_model in E. simpl.
  apply bind_inv in E as [(e & E & _)|(loaded & w1 & E1 & E)].
  { exists (trace w'), []. rewrite app_nil_r.
    pose proof (Q1 _ _ _ E) as (evs & G & F). simpl in G. subst evs.
    apply load_datasets_writes in E. simpl in E. rewrite ?count_nil in *.
    repeat split; try done; lia. }
  pose proof (Q1 _ _ _ E1) as (evs1 & G1 & F1). simpl in G1. subst evs1.
  apply load_datasets_writes in E1. simpl in E1. rewrite ?count_nil in E1.
  apply bind_inv in E as [(e & E & _)|(s & w2 & E2 & E)].
  { exists (trace w'), []. rewrite app_nil_r.
    pose proof (Q2 _ _ _ _ _ E) as (evs & G & F).
    apply build_trainer_writes in E as [W1 W2].
    rewrite ?count_nil. repeat split; try done; try lia.
    rewrite G. by apply Forall_app. }
  pose proof (Q2 _ _ _ _ _ E2) as (evs2 & G2 & F2).
  apply build_trainer_writes in E2 as [W1 W2].
  apply train_and_report_events in E as (evs & -> & Hrest).
  exists (trace w2), evs. split; [done |]. split.
  { rewrite G2. by apply Forall_app. }
  split; [lia |]. split; [lia |]. exact Hrest.
Qed.

(** The file system after lines 162 to 172: the one the run started on,
    with the serialization directory made, the logging set up and the
    snapshot written. *)
Lemma prepare_serialization_dir_fs d ffl w w1 :
  prepare_serialization_dir d ffl w = (Ok (), w1) →
  ∃ made logged,
    os_makedirs d (fs w) = (Ok (), made) ∧
    prepare_global_logging d ffl made = (Ok (), logged) ∧
    fs w1 =
      <[snapshot_path d := File (JsonText 4 (as_dict (config w1)))]> logged.
Proof.
  unfold prepare_serialization_dir. intros E. destruct w as [x p m tr].
  run_inv.
  all: repeat match goal with u : () |- _ => destruct u end.
  all: apply write_file_Ok in E as [-> _].
  all: by eexists _, _.
Qed.

(** X14. Whatever the run does, the workflow itself calls [os.makedirs] at
    most once, on the serialization directory, and the only files that it
    opens for writing are the snapshot of the configuration and the metrics
    file in that directory: two writes at most.  The call of [os.makedirs]
    is made on the file system that the run started on.  It makes the
    serialization directory and those of its ancestors that are missing,
    and nothing else: a path that it changes was absent, is a directory
    afterwards, and is the serialization directory or an ancestor of it;
    and when the call returns all of these are directories. *)
Theorem workflow_writes_in_its_directory_only
  (x : filesystem) (p : Params) (m : model_t) (d : path)
  (extend_vocab ffl : bool) :
  let tr := trace (fine_tune_model d extend_vocab ffl (initial x p m)).2 in
  let made := (os_makedirs d x).2 in
  count (writes_elsewhere d) tr = 0 ∧
  count is_makedirs tr ≤ 1 ∧
  count is_write_file tr ≤ 2 ∧
  (∀ w1,
     prepare_serialization_dir d ffl (initial x p m) = (Ok (), w1) →
     os_makedirs d x = (Ok (), made) ∧
     ∃ logged,
       prepare_global_logging d ffl made = (Ok (), logged) ∧
       fs w1 =
         <[snapshot_path d := File (JsonText 4 (as_dict (config w1)))]>
           logged) ∧
  (∀ q, made !! q ≠ x !! q →
     x !! q = None ∧ made !! q = Some Dir ∧ q ≠ [] ∧ q `prefix_of` d) ∧
  (is_Ok (os_makedirs d x).1 = true →
   ∀ q, q ≠ [] → q `prefix_of` d → made !! q = Some Dir).
Proof.
  intros tr made. subst tr made.
  split; [| split; [| split; [| split; [| split]]]].
  - destruct (fine_tune_model d extend_vocab ffl (initial x p m))
      as [r w'] eqn:E.
    by apply fine_tune_model_writes_nowhere_else, quiet_count in E.
  - destruct (fine_tune_model_events (λ _, false) x p m d extend_vocab ffl
                ltac:(done))
      as (pre & evs & -> & _ & H1 & H2 & H3 & H4 & _).
    rewrite !count_app. lia.
  - destruct (fine_tune_model_events (λ _, false) x p m d extend_vocab ffl
                ltac:(done))
      as (pre & evs & -> & _ & H1 & H2 & H3 & H4 & _).
    rewrite !count_app. lia.
  - intros w1 E. apply prepare_serialization_dir_fs in E
      as (made & logged & E1 & E2 & E3). simpl in E1.
    rewrite E1. split; [done |]. by exists logged.
  - destruct (os_makedirs d x) as [r x1] eqn:E.
    apply (os_makedirs_makes _ _ _ _ E).
  - destruct (os_makedirs d x) as [r x1] eqn:E. simpl.
    destruct r as [[]|e]; [| done]. intros _.
    by apply (os_makedirs_makes _ _ _ _ E).
Qed.

(** X15. In every run, the check for left-over keys comes before any call
    of the trainer, the trainer is called before any call of the archiver,
    and the archiver is called before the evaluation on test data and
    before the metrics file is written: the archive holds nothing of
    either. *)
Theorem training_report_order
  (x : filesystem) (p : Params) (m : model_t) (d : path)
  (extend_vocab ffl : bool) :
  let tr := trace (fine_tune_model d extend_vocab ffl (initial x p m)).2 in
  precedes (λ e, is_assert_empty e = true)
           (λ e, is_call C_train e = true) tr ∧
  precedes (λ e, is_call C_train e = true)
           (λ e, is_call C_archive_model e = true) tr ∧
  precedes (λ e, is_call C_archive_model e = true)
           (λ e, is_call C_evaluate e = true) tr ∧
  precedes (λ e, is_call C_archive_model e = true)
           (λ e, is_metrics_write d e = true) tr.
Proof.
  intros tr. subst tr. repeat split.
  - destruct (fine_tune_model_events (is_call C_train) x p m d extend_vocab
                ffl) as (pre & evs & -> & F & _ & _ & _ & _ & O & _).
    { intros e He. left. unfold is_training. by rewrite He. }
    by apply ordered_precedes.
  - destruct (fine_tune_model_events (is_call C_archive_model) x p m d
                extend_vocab ffl)
      as (pre & evs & -> & F & _ & _ & _ & _ & _ & O & _).
    { intros e He. left. unfold is_training. rewrite He.
      by rewrite orb_true_r. }
    by apply ordered_precedes.
  - destruct (fine_tune_model_events (is_call C_evaluate) x p m d
                extend_vocab ffl)
      as (pre & evs & -> & F & _ & _ & _ & _ & _ & _ & O & _).
    { intros e He. left. unfold is_training. rewrite He.
      by rewrite !orb_true_r. }
    by apply ordered_precedes.
  - destruct (fine_tune_model_events (is_metrics_write d) x p m d
                extend_vocab ffl)
      as (pre & evs & -> & F & _ & _ & _ & _ & _ & _ & _ & O).
    { intros e He. by right. }
    by apply ordered_precedes.
Qed.

End traces.

Section entries.
Context `{Archival}.

(** X16. The entry points load the archive first, then the configuration,
    and only then start the workflow: when the archive cannot be loaded,
    the command ends with that exception and has not read the
    configuration file; when the configuration cannot be read, it ends
    with that exception; in both cases no step of the workflow has run,
    and the file system is as the loaders have left it. *)
Theorem loading_failures_stop_before_the_workflow
  (args : Namespace.t) (x : filesystem) :
  let archive := load_archive (Namespace.model_archive args) x in
  let configuration :=
    Params_from_file (Namespace.config_file args) (Namespace.overrides args)
      archive.2 in
  let outcome := fine_tune_model_from_args args x in
  (∀ e, archive.1 = Raise e →
     outcome =
       (Raise e, (archive.2, [LoadArchive (Namespace.model_archive args)]))) ∧
  (∀ e, is_Ok archive.1 = true → configuration.1 = Raise e →
     outcome =
       (Raise e,
        (configuration.2,
         [LoadArchive (Namespace.model_archive args);
          ParamsFromFile (Namespace.config_file args)
                         (Namespace.overrides args)]))) ∧
  (∀ ev, Workflow ev ∈ outcome.2.2 →
     is_Ok archive.1 = true ∧ is_Ok configuration.1 = true).
Proof.
  intros archive configuration outcome.
  subst archive configuration outcome.
  unfold fine_tune_model_from_args, fine_tune_model_from_file_paths.
  destruct (load_archive (Namespace.model_archive args) x) as [[a|e1] x1];
    simpl.
  - destruct (Params_from_file _ _ x1) as [[c|e2] x2]; simpl.
    + split; [intros e E; discriminate E |].
      split; [intros e _ E; discriminate E |]. by intros.
    + split; [done |]. split; [by intros e _ [= ->] |].
      intros ev Hev. rewrite !elem_of_cons, elem_of_nil in Hev.
      by destruct Hev as [?|[?|?]].
  - split; [by intros e [= ->] |]. split; [done |].
    intros ev Hev. rewrite !elem_of_cons, elem_of_nil in Hev.
    by destruct Hev as [?|?].
Qed.

(** X17. The command checks the serialization directory only after both
    loads: on a directory that is not empty it ends with the
    configuration error of line 164 (environment preparation having
    returned), the archive loaded and the configuration read for nothing,
    and the workflow has done nothing on the file system. *)
Theorem command_refuses_a_used_directory_after_loading
  (args : Namespace.t) (x : filesystem)
  (archive : Archive.t model_t) (x1 : filesystem)
  (c : Params) (x2 : filesystem) (name : string) (names : list string) :
  load_archive (Namespace.model_archive args) x = (Ok archive, x1) →
  Params_from_file (Namespace.config_file args) (Namespace.overrides args) x1 =
    (Ok c, x2) →
  os_listdir x2 (Namespace.serialization_dir args) = Ok (name :: names) →
  is_Ok (prepare_environment c).1 = true →
  fine_tune_model_from_args args x =
    (Raise refusal,
     (x2, [LoadArchive (Namespace.model_archive args);
           ParamsFromFile (Namespace.config_file args)
                          (Namespace.overrides args);
           Workflow (Call C_prepare_environment)])).
Proof.
  intros E1 E2 L Hp.
  pose proof (prepare_serialization_dir_nonempty
                (Namespace.serialization_dir args)
                (Namespace.file_friendly_logging args) x2 c
                (Archive.model archive) [] name names L) as E.
  destruct (prepare_environment c).1 as [u|e]; [| done].
  unfold fine_tune_model_from_args, fine_tune_model_from_file_paths.
  rewrite E1, E2. unfold fine_tune_model, load_datasets, initial.
  erewrite bind_Raise; [| erewrite bind_Raise; [reflexivity | apply E]].
  reflexivity.
Qed.

End entries.

Section keys.
Context `{AllenNLP}.

Lemma discard_not_a_mapping w r2 w2 v :
  params (config w) !! "vocabulary" = Some v →
  (∀ section, v ≠ VDict section) →
  discard_model_and_directory_path w = (r2, w2) →
  r2 = Raise AttributeError ∧ fs w2 = fs w ∧ model w2 = model w ∧
  count (is_call C_datasets_from_params) (trace w2) =
    count (is_call C_datasets_from_params) (trace w).
Proof.
  intros L Hv E. destruct w as [x p m tr].
  unfold discard_model_and_directory_path in E. simpl in L.
  run_inv.
  all: try (match goal with
            | E0 : Params_pop _ (Some _) _ = (Raise _, _) |- _ =>
                by apply Params_pop_default in E0
            end).
  all: match goal with
       | E1 : Params_pop "model" _ _ = _,
         E2 : Params_pop "vocabulary" _ _ = _ |- _ =>
           apply Params_pop_params, (popped_lookup _ _ _ "vocabulary") in E1
             as [_ E1]; specialize (E1 ltac:(done)); rewrite L in E1;
           rewrite (Params_pop_present _ _ _ _ E1) in E2;
           injection E2 as <- <-
       end.
  all: match goal with
       | E3 : value_get ?v _ _ = _ |- _ =>
           destruct v; simpl in E3; try discriminate E3;
           try (by exfalso; eapply Hv)
       end.
  all: simpl; rewrite ?count_app, ?count_cons, ?count_nil; simpl.
  all: repeat split; try done; try lia.
Qed.

(** X18. The [vocabulary] section has to be a mapping: when the
    configuration sets it to anything else ([null], a string, a list), the
    look-up of [directory_path] at line 179 fails and the run ends with
    [AttributeError], after the snapshot and before dataset
    construction. *)
Theorem vocabulary_section_must_be_a_mapping
  (x : filesystem) (p : Params) (m : model_t) (d : path)
  (extend_vocab ffl : bool) (w1 : world) (v : value) :
  prepare_serialization_dir d ffl (initial x p m) = (Ok (), w1) →
  params (prepare_environment p).2 !! "vocabulary" = Some v →
  (∀ section, v ≠ VDict section) →
  ∃ w',
    fine_tune_model d extend_vocab ffl (initial x p m) =
      (Raise AttributeError, w') ∧
    count (is_call C_datasets_from_params) (trace w') = 0 ∧
    fs w' = fs w1 ∧
    model w' = m.
Proof.
  intros E1 L Hv.
  pose proof (prepare_serialization_dir_Ok _ _ _ _ E1) as (Hm & Hc & Ht & _).
  simpl in Hm, Hc, Ht. rewrite <- Hc in L.
  destruct (discard_model_and_directory_path w1) as [r2 w2] eqn:E2.
  pose proof (discard_not_a_mapping _ _ _ _ L Hv E2) as (-> & Hf & Hm2 & Hn).
  exists w2. split.
  - unfold fine_tune_model, load_datasets.
    erewrite bind_Raise; [reflexivity |].
    erewrite bind_Ok by apply E1. by erewrite bind_Raise.
  - rewrite Hn, Ht. unfold prepare_events.
    rewrite !count_cons, count_nil. simpl. split; [done |].
    split; [done | congruence].
Qed.

Lemma unknown_key_survives_loading d ffl x p m loaded w1 key :
  key ≠ "model" → key ≠ "vocabulary" →
  is_Some (params p !! key) →
  (∀ q, is_Some (params q !! key) →
        is_Some (params (prepare_environment q).2 !! key)) →
  (∀ q, is_Some (params q !! key) →
        is_Some (params (datasets_from_params q).2 !! key)) →
  load_datasets d ffl (initial x p m) = (Ok loaded, w1) →
  is_Some (params (config w1) !! key).
Proof.
  intros K1 K2 Hk Henv Hds E1. destruct loaded as [vp ds].
  apply load_datasets_Ok in E1 as (w0 & w1' & F0 & F1 & F2 & _).
  apply prepare_serialization_dir_Ok in F0 as (_ & Hc0 & _). simpl in Hc0.
  apply discard_Ok in F1 as (_ & Hc1 & _).
  specialize (Hds (config w1')). rewrite F2 in Hds. apply Hds.
  rewrite Hc1, !lookup_delete_ne, Hc0 by done. by apply Henv.
Qed.

Lemma build_trainer_consumed d ev vp ds w s w2 key :
  build_trainer d ev vp ds w = (Ok s, w2) →
  key ∉ own_keys true →
  params (config w2) !! key = params (config w) !! key.
Proof.
  intros E Hk. unfold own_keys in Hk. simpl in Hk.
  rewrite !not_elem_of_cons in Hk.
  destruct Hk as (_ & _ & K3 & K4 & K5 & K6 & _).
  destruct ev.
  - rewrite build_trainer_extend in E.
    destruct (extend_vocabulary vp ds w) as [[[]|e] w1] eqn:E1; [| done].
    apply build_trainer_config in E. rewrite E, !lookup_delete_ne by done.
    by eapply extend_vocabulary_lookup.
  - apply build_trainer_config in E. by rewrite E, !lookup_delete_ne.
Qed.

(** X19. A key of the configuration that the workflow does not pop itself
    and that the two collaborators that see the configuration leave in
    place (a misspelt section, say) is not ignored: a run whose set-up
    succeeds fails at line 231 with the error for extra parameters, before
    the trainer is called, with or without [extend_vocab]. *)
Theorem unknown_key_is_refused
  (x : filesystem) (p : Params) (m : model_t) (d : path)
  (extend_vocab ffl : bool) (key : string)
  (loaded : value * datasets_t) (w1 : world) (s : setup) (w2 : world) :
  key ∉ own_keys true →
  is_Some (params p !! key) →
  (∀ q, is_Some (params q !! key) →
        is_Some (params (prepare_environment q).2 !! key)) →
  (∀ q, is_Some (params q !! key) →
        is_Some (params (datasets_from_params q).2 !! key)) →
  load_datasets d ffl (initial x p m) = (Ok loaded, w1) →
  build_trainer d extend_vocab loaded.1 loaded.2 w1 = (Ok s, w2) →
  ∃ w',
    fine_tune_model d extend_vocab ffl (initial x p m) = (Raise leftover, w') ∧
    is_Some (params (config w') !! key) ∧
    count (is_call C_train) (trace w') = 0 ∧
    fs w' = fs w2 ∧
    model w' = model w2.
Proof.
  intros Hk Hp Henv Hds E1 E2.
  assert (key ≠ "model" ∧ key ≠ "vocabulary") as [K1 K2].
  { unfold own_keys in Hk. simpl in Hk. rewrite !not_elem_of_cons in Hk.
    tauto. }
  pose proof (unknown_key_survives_loading _ _ _ _ _ _ _ _ K1 K2 Hp Henv Hds
                E1) as Hk1.
  rewrite <- (build_trainer_consumed _ _ _ _ _ _ _ _ E2 Hk) in Hk1.
  assert (params (config w2) ≠ ∅) as Hne.
  { intros He. rewrite He, lookup_empty in Hk1. by destruct Hk1. }
  eexists. split.
  - unfold fine_tune_model. erewrite bind_Ok by apply E1.
    erewrite bind_Ok by apply E2. by apply train_and_report_leftover.
  - simpl. split; [done |]. rewrite count_app, count_one. simpl.
    rewrite (setup_quiet_training (is_call C_train) _ _ _ _ _ _ _ _ _ _
               ltac:(intros e He; unfold is_training; by rewrite He) E1 E2).
    done.
Qed.

Lemma pops_app tr1 tr2 : pops (tr1 ++ tr2) = pops tr1 ++ pops tr2.
Proof. unfold pops. apply omap_app. Qed.

Lemma pops_quiet w w' : quiet is_pop w w' → pops (trace w') = pops (trace w).
Proof.
  intros (evs & -> & F). rewrite pops_app.
  assert (pops evs = []) as ->; [| by rewrite app_nil_r].
  induction F as [|ev evs Hev _ IH]; [done |].
  destruct ev; try discriminate Hev; exact IH.
Qed.

Lemma pops_names names : pops (Log INFO ∘ MsgParameterName <$> names) = [].
Proof. induction names as [|name names IH]; [done |]. exact IH. Qed.

Lemma prepare_serialization_dir_pops d ffl w r w1 :
  prepare_serialization_dir d ffl w = (r, w1) →
  pops (trace w1) = pops (trace w).
Proof.
  intros E. apply pops_quiet.
  assert (steps (quiet is_pop) (prepare_serialization_dir d ffl)) as S
    by quiet_walk.
  by eapply S.
Qed.

Lemma discard_pops w r w1 :
  discard_model_and_directory_path w = (r, w1) →
  pops (trace w1) = pops (trace w) ++ ["model"; "vocabulary"].
Proof.
  intros E. destruct w as [x p m tr].
  unfold discard_model_and_directory_path in E. run_inv.
  all: try (match goal with
            | E0 : Params_pop _ (Some _) _ = (Raise _, _) |- _ =>
                by apply Params_pop_default in E0
            end).
  all: by rewrite !pops_app, <- ?app_assoc.
Qed.

Lemma load_datasets_pops d ffl w r w1 :
  load_datasets d ffl w = (r, w1) →
  (pops (trace w1) = pops (trace w) ∧ is_Ok r = false) ∨
  pops (trace w1) = pops (trace w) ++ ["model"; "vocabulary"].
Proof.
  unfold load_datasets. intros E.
  apply bind_inv in E as [(e & E & ->)|([] & w0 & E0 & E)].
  { left. split; [| done]. by eapply prepare_serialization_dir_pops. }
  apply prepare_serialization_dir_pops in E0. rewrite <- E0.
  apply bind_inv in E as [(e & E & _)|(vp & w2 & E2 & E)].
  { right. by apply discard_pops in E. }
  apply discard_pops in E2. rewrite <- E2. right.
  apply pops_quiet. steps_in E (quiet is_pop) quiet_prim. done.
Qed.

Lemma extend_vocabulary_pops vp ds w r w1 :
  extend_vocabulary vp ds w = (r, w1) →
  pops (trace w1) = pops (trace w) ++ ["datasets_for_vocab_creation"].
Proof.
  intros E. destruct w as [x p m tr]. unfold extend_vocabulary in E.
  run_inv.
  all: by rewrite !pops_app, <- ?app_assoc.
Qed.

Lemma build_trainer_pops d vp ds w r w2 :
  build_trainer d false vp ds w = (r, w2) →
  ∃ k, pops (trace w2) =
       pops (trace w) ++ take k ["iterator"; "trainer"; "evaluate_on_test"] ∧
       (is_Ok r = true → 3 ≤ k).
Proof.
  intros E. destruct w as [x p m tr]. unfold build_trainer in E. run_inv.
  all: simpl; rewrite !pops_app, ?pops_names, <- ?app_assoc; simpl.
  all: first
    [ by exists 0 | by exists 1 | by exists 2
    | by exists 3; split; [| lia] ].
Qed.

Lemma take_prefix {A} (l : list A) k : take k l `prefix_of` l.
Proof. exists (drop k l). by rewrite take_drop. Qed.

Lemma train_and_report_pops d s w r w' :
  train_and_report d s w = (r, w') → pops (trace w') = pops (trace w).
Proof.
  intros E. apply pops_quiet.
  assert (steps (quiet is_pop) (train_and_report d s)) as S by quiet_walk.
  by eapply S.
Qed.

(** X20. The sections of the configuration are consumed in a fixed order:
    in every run, the keys that the workflow pops are, in order, an initial
    segment of [model], [vocabulary], [datasets_for_vocab_creation] (with
    [extend_vocab] only), [iterator], [trainer], [evaluate_on_test]; each
    is popped once at most, and a run that returns has popped them all. *)
Theorem sections_are_popped_in_order
  (x : filesystem) (p : Params) (m : model_t) (d : path)
  (extend_vocab ffl : bool) :
  let outcome := fine_tune_model d extend_vocab ffl (initial x p m) in
  pops (trace outcome.2) `prefix_of` own_keys extend_vocab ∧
  (is_Ok outcome.1 = true → pops (trace outcome.2) = own_keys extend_vocab).
Proof.
  intros outcome. subst outcome.
  destruct (fine_tune_model d extend_vocab ffl (initial x p m))
    as [r w'] eqn:E.
  unfold fine_tune_model in E. simpl.
  apply bind_inv in E as [(e & E & ->)|(loaded & w1 & E1 & E)].
  { split; [| done].
    apply load_datasets_pops in E as [[-> _] | ->]; simpl.
    - apply prefix_nil.
    - unfold own_keys. by eexists. }
  assert (pops (trace w1) = ["model"; "vocabulary"]) as P1.
  { pose proof E1 as E1'. by apply load_datasets_pops in E1' as [[_ ?] | ->]. }
  apply bind_inv in E as [(e & E & ->)|(s & w2 & E2 & E)].
  { split; [| done]. unfold own_keys. destruct extend_vocab.
    - rewrite build_trainer_extend in E.
      destruct (extend_vocabulary loaded.1 loaded.2 w1) as [[[]|e'] w1']
        eqn:Ex.
      + apply extend_vocabulary_pops in Ex.
        apply build_trainer_pops in E as (k & -> & _). rewrite Ex, P1.
        rewrite <- !app_assoc. do 3 apply prefix_cons.
        apply take_prefix.
      + injection E as <- <-. apply extend_vocabulary_pops in Ex.
        rewrite Ex, P1. simpl. do 3 apply prefix_cons. apply prefix_nil.
    - apply build_trainer_pops in E as (k & -> & _). rewrite P1. simpl.
      do 2 apply prefix_cons. apply take_prefix. }
  apply train_and_report_pops in E. rewrite E.
  assert (pops (trace w2) = own_keys extend_vocab) as ->; [| done].
  unfold own_keys. destruct extend_vocab.
  - rewrite build_trainer_extend in E2.
    destruct (extend_vocabulary loaded.1 loaded.2 w1) as [[[]|e'] w1']
      eqn:Ex; [| done].
    apply extend_vocabulary_pops in Ex.
    apply build_trainer_pops in E2 as (k & -> & Hk). rewrite Ex, P1.
    rewrite take_ge by (simpl; specialize (Hk eq_refl); lia).
    by rewrite <- !app_assoc.
  - apply build_trainer_pops in E2 as (k & -> & Hk). rewrite P1.
    by rewrite take_ge by (simpl; specialize (Hk eq_refl); lia).
Qed.

End keys.

Section again.
Context `{AllenNLP}.

(** A run that returns has ended with the write of the metrics file. *)
Lemma train_and_report_Ok d s w trained w' :
  train_and_report d s w = (Ok trained, w') →
  ∃ x3 document,
    fs w' = <[metrics_path d := File document]> x3 ∧ x3 !! d = Some Dir.
Proof.
  unfold train_and_report. intros E.
  apply bind_inv in E as [(? & _ & ?)|([] & w3 & _ & E)]; [done |].
  apply bind_inv in E as [(? & _ & ?)|(metrics & w4 & _ & E)]; [done |].
  destruct w4 as [x4 c4 m4 tr4]. run_inv.
  all: match goal with
       | Ew : write_file _ _ _ = _ |- _ =>
           repeat match goal with u : () |- _ => destruct u end;
           apply write_file_Ok in Ew as [-> Hd]
       end.
  all: fold (metrics_path d) in *; rewrite metrics_path_parent in Hd.
  all: by eexists _, _.
Qed.

Lemma children_entry (x : filesystem) d name n :
  x !! (d ++ [name]) = Some n → name ∈ children x d.
Proof.
  intros L. unfold children. apply list_elem_of_omap.
  exists (d ++ [name], n). split; [by apply elem_of_map_to_list |].
  simpl. rewrite decide_True; [apply last_snoc |].
  split; [by destruct d | apply removelast_last].
Qed.

Lemma metrics_path_ne d : metrics_path d ≠ d.
Proof.
  unfold metrics_path, os_path_join. intros E.
  apply (f_equal length) in E. rewrite length_app in E. simpl in E. lia.
Qed.

(** X21. A run that has returned leaves its metrics file in the
    serialization directory, so the directory cannot be used again: every
    later run on the file system it has left, whatever its configuration,
    model and flags, is refused with the configuration error of line 164
    as soon as environment preparation returns, and changes nothing. *)
Theorem completed_run_cannot_be_repeated
  (x : filesystem) (p : Params) (m : model_t) (d : path)
  (extend_vocab ffl : bool) (trained : model_t) (w' : world)
  (p2 : Params) (m2 : model_t) (extend_vocab2 ffl2 : bool) :
  fine_tune_model d extend_vocab ffl (initial x p m) = (Ok trained, w') →
  is_Ok (prepare_environment p2).1 = true →
  is_Some (fs w' !! metrics_path d) ∧
  ∃ w'',
    fine_tune_model d extend_vocab2 ffl2 (initial (fs w') p2 m2) =
      (Raise refusal, w'') ∧
    fs w'' = fs w' ∧
    trace w'' = [Call C_prepare_environment].
Proof.
  intros E Hp. unfold fine_tune_model in E.
  apply bind_inv in E as [(? & _ & ?)|(loaded & w1 & _ & E)]; [done |].
  apply bind_inv in E as [(? & _ & ?)|(s & w2 & _ & E)]; [done |].
  apply train_and_report_Ok in E as (x3 & document & Hfs & Hd).
  assert (fs w' !! metrics_path d = Some (File document)) as Hm
    by (by rewrite Hfs, lookup_insert_eq).
  split; [by rewrite Hm |].
  assert (∃ name names, os_listdir (fs w') d = Ok (name :: names))
    as (name & names & L).
  { unfold os_listdir.
    rewrite Hfs, lookup_insert_ne, Hd, <- Hfs
      by apply metrics_path_ne.
    pose proof (children_entry _ _ _ _ Hm) as Hin.
    destruct (children (fs w') d) as [|name names]; [| by eauto].
    by apply elem_of_nil in Hin. }
  pose proof (prepare_serialization_dir_nonempty d ffl2 (fs w') p2 m2 []
                name names L) as E2.
  destruct (prepare_environment p2).1 as [u|e]; [| done].
  eexists. split.
  - unfold fine_tune_model, load_datasets, initial.
    erewrite bind_Raise; [reflexivity |].
    erewrite bind_Raise; [reflexivity | apply E2].
  - done.
Qed.

Lemma load_datasets_after_prepare d ffl w w1 r w2 :
  prepare_serialization_dir d ffl w = (Ok (), w1) →
  load_datasets d ffl w = (r, w2) →
  fs w2 = fs w1.
Proof.
  intros E1 E. unfold load_datasets in E. erewrite bind_Ok in E by apply E1.
  steps_in E (keeps fs) keeps_prim. done.
Qed.

Lemma build_trainer_unsaved d ev vp ds w r w2 :
  build_trainer d ev vp ds w = (r, w2) →
  count (is_call C_save_to_files) (trace w2) = 0 →
  is_Ok r = false ∧ fs w2 = fs w.
Proof.
  intros E Hc. destruct ev.
  - rewrite build_trainer_extend in E.
    destruct (extend_vocabulary vp ds w) as [[[]|e] w1] eqn:E1.
    + apply build_trainer_saved in E as (_ & _ & Hs & _). lia.
    + injection E as <- <-. split; [done |].
      by apply extend_vocabulary_keeps_fs in E1.
  - apply build_trainer_saved in E as (_ & _ & Hs & _). lia.
Qed.

(** X22. A run that fails after the snapshot and before the vocabulary is
    saved (on the [vocabulary] section, in dataset construction, on the
    sources of the vocabulary) leaves the serialization directory as the
    first lines have made it, the snapshot in it: a later run on it, also
    with a corrected configuration, is refused with the configuration
    error of line 164 until the directory is emptied. *)
Theorem failed_set_up_leaves_the_directory_in_use
  (x : filesystem) (p : Params) (m : model_t) (d : path)
  (extend_vocab ffl : bool) (w1 : world) (r : result model_t) (w' : world)
  (p2 : Params) (m2 : model_t) (extend_vocab2 ffl2 : bool) :
  prepare_serialization_dir d ffl (initial x p m) = (Ok (), w1) →
  fine_tune_model d extend_vocab ffl (initial x p m) = (r, w') →
  count (is_call C_save_to_files) (trace w') = 0 →
  is_Ok (prepare_environment p2).1 = true →
  is_Ok r = false ∧
  fs w' = fs w1 ∧
  ∃ w'',
    fine_tune_model d extend_vocab2 ffl2 (initial (fs w') p2 m2) =
      (Raise refusal, w'') ∧
    fs w'' = fs w'.
Proof.
  intros E1 E Hc Hp.
  assert (is_Ok r = false ∧ fs w' = fs w1) as [Hr Hfs].
  { unfold fine_tune_model in E.
    apply bind_inv in E as [(e & E & ->)|(loaded & w2 & E2 & E)].
    { split; [done |]. by eapply load_datasets_after_prepare. }
    apply (load_datasets_after_prepare _ _ _ _ _ _ E1) in E2 as <-.
    apply bind_inv in E as [(e & E & ->)|(s & w3 & E3 & E)].
    { by apply build_trainer_unsaved in E as [_ ?]. }
    exfalso. assert (steps grows (train_and_report d s)) as G by quiet_walk.
    apply G in E as (evs & Ht & _). rewrite Ht, count_app in Hc.
    apply build_trainer_unsaved in E3 as [? _]; [done | lia]. }
  split; [done |]. split; [done |].
  apply prepare_serialization_dir_Ok in E1 as (_ & _ & _ & Hs & Hd).
  rewrite <- Hfs in Hs, Hd.
  assert (∃ name names, os_listdir (fs w') d = Ok (name :: names))
    as (name & names & L).
  { unfold os_listdir. rewrite Hd.
    pose proof (children_entry _ _ _ _ Hs) as Hin.
    destruct (children (fs w') d) as [|name names]; [| by eauto].
    by apply elem_of_nil in Hin. }
  pose proof (prepare_serialization_dir_nonempty d ffl2 (fs w') p2 m2 []
                name names L) as E2.
  destruct (prepare_environment p2).1 as [u|e]; [| done].
  eexists. split.
  - unfold fine_tune_model, load_datasets, initial.
    erewrite bind_Raise; [reflexivity |].
    erewrite bind_Raise; [reflexivity | apply E2].
  - done.
Qed.

End again.

Section sources.
Context `{AllenNLP}.

Lemma check_datasets_forallb requested (ds : datasets_t) :
  check_datasets requested ds =
  if forallb (dict_contains ds) requested then Ok () else Raise invalid_source.
Proof.
  induction requested as [|v rest IH]; [done |]. simpl.
  by destruct (dict_contains ds v).
Qed.

Lemma forallb_same {A} (f : A → bool) l1 l2 :
  (∀ a, a ∈ l1 ↔ a ∈ l2) → forallb f l1 = forallb f l2.
Proof.
  intros Hl. apply eq_true_iff_eq.
  rewrite <- !Is_true_true, !forallb_True, !Forall_forall.
  split; intros Hf a Ha; apply Hf; by apply Hl.
Qed.

Lemma omap_str_of_same (l1 l2 : list value) (key : string) :
  (∀ v, v ∈ l1 ↔ v ∈ l2) →
  key ∈ omap str_of l1 ↔ key ∈ omap str_of l2.
Proof.
  intros Hl. rewrite !list_elem_of_omap.
  split; intros (v & Hv & Hs); exists v; (split; [by apply Hl | done]).
Qed.

(** X23. For the check and for the instances, the sources of the
    vocabulary are used as a set: two requests with the same names, in
    whatever order and however often, pass or fail the check of lines 189
    to 191 alike (the error does not name the split, so it is the same
    error) and select the same instances, in the same order, which is the
    order of the splits in the dataset collection and not the order of the
    request.  This does not cover the text of line 193, which lists the
    names in the order of Python's set. *)
Theorem vocabulary_sources_are_used_as_a_set
  (all_datasets : datasets_t) (requested requested' : list value) :
  (∀ v, v ∈ requested ↔ v ∈ requested') →
  check_datasets requested all_datasets =
    check_datasets requested' all_datasets ∧
  instances_of all_datasets requested = instances_of all_datasets requested' ∧
  instances_of all_datasets requested =
    concat (snd <$> filter (λ kv, kv.1 ∈ omap str_of requested)
                           all_datasets).
Proof.
  intros Hl. split; [| split].
  - rewrite !check_datasets_forallb. by rewrite (forallb_same _ _ _ Hl).
  - unfold instances_of. apply list_bind_same. intros [k data] _. simpl.
    by rewrite (bool_decide_ext _ _ (omap_str_of_same _ _ k Hl)).
  - unfold instances_of. clear Hl.
    induction all_datasets as [|[k data] ds IH]; [done |].
    rewrite bind_cons, filter_cons, IH. simpl.
    destruct (decide (k ∈ omap str_of requested)) as [Hin|Hin].
    + by rewrite bool_decide_eq_true_2.
    + by rewrite bool_decide_eq_false_2.
Qed.

End sources.

(** * The theorems at work on the small framework *)

Section returned.
Context `{AllenNLP}.

(** A computation that has returned is the pair of what it returned and of
    the world it left. *)
Lemma returned {A} (dflt : A) (c : result A * world) :
  is_Ok c.1 = true → c = (Ok (Demo.the dflt c.1), c.2).
Proof. by destruct c as [[a|e] w]. Qed.

Lemma returned_unit (c : result () * world) :
  is_Ok c.1 = true → c = (Ok (), c.2).
Proof. by destruct c as [[[]|e] w]. Qed.


Lemma ended {A} (c : result A * world) : c = (c.1, c.2).
Proof. by destruct c. Qed.

Lemma interrupted_pair {A B C} (c : result A * (B * C)) e :
  raised c.1 = Some e → c = (Raise e, (c.2.1, c.2.2)).
Proof. destruct c as [[a|e'] [b c]]; simpl; [done |]. by intros [= ->]. Qed.

End returned.

Section witnesses.
Import Demo.

Ltac run_it := vm_compute; reflexivity.
Ltac decide_it := refine (bool_decide_eq_true_1 _ _); vm_compute; reflexivity.



Lemma nonempty_directory_is_refused_witness :
  os_listdir used out = Ok ["stdout.log"] ∧
  (run used base_config ∅ false).1 = Raise refusal ∧
  fs (run used base_config ∅ false).2 = used.
Proof.
  assert (os_listdir used out = Ok ["stdout.log"]) as L by run_it.
  split; [exact L |].
  destruct (@nonempty_directory_is_refused framework used
              (mkParams base_config ∅) bundle out false false
              "stdout.log" [] L)
    as (r & w' & E & _ & Hr & Hfs & _).
  rewrite E. cbn [fst snd]. split; [| exact Hfs].
  apply Hr. reflexivity.
Defined.

Lemma snapshot_precedes_datasets_witness :
  (∅ : filesystem) !! out = None ∧
  ∃ w',
    run ∅ without_data ∅ false =
      (Raise (ConfigurationError "key train_data_path is required"), w') ∧
    fs w' !! out = Some Dir ∧
    fs w' !! snapshot_path out =
      Some (File (JsonText 4
                    (as_dict (prepare_environment (mkParams without_data ∅)).2))).
Proof.
  assert ((∅ : filesystem) !! out = None) as L by reflexivity.
  split; [exact L |].
  assert (is_Ok (prepare_serialization_dir out false
                   (start ∅ without_data ∅)).1 = true) as E1 by run_it.
  assert (is_Ok (discard_model_and_directory_path
                   (prepare_serialization_dir out false
                      (start ∅ without_data ∅)).2).1 = true) as E2 by run_it.
  assert ((datasets_from_params
             (config (discard_model_and_directory_path
                        (prepare_serialization_dir out false
                           (start ∅ without_data ∅)).2).2)).1 =
          Raise (ConfigurationError "key train_data_path is required"))
    as E3 by run_it.
  exact (proj2 (@snapshot_precedes_datasets framework ∅
                  (mkParams without_data ∅) bundle out false false L)
           _ _ _ _ (returned_unit _ E1) (returned VNone _ E2) E3).
Defined.

Abbreviation interrupted_training :=
  (train (trainer (setup_of interrupted_config ∅ false))
     (model (built interrupted_config ∅ false).2)
     (fs (built interrupted_config ∅ false).2)).

Lemma interrupt_is_archived_and_propagated_witness :
  let checkpoint :=
    os_path_exists interrupted_training.2.2 (os_path_join out _DEFAULT_WEIGHTS) in
  let archived :=
    archive_model out
      (files_to_archive (config (built interrupted_config ∅ false).2))
      interrupted_training.2.2 in
  params (config (built interrupted_config ∅ false).2) = ∅ ∧
  raised interrupted_training.1 = Some KeyboardInterrupt ∧
  checkpoint = true ∧
  interrupted checkpoint archived.1 = KeyboardInterrupt ∧
  ∃ w',
    run ∅ interrupted_config ∅ false =
      (Raise (interrupted checkpoint archived.1), w') ∧
    count (is_call C_archive_model) (trace w') =
      (if checkpoint then 1 else 0).
Proof.
  cbv zeta.
  assert (is_Ok (loaded interrupted_config ∅).1 = true) as H1 by run_it.
  assert (is_Ok (built interrupted_config ∅ false).1 = true) as H2 by run_it.
  assert (params (config (built interrupted_config ∅ false).2) = ∅) as He
    by decide_it.
  assert (raised interrupted_training.1 = Some KeyboardInterrupt) as Hr
    by run_it.
  split; [exact He |]. split; [exact Hr |].
  split; [run_it |]. split; [run_it |].
  pose proof (@interrupt_is_archived_and_propagated framework ∅
                (mkParams interrupted_config ∅) bundle out false false
                _ _ _ _ _ _
                (returned no_data _ H1)
                (returned no_setup _ H2) He
                (interrupted_pair _ _ Hr)) as G.
  cbv zeta in G. destruct G as (w' & E & _ & Hc & _).
  exists w'. split; [exact E | exact Hc].
Defined.

(** C4 as the spec states it fails: training is interrupted after a
    checkpoint, the archiver is called and fails on a file it was told to
    include, and the caller gets the archiver's error, not the interrupt;
    there is a checkpoint and no archive. *)
Lemma failed_archive_hides_the_interrupt :
  let c := interrupted_config in
  let files : gmap string string := {[ "extra" := "missing.txt" ]} in
  let s := setup_of c files false in
  let w2 := (built c files false).2 in
  let r := run ∅ c files false in
  raised (train (trainer s) (model w2) (fs w2)).1 = Some KeyboardInterrupt ∧
  os_path_exists (fs r.2) (os_path_join out "best.th") = true ∧
  count (is_call C_archive_model) (trace r.2) = 1 ∧
  raised r.1 = Some OSError ∧
  os_path_exists (fs r.2) (os_path_join out "model.tar.gz") = false.
Proof. by vm_compute. Qed.

Lemma leftover_keys_are_refused_witness :
  params (config (built with_typo ∅ false).2) ≠ ∅ ∧
  ∃ w',
    run ∅ with_typo ∅ false = (Raise leftover, w') ∧
    count (is_call C_train) (trace w') = 0.
Proof.
  assert (is_Ok (loaded with_typo ∅).1 = true) as H1 by run_it.
  assert (is_Ok (built with_typo ∅ false).1 = true) as H2 by run_it.
  assert (params (config (built with_typo ∅ false).2) ≠ ∅) as Hne.
  { intros E.
    apply (f_equal (λ m : gmap string value, bool_decide (m = ∅))) in E.
    vm_compute in E. discriminate E. }
  split; [exact Hne |].
  destruct (@leftover_keys_are_refused framework ∅ (mkParams with_typo ∅)
              bundle out false false _ _ _ _
              (returned no_data _ H1)
              (returned no_setup _ H2) Hne)
    as (w' & E & Hc & _).
  exists w'. split; [exact E | exact Hc].
Defined.


Abbreviation old_vocabulary :=
  ({[ "directory_path" := VStr "old_vocabulary" ]} : gmap string value).


Abbreviation run_strict c :=
  (fine_tune_model (H := strict) out true false
     (initial (H := strict) ∅ (mkParams c ∅) bundle)).


Abbreviation tagger := (VDict {[ "type" := VStr "crf_tagger" ]}).

Lemma model_section_is_ignored_witness :
  params (prepare_environment (mkParams (with_model tagger) ∅)).2 !! "model" =
    Some tagger ∧
  truthy tagger = true ∧
  count is_model_warning (trace (run ∅ (with_model tagger) ∅ false).2) =
    (if truthy tagger then 1 else 0).
Proof.
  assert (is_Ok (prepare_serialization_dir out false
                   (start ∅ (with_model tagger) ∅)).1 = true) as E1 by run_it.
  assert (params (prepare_environment (mkParams (with_model tagger) ∅)).2
            !! "model" = Some tagger) as L by run_it.
  split; [exact L |]. split; [run_it |].
  exact (proj1 (@model_section_is_ignored framework ∅
                  (mkParams (with_model tagger) ∅) bundle out false false
                  _ _ _ _ (returned_unit _ E1) L (ended _))).
Defined.

(** C8 as the spec states it fails: a configuration with an empty [model]
    section, or with [model] set to [null], runs to its end and the warning
    is not logged. *)
Lemma empty_model_section_goes_unwarned :
  params (prepare_environment (mkParams (with_model (VDict ∅)) ∅)).2
    !! "model" = Some (VDict ∅) ∧
  is_Ok (run ∅ (with_model (VDict ∅)) ∅ false).1 = true ∧
  count is_model_warning
    (trace (run ∅ (with_model (VDict ∅)) ∅ false).2) = 0 ∧
  is_Ok (run ∅ (with_model VNone) ∅ false).1 = true ∧
  count is_model_warning (trace (run ∅ (with_model VNone) ∅ false).2) = 0.
Proof. by vm_compute. Qed.

Lemma test_metrics_are_prefixed_witness :
  test_data (setup_of with_test ∅ false) = Some ["d"] ∧
  truthy (evaluate_on_test (setup_of with_test ∅ false)) = true ∧
  ∃ final,
    fs (run ∅ with_test ∅ false).2 !! metrics_path out =
      Some (File (JsonText 2 (VDict final))) ∧
    final !! "test_accuracy" = Some (VFloat 9 (-1)) ∧
    is_Some (final !! "training_loss").
Proof.
  assert (is_Ok (loaded with_test ∅).1 = true) as H1 by run_it.
  assert (is_Ok (built with_test ∅ false).1 = true) as H2 by run_it.
  assert (is_Ok (run ∅ with_test ∅ false).1 = true) as H3 by run_it.
  assert (test_data (setup_of with_test ∅ false) = Some ["d"]) as Hd by run_it.
  assert (truthy (evaluate_on_test (setup_of with_test ∅ false)) = true)
    as Ht by run_it.
  split; [exact Hd |]. split; [exact Ht |].
  destruct (@test_metrics_are_prefixed framework ∅ (mkParams with_test ∅)
              bundle out false false _ _ _ _ _ _ "d" []
              (returned no_data _ H1) (returned no_setup _ H2)
              (returned bundle _ H3) Hd Ht)
    as (metrics & test_metrics & final & device & Et & _ & Ee & Hf & Hp
        & Hk & _).
  exists final. split; [exact Hf |]. split.
  - apply Hp.
    rewrite <- (f_equal (the (∅ : gmap string value)) Ee : _ = test_metrics).
    run_it.
  - apply Hk.
    rewrite <- (f_equal (the (∅ : gmap string value)) Et : _ = metrics).
    decide_it.
Defined.

Lemma vocab_sources_key_needs_extend_vocab_witness :
  is_Some (params (mkParams (with_sources ["train"]) ∅) !! vocab_sources) ∧
  (∃ w',
     run ∅ (with_sources ["train"]) ∅ false = (Raise leftover, w') ∧
     count (is_pop_of vocab_sources) (trace w') = 0 ∧
     count (is_call C_train) (trace w') = 0) ∧
  is_Ok (run ∅ (with_sources ["train"]) ∅ true).1 = true.
Proof.
  assert (is_Ok (loaded (with_sources ["train"]) ∅).1 = true) as H1 by run_it.
  assert (is_Ok (built (with_sources ["train"]) ∅ false).1 = true)
    as H2 by run_it.
  assert (is_Some (params (mkParams (with_sources ["train"]) ∅)
                     !! vocab_sources)) as Hk by decide_it.
  assert (∀ q, is_Some (params q !! vocab_sources) →
               is_Some (params (prepare_environment (AllenNLP := framework)
                                  q).2 !! vocab_sources)) as Henv.
  { intros q Hq. simpl. unfold drop_keys. simpl.
    by rewrite !lookup_delete_ne. }
  assert (∀ q, is_Some (params q !! vocab_sources) →
               is_Some (params (datasets_from_params (AllenNLP := framework)
                                  q).2 !! vocab_sources)) as Hds.
  { intros q Hq. simpl. unfold datasets.
    destruct (params q !! "train_data_path"); [| exact Hq].
    simpl. unfold drop_keys. simpl. by rewrite !lookup_delete_ne. }
  split; [exact Hk |]. split; [| run_it].
  exact (proj1 (@vocab_sources_key_needs_extend_vocab framework ∅
                  (mkParams (with_sources ["train"]) ∅) bundle out false
                  _ _ _ _ Hk Henv Hds
                  (returned no_data _ H1) (returned no_setup _ H2))).
Defined.

End witnesses.

(** * The further properties at work on the small framework *)

Section outcomes.

(** A collaborator that has returned, or raised, is the pair of that and of
    the state it left. *)
Lemma completed_unit {S} (c : result () * S) :
  is_Ok c.1 = true → c = (Ok (), c.2).
Proof. by destruct c as [[[]|e] s]. Qed.

Lemma completed_pair {A B C} (dflt : A) (c : result A * (B * C)) :
  is_Ok c.1 = true → c = (Ok (Demo.the dflt c.1), (c.2.1, c.2.2)).
Proof. by destruct c as [[a|e] [b c]]. Qed.

Lemma failed {A S} (c : result A * S) e :
  raised c.1 = Some e → c = (Raise e, c.2).
Proof. destruct c as [[a|e'] s]; simpl; [done |]. by intros [= ->]. Qed.

End outcomes.

Section further_witnesses.
Import Demo.

Ltac run_it := vm_compute; reflexivity.
Ltac decide_it := refine (bool_decide_eq_true_1 _ _); vm_compute; reflexivity.

Lemma serialization_dir_must_not_be_a_file_witness :
  taken !! out = Some (File (Blob "notes")) ∧
  (run taken base_config ∅ false).1 = Raise OSError ∧
  fs (run taken base_config ∅ false).2 = taken.
Proof.
  assert (taken !! out = Some (File (Blob "notes"))) as L by run_it.
  split; [exact L |].
  destruct (@serialization_dir_must_not_be_a_file framework taken
              (mkParams base_config ∅) bundle out false false _ L)
    as (r & w' & E & _ & Hr & Hfs & _).
  rewrite E. cbn [fst snd]. split; [| exact Hfs].
  apply Hr. reflexivity.
Defined.

Lemma empty_directory_is_accepted_witness :
  os_listdir vacant out = Ok [] ∧
  os_makedirs out vacant = (Ok (), vacant) ∧
  ∃ rest,
    trace (run vacant base_config ∅ false).2 =
      Call C_prepare_environment :: Makedirs out ::
      Call C_prepare_global_logging :: rest.
Proof.
  assert (os_listdir vacant out = Ok []) as L by run_it.
  assert (∀ k, 0 < k ≤ length out → vacant !! take k out = Some Dir) as Hk.
  { intros k Hk. assert (k = 1) as -> by (simpl in Hk; lia). run_it. }
  split; [exact L |].
  exact (@empty_directory_is_accepted framework vacant
           (mkParams base_config ∅) bundle out false false _ _
           L Hk eq_refl (ended _)).
Defined.

Lemma other_training_errors_are_not_archived_witness :
  raised (trained_on fragile out_of_memory ∅ false).1 =
    Some (RuntimeError "CUDA out of memory") ∧
  ∃ w',
    run_on fragile ∅ out_of_memory ∅ false =
      (Raise (RuntimeError "CUDA out of memory"), w') ∧
    count (is_call C_archive_model) (trace w') = 0.
Proof.
  assert (is_Ok (loaded_on fragile out_of_memory ∅).1 = true) as H1 by run_it.
  assert (is_Ok (built_on fragile out_of_memory ∅ false).1 = true)
    as H2 by run_it.
  assert (params (config (built_on fragile out_of_memory ∅ false).2) = ∅)
    as He by decide_it.
  assert (raised (trained_on fragile out_of_memory ∅ false).1 =
          Some (RuntimeError "CUDA out of memory")) as Hr by run_it.
  split; [exact Hr |].
  destruct (@other_training_errors_are_not_archived fragile ∅
              (mkParams out_of_memory ∅) bundle out false false
              _ _ _ _ _ _ _
              (returned (H := fragile) no_data _ H1)
              (returned (H := fragile) (no_setup_on fragile) _ H2) He
              (interrupted_pair _ _ Hr) eq_refl)
    as (w' & E & _ & Hc & _).
  exists w'. split; [exact E | exact Hc].
Defined.

Lemma completed_run_returns_the_trained_model_witness :
  nonempty (test_data (setup_of with_test_only ∅ false)) = true ∧
  truthy (evaluate_on_test (setup_of with_test_only ∅ false)) = false ∧
  ∃ metrics w',
    run ∅ with_test_only ∅ false =
      (Ok (trained_on framework with_test_only ∅ false).2.1, w') ∧
    fs w' !! metrics_path out = Some (File (JsonText 2 (VDict metrics))) ∧
    metrics !! "training_loss" = Some (VFloat 5 (-1)) ∧
    count (is_call C_evaluate) (trace w') = 0.
Proof.
  assert (is_Ok (loaded with_test_only ∅).1 = true) as H1 by run_it.
  assert (is_Ok (built with_test_only ∅ false).1 = true) as H2 by run_it.
  assert (params (config (built with_test_only ∅ false).2) = ∅) as He
    by decide_it.
  assert (is_Ok (trained_on framework with_test_only ∅ false).1 = true)
    as H3 by run_it.
  assert (is_Ok (archived_on framework with_test_only ∅ false).1 = true)
    as H4 by run_it.
  assert (nonempty (test_data (setup_of with_test_only ∅ false)) = true)
    as Hn by run_it.
  assert (truthy (evaluate_on_test (setup_of with_test_only ∅ false)) = false)
    as Ht by run_it.
  assert ((archived_on framework with_test_only ∅ false).2 !! out = Some Dir)
    as Hd by run_it.
  assert ((archived_on framework with_test_only ∅ false).2
            !! metrics_path out = None) as Hq by run_it.
  split; [exact Hn |]. split; [exact Ht |].
  destruct (@completed_run_returns_the_trained_model framework ∅
              (mkParams with_test_only ∅) bundle out false false
              _ _ _ _ _ _ _ _
              (returned no_data _ H1) (returned no_setup _ H2) He
              (completed_pair ∅ _ H3) (completed_unit _ H4)
              (eq_trans (f_equal (andb _) Ht) (andb_false_r _))
              Hd (λ E, eq_ind None (λ o, if o is None then True else False)
                         I _ (eq_trans (eq_sym Hq) E)))
    as (w' & E & _ & Hfs & _ & Hc).
  eexists _, w'. split; [exact E |]. split; [| split; [| exact Hc]].
  - rewrite Hfs. apply lookup_insert_eq.
  - run_it.
Defined.

Lemma failed_archive_stops_the_report_witness :
  let files : gmap string string := {[ "extra" := "missing.txt" ]} in
  raised (archived_on framework base_config files false).1 = Some OSError ∧
  ∃ w',
    run ∅ base_config files false = (Raise OSError, w') ∧
    count (is_call C_evaluate) (trace w') = 0 ∧
    count is_write_file (trace w') =
      count is_write_file (trace (built base_config files false).2).
Proof.
  cbv zeta.
  assert (is_Ok (loaded base_config {[ "extra" := "missing.txt" ]}).1 = true)
    as H1 by run_it.
  assert (is_Ok (built base_config {[ "extra" := "missing.txt" ]} false).1 =
          true) as H2 by run_it.
  assert (params (config (built base_config {[ "extra" := "missing.txt" ]}
                            false).2) = ∅) as He by decide_it.
  assert (is_Ok (trained_on framework base_config
                   {[ "extra" := "missing.txt" ]} false).1 = true)
    as H3 by run_it.
  assert (raised (archived_on framework base_config
                    {[ "extra" := "missing.txt" ]} false).1 = Some OSError)
    as H4 by run_it.
  split; [exact H4 |].
  destruct (@failed_archive_stops_the_report framework ∅
              (mkParams base_config {[ "extra" := "missing.txt" ]}) bundle
              out false false _ _ _ _ _ _ _ _ _
              (returned no_data _ H1) (returned no_setup _ H2) He
              (completed_pair ∅ _ H3) (failed _ _ H4))
    as (w' & E & _ & Hc & Hw & _).
  exists w'. split; [exact E |]. split; [exact Hc | exact Hw].
Defined.

Lemma failed_evaluation_leaves_no_metrics_witness :
  test_data (setup_on fragile with_test ∅ false) = Some ["d"] ∧
  truthy (evaluate_on_test (setup_on fragile with_test ∅ false)) = true ∧
  ∃ w',
    run_on fragile ∅ with_test ∅ false =
      (Raise (RuntimeError "size mismatch"), w') ∧
    count (is_call C_archive_model) (trace w') = 1 ∧
    count is_write_file (trace w') =
      count is_write_file (trace (built_on fragile with_test ∅ false).2).
Proof.
  assert (is_Ok (loaded_on fragile with_test ∅).1 = true) as H1 by run_it.
  assert (is_Ok (built_on fragile with_test ∅ false).1 = true) as H2 by run_it.
  assert (params (config (built_on fragile with_test ∅ false).2) = ∅) as He
    by decide_it.
  assert (is_Ok (trained_on fragile with_test ∅ false).1 = true)
    as H3 by run_it.
  assert (is_Ok (archived_on fragile with_test ∅ false).1 = true)
    as H4 by run_it.
  assert (test_data (setup_on fragile with_test ∅ false) = Some ["d"])
    as Hd by run_it.
  assert (truthy (evaluate_on_test (setup_on fragile with_test ∅ false)) =
          true) as Ht by run_it.
  assert (match _cuda_devices (AllenNLP := fragile)
                  (trainer (setup_on fragile with_test ∅ false)) with
          | [] => Raise IndexError
          | device :: _ =>
              evaluate (AllenNLP := fragile)
                (trained_on fragile with_test ∅ false).2.1 ["d"]
                (iterator (setup_on fragile with_test ∅ false)) device
          end = Raise (RuntimeError "size mismatch")) as Hx by run_it.
  split; [exact Hd |]. split; [exact Ht |].
  destruct (@failed_evaluation_leaves_no_metrics fragile ∅
              (mkParams with_test ∅) bundle out false false
              _ _ _ _ _ _ _ _ "d" [] _
              (returned (H := fragile) no_data _ H1)
              (returned (H := fragile) (no_setup_on fragile) _ H2) He
              (completed_pair ∅ _ H3) (completed_unit _ H4) Hd Ht Hx)
    as (w' & E & Ha & _ & Hw & _).
  exists w'. split; [exact E |]. split; [exact Ha | exact Hw].
Defined.

Lemma trainer_is_built_from_the_frozen_model_witness :
  ∃ section train_data,
    params (config (loaded base_config ∅).2) !! "trainer" =
      Some (VDict section) ∧
    section !! "no_grad" = Some (VList [VStr "bias"]) ∧
    dict_get (datasets_of base_config ∅).2 "train" = Some train_data ∧
    Trainer_from_params (model (built base_config ∅ false).2) out
      (iterator (setup_of base_config ∅ false)) train_data
      (dict_get (datasets_of base_config ∅).2 "validation")
      (VDict (delete "no_grad" section)) =
      Ok (trainer (setup_of base_config ∅ false)).
Proof.
  assert (is_Ok (built base_config ∅ false).1 = true) as H2 by run_it.
  destruct (@trainer_is_built_from_the_frozen_model framework out false
              _ _ _ _ _ (returned no_setup _ H2))
    as (ip & plain & section & train_data & _ & _ & _ & Hs & _ & Ht & _ & Hb).
  exists section, train_data. split; [exact Hs |]. split; [| by split].
  assert (params (config (loaded base_config ∅).2) !! "trainer" =
          Some (VDict {[ "no_grad" := VList [VStr "bias"] ]})) as L by run_it.
  rewrite L in Hs. injection Hs as <-. run_it.
Defined.

Lemma missing_train_split_is_a_key_error_witness :
  dict_get validation_only "train" = None ∧
  (build_trainer (H := framework) out false (VDict ∅) validation_only
     (start ∅ base_config ∅)).1 = Raise (KeyError "train").
Proof.
  assert (dict_get validation_only "train" = None) as Hn by run_it.
  split; [exact Hn |].
  destruct (@missing_train_split_is_a_key_error framework out false (VDict ∅)
              validation_only (start ∅ base_config ∅) _ _ Hn (ended _))
    as (_ & _ & _ & _ & Hr).
  apply Hr. run_it.
Defined.

Lemma default_vocabulary_sources_are_all_datasets_witness :
  params (config (start ∅ base_config ∅)) !! vocab_sources = None ∧
  vocab (model (extend_vocabulary (H := framework) (VDict ∅) train_and_test
                  (start ∅ base_config ∅)).2) =
    ["a"; "b"; "c"; "a"; "d"].
Proof.
  assert (params (config (start ∅ base_config ∅)) !! vocab_sources = None)
    as Hk by run_it.
  split; [exact Hk |].
  destruct (@default_vocabulary_sources_are_all_datasets framework (VDict ∅)
              train_and_test (start ∅ base_config ∅) Hk)
    as (r & w1 & E & Hx & _).
  rewrite E. cbn [fst snd].
  exact (f_equal snd Hx).
Defined.

Abbreviation saved_on c files extend_vocab :=
  (save_vocabulary (H := framework) out extend_vocab
     (datasets_of c files).1 (datasets_of c files).2 (loaded c files).2).

Lemma saved_vocabulary_is_the_models_witness :
  is_Ok (saved_on base_config ∅ true).1 = true ∧
  vocab (model (saved_on base_config ∅ true).2) = ["a"; "b"; "c"; "a"] ∧
  ((saved_on base_config ∅ true).1, fs (saved_on base_config ∅ true).2) =
    save_to_files (vocab (model (saved_on base_config ∅ true).2))
      (os_path_join out "vocabulary") (fs (loaded base_config ∅).2) ∧
  last (trace (saved_on base_config ∅ true).2) = Some (Call C_save_to_files).
Proof.
  assert (is_Ok (saved_on base_config ∅ true).1 = true) as H2 by run_it.
  split; [exact H2 |]. split; [run_it |].
  destruct (@saved_vocabulary_is_the_models framework out true
              _ _ _ _ _ (ended (built base_config ∅ true)))
    as (r1 & w1 & E1 & _ & [(_ & Hr & _)|(Hf & _ & Hl & _)]).
  - rewrite E1 in H2. simpl in H2. rewrite H2 in Hr. discriminate Hr.
  - rewrite E1. simpl. split; [exact Hf | exact Hl].
Defined.

Lemma absent_no_grad_freezes_nothing_witness :
  params (config (loaded without_no_grad ∅).2) !! "trainer" =
    Some (VDict {[ "num_epochs" := VInt 2 ]}) ∧
  named_parameters (model (built without_no_grad ∅ false).2) =
    named_parameters (model (loaded without_no_grad ∅).2).
Proof.
  assert (params (config (loaded without_no_grad ∅).2) !! "trainer" =
          Some (VDict {[ "num_epochs" := VInt 2 ]})) as L by run_it.
  split; [exact L |].
  refine (proj1 (@absent_no_grad_freezes_nothing framework out false
                   _ _ _ _ _ _ (ended (built without_no_grad ∅ false)))).
  intros section Hs. rewrite L in Hs. injection Hs as <-. run_it.
Defined.

Lemma string_no_grad_is_read_per_character_witness :
  matches_any (H := framework) (VList [VStr "bias"]) "encoder.weight" =
    Ok false ∧
  ∃ q',
    named_parameters
      (model (freeze_parameters (VStr "bias") (start ∅ base_config ∅)).2)
      !! 1 = Some ("encoder.weight", q') ∧
    requires_grad q' = false.
Proof.
  split; [run_it |].
  assert (is_Ok (freeze_parameters (VStr "bias")
                   (start ∅ base_config ∅)).1 = true) as E by run_it.
  destruct (@string_no_grad_is_read_per_character framework
              (start ∅ base_config ∅) "bias" _ 1 "encoder.weight"
              (weights false) "i" (returned_unit _ E) eq_refl)
    as (q' & L & _ & Hq).
  - right. by left.
  - run_it.
  - exists q'. by split.
Defined.

Lemma loading_failures_stop_before_the_workflow_witness :
  fine_tune_model_from_args command ∅ =
    (Raise OSError, (∅, [LoadArchive ["model.tar.gz"]])) ∧
  fine_tune_model_from_args command
    {[ ["model.tar.gz"] := File (Blob "archive") ]} =
    (Raise OSError,
     ({[ ["model.tar.gz"] := File (Blob "archive") ]},
      [LoadArchive ["model.tar.gz"]; ParamsFromFile ["fine_tune.json"] ""])).
Proof.
  split.
  - exact (proj1 (@loading_failures_stop_before_the_workflow framework
                    archives command ∅) OSError eq_refl).
  - exact (proj1 (proj2 (@loading_failures_stop_before_the_workflow framework
                    archives command
                    {[ ["model.tar.gz"] := File (Blob "archive") ]}))
             OSError eq_refl eq_refl).
Defined.

Lemma command_refuses_a_used_directory_after_loading_witness :
  os_listdir shelf out = Ok ["stdout.log"] ∧
  fine_tune_model_from_args command shelf =
    (Raise refusal,
     (shelf, [LoadArchive ["model.tar.gz"];
              ParamsFromFile ["fine_tune.json"] "";
              Workflow (Call C_prepare_environment)])).
Proof.
  assert (os_listdir shelf out = Ok ["stdout.log"]) as L by run_it.
  split; [exact L |].
  exact (@command_refuses_a_used_directory_after_loading framework archives
           command shelf (Archive.mk bundle) shelf (mkParams base_config ∅)
           shelf "stdout.log" [] eq_refl eq_refl L eq_refl).
Defined.

Lemma vocabulary_section_must_be_a_mapping_witness :
  params (prepare_environment (mkParams with_null_vocabulary ∅)).2
    !! "vocabulary" = Some VNone ∧
  ∃ w',
    run ∅ with_null_vocabulary ∅ false = (Raise AttributeError, w') ∧
    count (is_call C_datasets_from_params) (trace w') = 0.
Proof.
  assert (is_Ok (prepare_serialization_dir out false
                   (start ∅ with_null_vocabulary ∅)).1 = true) as E1 by run_it.
  assert (params (prepare_environment (mkParams with_null_vocabulary ∅)).2
            !! "vocabulary" = Some VNone) as L by run_it.
  split; [exact L |].
  destruct (@vocabulary_section_must_be_a_mapping framework ∅
              (mkParams with_null_vocabulary ∅) bundle out false false
              _ _ (returned_unit _ E1) L
              (λ section E, eq_ind VNone
                 (λ v, if v is VNone then True else False) I _ E))
    as (w' & E & Hc & _).
  exists w'. split; [exact E | exact Hc].
Defined.

Lemma unknown_key_is_refused_witness :
  ("trainers" ∉ own_keys true) ∧
  is_Some (params (mkParams with_typo ∅) !! "trainers") ∧
  ∃ w',
    run ∅ with_typo ∅ true = (Raise leftover, w') ∧
    is_Some (params (config w') !! "trainers") ∧
    count (is_call C_train) (trace w') = 0.
Proof.
  assert (is_Ok (loaded with_typo ∅).1 = true) as H1 by run_it.
  assert (is_Ok (built with_typo ∅ true).1 = true) as H2 by run_it.
  assert ("trainers" ∉ own_keys true) as Hn.
  { intros Hin.
    apply (bool_decide_eq_true_2 ("trainers" ∈ own_keys true)) in Hin.
    vm_compute in Hin. discriminate Hin. }
  assert (is_Some (params (mkParams with_typo ∅) !! "trainers")) as Hk
    by decide_it.
  assert (∀ q, is_Some (params q !! "trainers") →
               is_Some (params (prepare_environment (AllenNLP := framework)
                                  q).2 !! "trainers")) as Henv.
  { intros q Hq. simpl. unfold drop_keys. simpl.
    by rewrite !lookup_delete_ne. }
  assert (∀ q, is_Some (params q !! "trainers") →
               is_Some (params (datasets_from_params (AllenNLP := framework)
                                  q).2 !! "trainers")) as Hds.
  { intros q Hq. simpl. unfold datasets.
    destruct (params q !! "train_data_path"); [| exact Hq].
    simpl. unfold drop_keys. simpl. by rewrite !lookup_delete_ne. }
  split; [exact Hn |]. split; [exact Hk |].
  destruct (@unknown_key_is_refused framework ∅ (mkParams with_typo ∅)
              bundle out true false "trainers" _ _ _ _ Hn Hk Henv Hds
              (returned no_data _ H1) (returned no_setup _ H2))
    as (w' & E & Hs & Hc & _).
  exists w'. split; [exact E |]. split; [exact Hs | exact Hc].
Defined.

Lemma sections_are_popped_in_order_witness :
  is_Ok (run ∅ base_config ∅ true).1 = true ∧
  pops (trace (run ∅ base_config ∅ true).2) =
    ["model"; "vocabulary"; "datasets_for_vocab_creation"; "iterator";
     "trainer"; "evaluate_on_test"].
Proof.
  assert (is_Ok (run ∅ base_config ∅ true).1 = true) as H3 by run_it.
  split; [exact H3 |].
  exact (proj2 (@sections_are_popped_in_order framework ∅
                  (mkParams base_config ∅) bundle out true false) H3).
Defined.

Lemma completed_run_cannot_be_repeated_witness :
  is_Ok (run ∅ base_config ∅ false).1 = true ∧
  ∃ w'',
    fine_tune_model (H := framework) out true false
      (initial (H := framework) (fs (run ∅ base_config ∅ false).2)
         (mkParams with_test ∅) bundle) = (Raise refusal, w'') ∧
    fs w'' = fs (run ∅ base_config ∅ false).2.
Proof.
  assert (is_Ok (run ∅ base_config ∅ false).1 = true) as H3 by run_it.
  split; [exact H3 |].
  destruct (@completed_run_cannot_be_repeated framework ∅
              (mkParams base_config ∅) bundle out false false _ _
              (mkParams with_test ∅) bundle true false
              (returned bundle _ H3) eq_refl)
    as (_ & w'' & E & Hfs & _).
  exists w''. split; [exact E | exact Hfs].
Defined.

Lemma failed_set_up_leaves_the_directory_in_use_witness :
  raised (run ∅ (with_sources ["train"; "dev"]) ∅ true).1 =
    Some invalid_source ∧
  count (is_call C_save_to_files)
    (trace (run ∅ (with_sources ["train"; "dev"]) ∅ true).2) = 0 ∧
  ∃ w'',
    fine_tune_model (H := framework) out true false
      (initial (H := framework)
         (fs (run ∅ (with_sources ["train"; "dev"]) ∅ true).2)
         (mkParams (with_sources ["train"]) ∅) bundle) =
      (Raise refusal, w'') ∧
    fs w'' = fs (run ∅ (with_sources ["train"; "dev"]) ∅ true).2.
Proof.
  assert (is_Ok (prepare_serialization_dir out false
                   (start ∅ (with_sources ["train"; "dev"]) ∅)).1 = true)
    as E1 by run_it.
  assert (count (is_call C_save_to_files)
            (trace (run ∅ (with_sources ["train"; "dev"]) ∅ true).2) = 0)
    as Hc by run_it.
  split; [run_it |]. split; [exact Hc |].
  destruct (@failed_set_up_leaves_the_directory_in_use framework ∅
              (mkParams (with_sources ["train"; "dev"]) ∅) bundle out true
              false _ _ _ (mkParams (with_sources ["train"]) ∅) bundle true
              false (returned_unit _ E1)
              (ended (run ∅ (with_sources ["train"; "dev"]) ∅ true))
              Hc eq_refl)
    as (_ & _ & w'' & E & Hfs).
  exists w''. split; [exact E | exact Hfs].
Defined.

Lemma workflow_writes_in_its_directory_only_witness :
  (os_makedirs deep ∅).2 !! ["a"; "b"] ≠ (∅ : filesystem) !! ["a"; "b"] ∧
  (os_makedirs deep ∅).2 !! ["a"; "b"] = Some Dir ∧
  ["a"; "b"] `prefix_of` deep ∧
  count is_makedirs
    (trace (fine_tune_model (H := framework) deep false false
              (start ∅ base_config ∅)).2) ≤ 1.
Proof.
  assert ((os_makedirs deep ∅).2 !! ["a"; "b"]
            ≠ (∅ : filesystem) !! ["a"; "b"]) as Hq.
  { rewrite lookup_empty. intros E.
    apply (f_equal (λ o : option node, bool_decide (is_Some o))) in E.
    vm_compute in E. discriminate E. }
  split; [exact Hq |].
  destruct (@workflow_writes_in_its_directory_only framework ∅
              (mkParams base_config ∅) bundle deep false false)
    as (_ & Hc & _ & _ & Hnew & _).
  destruct (Hnew _ Hq) as (_ & Hd & _ & Hp).
  split; [exact Hd |]. split; [exact Hp | exact Hc].
Defined.

Lemma vocabulary_sources_are_used_as_a_set_witness :
  (∀ v, v ∈ [VStr "train"; VStr "test"] ↔
        v ∈ [VStr "test"; VStr "train"; VStr "test"]) ∧
  instances_of (H := framework) train_and_test
    [VStr "test"; VStr "train"; VStr "test"] = ["c"; "a"; "d"].
Proof.
  assert (∀ v, v ∈ [VStr "train"; VStr "test"] ↔
               v ∈ [VStr "test"; VStr "train"; VStr "test"]) as Hl.
  { intros v. rewrite !elem_of_cons, !elem_of_nil. tauto. }
  split; [exact Hl |].
  destruct (@vocabulary_sources_are_used_as_a_set framework train_and_test
              _ _ Hl) as (_ & Hi & _).
  rewrite <- Hi. run_it.
Defined.

End further_witnesses.
